(** * MiniVault: the generation-and-logging pipeline

    A shallow embedding of [services/llm_service.py] (class [OllamaService]),
    [services/logging_service.py] (class [InteractionLogger]) and the
    handlers of [app.py], followed by the properties of the specification
    that concern them and by further properties of the same code.

    Conventions.
    - A Python [str] is a [string] whose characters are the code points
      below 256; [isspace] and [lower] agree with CPython on that range.
    - A Python [int] is a [Z]; a Python [float] is an IEEE 754 binary64
      value of [SpecFloat.spec_float], with the operations of the standard
      library's specification of binary64 arithmetic.
    - The dictionaries that the program passes around are association
      lists in insertion order ([dict]).
    - A function that reads the clock, talks to the model server or touches
      the log file is a computation of the monad [M], which threads the
      [world] and propagates exceptions; a generator function is a
      [generator], which suspends at each [yield].
    - What lies outside the repository is an input of the model: the
      replies of the model server, the readings of the clock and the
      failures of the disk ([environment]), and the [json] module
      ([json_loads], [json_dumps]).
    - Calls to [logger] write to the diagnostic channel only and are left
      out.

    The file has three parts: the program, the vocabulary of the
    properties (with a reference JSON codec and the scenarios that the
    examples run), and the properties with their proofs. *)

From Stdlib Require Import ZArith List String Ascii Bool Lia Arith.
From Stdlib Require Import Floats.SpecFloat.
Import ListNotations.

#[local] Set Warnings "-register-all".

Local Open Scope string_scope.
Local Open Scope list_scope.
Local Open Scope Z_scope.

(* ================================================================== *)
(** * Python values *)
(* ================================================================== *)

(** ** Strings *)

(** [str.isspace] on one character, for the code points below 256. *)
Definition isspace (c : ascii) : bool :=
  let n := Z.of_nat (nat_of_ascii c) in
  ((9 <=? n) && (n <=? 13)) || ((28 <=? n) && (n <=? 32))
  || (n =? 133) || (n =? 160).

(** [str.lower] on one character: A-Z, and the Latin-1 capitals
    U+00C0..U+00DE except the multiplication sign U+00D7. *)
Definition lower_char (c : ascii) : ascii :=
  let n := Z.of_nat (nat_of_ascii c) in
  if ((65 <=? n) && (n <=? 90))
     || ((192 <=? n) && (n <=? 222) && negb (n =? 215))
  then ascii_of_nat (nat_of_ascii c + 32)
  else c.

Fixpoint lower (s : string) : string :=
  match s with
  | EmptyString => EmptyString
  | String c s' => String (lower_char c) (lower s')
  end.

Fixpoint lstrip (s : string) : string :=
  match s with
  | EmptyString => EmptyString
  | String c s' => if isspace c then lstrip s' else s
  end.

Fixpoint rstrip (s : string) : string :=
  match s with
  | EmptyString => EmptyString
  | String c s' =>
      match rstrip s' with
      | EmptyString => if isspace c then EmptyString else String c EmptyString
      | r => String c r
      end
  end.

(** [s.strip()]: whitespace is removed at both ends. *)
Definition strip (s : string) : string := rstrip (lstrip s).

(** [kw in s] for two strings. *)
Fixpoint contains (kw s : string) : bool :=
  String.prefix kw s
  || match s with
     | EmptyString => false
     | String _ s' => contains kw s'
     end.

(** The decimal numeral of an integer, as [str(n)] and an f-string print it. *)
Definition digit_char (d : Z) : ascii := ascii_of_nat (48 + Z.to_nat d).

Fixpoint decimal_digits (fuel : nat) (n : Z) (acc : string) : string :=
  match fuel with
  | O => acc
  | S fuel' =>
      let acc' := String (digit_char (n mod 10)) acc in
      if n <? 10 then acc' else decimal_digits fuel' (n / 10) acc'
  end.

Definition str_of_int (n : Z) : string :=
  let digits := decimal_digits (S (Z.to_nat (Z.log2 (Z.abs n)))) (Z.abs n) "" in
  if n <? 0 then String "-" digits else digits.

(** ** Exceptions *)

(** The three classes that the [except] clauses of the program tell apart:
    [requests.exceptions.Timeout], [json.JSONDecodeError], and every other
    [Exception].  The string is [str(e)]. *)
Inductive exn : Type :=
| Timeout (msg : string)
| JSONDecodeError (msg : string)
| PyError (msg : string).

Definition str_exn (e : exn) : string :=
  match e with Timeout m | JSONDecodeError m | PyError m => m end.

Inductive result (A : Type) : Type :=
| Ok (a : A)
| Raise (e : exn).
Arguments Ok {A} a.
Arguments Raise {A} e.

(** ** Floats *)

Definition float := spec_float.
Definition prec : Z := 53.
Definition emax : Z := 1024.

Definition is_infinite (f : float) : bool :=
  match f with S754_infinity _ => true | _ => false end.

(** [float(n)] for an [int]: nearest binary64, [OverflowError] beyond. *)
Definition float_of_int (n : Z) : result float :=
  let f := binary_normalize prec emax n 0 false in
  if is_infinite f
  then Raise (PyError "int too large to convert to float")
  else Ok f.

Definition int_as_finite (n : Z) : float :=
  match n with
  | Z0 => S754_zero false
  | Zpos p => S754_finite false p 0
  | Zneg p => S754_finite true p 0
  end.

(** [a / b] for two [int]s: the correctly rounded quotient. *)
Definition int_true_div (a b : Z) : result float :=
  if b =? 0 then Raise (PyError "division by zero")
  else if a =? 0 then Ok (S754_zero (b <? 0))
  else
    let f := SFdiv prec emax (int_as_finite a) (int_as_finite b) in
    if is_infinite f
    then Raise (PyError "integer division result too large for a float")
    else Ok f.

(** [int(f)]: truncation toward zero. *)
Definition int_of_float (f : float) : result Z :=
  match f with
  | S754_zero _ => Ok 0
  | S754_finite s m e =>
      let a := if 0 <=? e then Z.shiftl (Zpos m) e else Z.shiftr (Zpos m) (- e) in
      Ok (if s then - a else a)
  | S754_infinity _ => Raise (PyError "cannot convert float infinity to integer")
  | S754_nan => Raise (PyError "cannot convert float NaN to integer")
  end.

(** [round(f, 2)] for a [float]: the exact value is rounded to two decimals,
    ties to even, and the decimal is read back as the nearest binary64. *)
Definition round_half_even (n d : Z) : Z :=
  let q := n / d in
  let r := n mod d in
  match 2 * r ?= d with
  | Lt => q
  | Gt => q + 1
  | Eq => if Z.even q then q else q + 1
  end.

Definition round2 (f : float) : float :=
  match f with
  | S754_finite s m e =>
      if 0 <=? e then f
      else
        match round_half_even (Zpos m * 100) (Z.shiftl 1 (- e)) with
        | Zpos q => SFdiv prec emax (S754_finite s q 0) (S754_finite false 100 0)
        | _ => S754_zero s
        end
  | _ => f
  end.

(** ** Dynamically typed values *)

(** The values that flow through the program's dictionaries: what
    [json.loads] can return, and [datetime] objects (microseconds since
    0001-01-01T00:00:00). *)
Inductive pyval : Type :=
| VNone
| VBool (b : bool)
| VInt (n : Z)
| VFloat (f : float)
| VStr (s : string)
| VList (l : list pyval)
| VDict (d : list (string * pyval))
| VDatetime (t : Z).

Definition dict := list (string * pyval).

(** [bool(v)]. *)
Definition truthy (v : pyval) : bool :=
  match v with
  | VNone => false
  | VBool b => b
  | VInt n => negb (n =? 0)
  | VFloat f => match f with S754_zero _ => false | _ => true end
  | VStr s => negb (String.eqb s "")
  | VList l => match l with [] => false | _ => true end
  | VDict d => match d with [] => false | _ => true end
  | VDatetime _ => true
  end.

Definition type_name (v : pyval) : string :=
  match v with
  | VNone => "NoneType"
  | VBool _ => "bool"
  | VInt _ => "int"
  | VFloat _ => "float"
  | VStr _ => "str"
  | VList _ => "list"
  | VDict _ => "dict"
  | VDatetime _ => "datetime.datetime"
  end.

Definition no_attribute (v : pyval) (attr : string) : exn :=
  PyError ("'" ++ type_name v ++ "' object has no attribute '" ++ attr ++ "'")%string.

Fixpoint lookup (k : string) (d : dict) : option pyval :=
  match d with
  | [] => None
  | (k', v) :: d' => if String.eqb k k' then Some v else lookup k d'
  end.

(** [d.get(k, default)] on a dictionary. *)
Definition dict_get (d : dict) (k : string) (default : pyval) : pyval :=
  match lookup k d with Some v => v | None => default end.

(** [k in d]. *)
Definition dict_has (d : dict) (k : string) : bool :=
  match lookup k d with Some _ => true | None => false end.

(** [d[k] = v]: an existing key keeps its position. *)
Fixpoint dict_set (d : dict) (k : string) (v : pyval) : dict :=
  match d with
  | [] => [(k, v)]
  | (k', v') :: d' =>
      if String.eqb k k' then (k, v) :: d' else (k', v') :: dict_set d' k v
  end.

(** [v.get(k, default)] on any value: [AttributeError] unless [v] is a dict. *)
Definition py_get (v : pyval) (k : string) (default : pyval) : result pyval :=
  match v with
  | VDict d => Ok (dict_get d k default)
  | _ => Raise (no_attribute v "get")
  end.

(** [v.strip()]. *)
Definition py_strip (v : pyval) : result string :=
  match v with
  | VStr s => Ok (strip s)
  | _ => Raise (no_attribute v "strip")
  end.

Definition quote : string := String (ascii_of_nat 34) EmptyString.

(** [s += v] for a string [s]. *)
Definition str_iadd (s : string) (v : pyval) : result string :=
  match v with
  | VStr t => Ok (s ++ t)%string
  | _ => Raise (PyError ("can only concatenate str (not " ++ quote ++ type_name v
                         ++ quote ++ ") to str")%string)
  end.

(** [datetime.isoformat()]: [YYYY-MM-DDTHH:MM:SS], followed by [.ffffff]
    when the microseconds are not zero. *)
Fixpoint zeros (n : nat) : string :=
  match n with
  | O => EmptyString
  | S n' => String "0" (zeros n')
  end.

Definition padded (width : nat) (n : Z) : string :=
  let s := str_of_int n in
  (zeros (width - String.length s) ++ s)%string.

Definition civil_of_days (days : Z) : Z * Z * Z :=
  let z := days + 306 in
  let era := z / 146097 in
  let doe := z - era * 146097 in
  let yoe := (doe - doe / 1460 + doe / 36524 - doe / 146096) / 365 in
  let doy := doe - (365 * yoe + yoe / 4 - yoe / 100) in
  let mp := (5 * doy + 2) / 153 in
  let d := doy - (153 * mp + 2) / 5 + 1 in
  let m := if mp <? 10 then mp + 3 else mp - 9 in
  let y := yoe + era * 400 + (if m <=? 2 then 1 else 0) in
  (y, m, d).

Definition isoformat (t : Z) : string :=
  let '(y, m, d) := civil_of_days (t / 86400000000) in
  let rest := t mod 86400000000 in
  let secs := rest / 1000000 in
  let us := rest mod 1000000 in
  let hh := padded 2 (secs / 3600) in
  let mm := padded 2 ((secs / 60) mod 60) in
  let ss := padded 2 (secs mod 60) in
  let fraction := if us =? 0 then "" else String "." (padded 6 us) in
  (padded 4 y ++ "-" ++ padded 2 m ++ "-" ++ padded 2 d ++ "T"
   ++ hh ++ ":" ++ mm ++ ":" ++ ss ++ fraction)%string.

(** [int((end_time - start_time).total_seconds() * 1000)]:
    [total_seconds()] divides the microseconds by [10**6] as a float. *)
Definition thousand : float := binary_normalize prec emax 1000 0 false.

Definition elapsed_ms (start_time end_time : Z) : result Z :=
  match int_true_div (end_time - start_time) 1000000 with
  | Ok total_seconds => int_of_float (SFmul prec emax total_seconds thousand)
  | Raise e => Raise e
  end.

(* ================================================================== *)
(** * The outside world *)
(* ================================================================== *)

(** One line of [response.iter_lines()], by what the loop body of
    [generate_response_stream] makes of it: an empty line, a line that
    [decode('utf-8')] rejects, a line that [json.loads] rejects, or the
    value that [json.loads] returns. *)
Inductive stream_line : Type :=
| Blank
| Undecodable (msg : string)
| Malformed (msg : string)
| Parsed (chunk_data : pyval).

(** A [requests.Response] of [POST /api/generate]. [json_body] is the
    outcome of [response.json()]; [lines] is what [iter_lines()] delivers,
    and [lines_end] the exception that ends the iteration, if one does. *)
Record response : Type := {
  status_code : Z;
  json_body : result pyval;
  lines : list stream_line;
  lines_end : option exn
}.

(** A [requests.Response] of [GET /api/tags]. [tags_names] is the outcome
    of [[model["name"] for model in response.json().get("models", [])]],
    the names being [str] as [get_available_models] declares. *)
Record tags_response : Type := {
  tags_status : Z;
  tags_names : result (list string)
}.

Inductive http_call : Type :=
| GET (url : string)
| POST (url : string) (payload : dict).

(** What the process finds around it during one run: the clock (the n-th
    reading of [datetime.now()]), the model server (the reply to the n-th
    [GET /api/tags], the reply to a [POST /api/generate] with a given
    payload), and the disk (whether opening the log file for appending, or
    for reading, fails at a given moment). *)
Record environment : Type := {
  now_at : nat -> Z;
  tags_reply : nat -> result tags_response;
  post_reply : dict -> result response;
  write_error : nat -> option exn;
  read_error : nat -> option exn
}.

(** The state that a run changes: the number of clock readings so far, the
    requests sent to the model server so far, and the log file ([None] when
    it does not exist, else its lines, each with its line terminator). *)
Record world : Type := {
  ticks : nat;
  sent : list http_call;
  log_file : option (list string)
}.

Definition is_get (c : http_call) : bool :=
  match c with GET _ => true | POST _ _ => false end.

(** ** Computations: state and exceptions *)

Definition M (A : Type) : Type := world -> result A * world.

Definition ret {A} (a : A) : M A := fun w => (Ok a, w).

Definition raise {A} (e : exn) : M A := fun w => (Raise e, w).

Definition bind {A B} (c : M A) (k : A -> M B) : M B :=
  fun w =>
    match c w with
    | (Ok a, w') => k a w'
    | (Raise e, w') => (Raise e, w')
    end.

(** [try: c  except ... as e: h e]. *)
Definition try_except {A} (c : M A) (h : exn -> M A) : M A :=
  fun w =>
    match c w with
    | (Ok a, w') => (Ok a, w')
    | (Raise e, w') => h e w'
    end.

Definition lift {A} (r : result A) : M A := fun w => (r, w).

Declare Scope monad_scope.
Delimit Scope monad_scope with monad.
Notation "x <- c1 ;; c2" := (bind c1 (fun x => c2))
  (at level 61, c1 at next level, right associativity) : monad_scope.
Notation "c1 ;; c2" := (bind c1 (fun _ => c2))
  (at level 61, right associativity) : monad_scope.
Local Open Scope monad_scope.

(** Python's [x or y] on an optional string: [None] and [""] are falsy. *)
Definition str_or (x : option string) (y : string) : string :=
  match x with
  | Some s => if String.eqb s "" then y else s
  | None => y
  end.

(** [bool(l)] for a list. *)
Definition nonempty {A} (l : list A) : bool :=
  match l with [] => false | _ :: _ => true end.

(** [x in l] for a list of strings. *)
Definition str_in (x : string) (l : list string) : bool :=
  existsb (String.eqb x) l.

(** ** Generators *)

(** A generator that has been advanced to its next suspension point: it has
    finished, or it has yielded a value and holds the computation that
    resumes it.  A generator not yet started is a [generator]: running it
    is the first [next()]. *)
Inductive gen (A : Type) : Type :=
| Done
| Yield (a : A) (resume : world -> result (gen A) * world).
Arguments Done {A}.
Arguments Yield {A} a resume.

Definition generator (A : Type) : Type := M (gen A).

Definition stop {A} : generator A := ret Done.

(** [yield a], followed by the rest of the body. *)
Definition yield {A} (a : A) (rest : generator A) : generator A :=
  ret (Yield a rest).

(** A [try] block whose body yields: the handler stays in force each time
    the body is resumed; the handler's own yields are outside the block. *)
Fixpoint guard_gen {A} (h : exn -> generator A) (g : gen A) : gen A :=
  match g with
  | Done => Done
  | Yield a resume =>
      Yield a (fun w =>
                 match resume w with
                 | (Ok g', w') => (Ok (guard_gen h g'), w')
                 | (Raise e, w') => h e w'
                 end)
  end.

Definition try_gen {A} (c : generator A) (h : exn -> generator A) : generator A :=
  fun w =>
    match c w with
    | (Ok g, w') => (Ok (guard_gen h g), w')
    | (Raise e, w') => h e w'
    end.

(** Exhausting a generator: the values yielded, the exception that ended
    it if one did, and the world afterwards. *)
Fixpoint collect {A} (g : gen A) (w : world) : list A * option exn * world :=
  match g with
  | Done => ([], None, w)
  | Yield a resume =>
      match resume w with
      | (Ok g', w') =>
          let '(l, e, w'') := collect g' w' in (a :: l, e, w'')
      | (Raise e, w') => ([a], Some e, w')
      end
  end.

Definition run_gen {A} (c : generator A) (w : world) : list A * option exn * world :=
  match c w with
  | (Ok g, w') => collect g w'
  | (Raise e, w') => ([], Some e, w')
  end.

(* ================================================================== *)
(** * services/llm_service.py *)
(* ================================================================== *)

Record OllamaService : Type := {
  base_url : string;
  default_model : string;
  timeout : Z
}.

(** The literal [fallback_responses] of [_get_fallback_response] and of
    [_get_fallback_stream_response], in the order of its items. *)
Definition fallback_responses : list (string * string) :=
  [ ("hello", "Hello! I'm a fallback response since the LLM service is currently unavailable.");
    ("what", "I'm sorry, I cannot provide a detailed answer right now as the LLM service is unavailable. This is a fallback response.");
    ("how", "I'd love to help explain that, but the LLM service is currently unavailable. This is a fallback response.");
    ("why", "That's an interesting question! Unfortunately, the LLM service is unavailable right now, so this is a fallback response.");
    ("explain", "I'd be happy to explain that topic, but the LLM service is currently unavailable. This is a fallback response.") ].

Definition generic_fallback_text : string :=
  "I apologize, but the LLM service is currently unavailable. This is a fallback response to your prompt.".

(** [for keyword, response in items: if keyword in prompt_lower: ...; break]. *)
Fixpoint scan_keywords (items : list (string * string)) (prompt_lower : string)
    (fallback_text : string) : string :=
  match items with
  | [] => fallback_text
  | (keyword, response) :: rest =>
      if contains keyword prompt_lower then response
      else scan_keywords rest prompt_lower fallback_text
  end.

(** The text that both fallback functions select (each has its own copy of
    these lines). *)
Definition select_fallback_text (prompt : string) : string :=
  let prompt_lower := lower prompt in
  let fallback_text := generic_fallback_text in
  scan_keywords fallback_responses prompt_lower fallback_text.

Section Pipeline.

Variable env : environment.

(** [datetime.now()]. *)
Definition datetime_now : M Z :=
  fun w =>
    (Ok (now_at env (ticks w)),
     {| ticks := S (ticks w); sent := sent w; log_file := log_file w |}).

Definition record_call (c : http_call) (w : world) : world :=
  {| ticks := ticks w; sent := sent w ++ [c]; log_file := log_file w |}.

(** [requests.get(url, timeout=5)]. *)
Definition requests_get (url : string) : M tags_response :=
  fun w =>
    (tags_reply env (List.length (filter is_get (sent w))), record_call (GET url) w).

(** [requests.post(url, json=payload, timeout=...)]. *)
Definition requests_post (url : string) (payload : dict) : M response :=
  fun w => (post_reply env payload, record_call (POST url payload) w).

Section Service.

Variable self : OllamaService.

Definition tags_url : string := (base_url self ++ "/api/tags")%string.
Definition generate_url : string := (base_url self ++ "/api/generate")%string.

Definition is_available : M bool :=
  try_except
    (response <- requests_get tags_url ;;
     ret (tags_status response =? 200))
    (fun _ => ret false).

Definition get_available_models : M (list string) :=
  try_except
    (response <- requests_get tags_url ;;
     if tags_status response =? 200
     then lift (tags_names response)
     else ret [])
    (fun _ => ret []).

Definition _get_fallback_response (prompt model error_reason : string) : M dict :=
  let fallback_text := select_fallback_text prompt in
  now <- datetime_now ;;
  ret [ ("response", VStr fallback_text);
        ("model", VStr (model ++ " (fallback)"));
        ("timestamp", VDatetime now);
        ("duration_ms", VInt 0);
        ("success", VBool false);
        ("error_reason", VStr error_reason) ].

Definition _get_fallback_stream_response (prompt model error_reason : string) : M dict :=
  let fallback_text := select_fallback_text prompt in
  now <- datetime_now ;;
  ret [ ("token", VStr fallback_text);
        ("model", VStr (model ++ " (fallback)"));
        ("timestamp", VStr (isoformat now));
        ("done", VBool true);
        ("success", VBool false);
        ("error_reason", VStr error_reason);
        ("duration_ms", VInt 0);
        ("full_response", VStr fallback_text) ].

Definition generate_payload (model_name prompt : string) (stream : bool) : dict :=
  [ ("model", VStr model_name); ("prompt", VStr prompt); ("stream", VBool stream) ].

(** The [try] statement of [generate_response]. *)
Definition generate_attempt (prompt model_name : string) : M dict :=
  try_except
    (start_time <- datetime_now ;;
     response <- requests_post generate_url (generate_payload model_name prompt false) ;;
     end_time <- datetime_now ;;
     duration_ms <- lift (elapsed_ms start_time end_time) ;;
     if status_code response =? 200 then
       data <- lift (json_body response) ;;
       text <- lift (py_get data "response" (VStr "")) ;;
       stripped <- lift (py_strip text) ;;
       ret [ ("response", VStr stripped);
             ("model", VStr model_name);
             ("timestamp", VDatetime end_time);
             ("duration_ms", VInt duration_ms);
             ("success", VBool true) ]
     else
       _get_fallback_response prompt model_name
         ("API error: " ++ str_of_int (status_code response)))
    (fun e =>
       match e with
       | Timeout _ => _get_fallback_response prompt model_name "Request timeout"
       | _ => _get_fallback_response prompt model_name (str_exn e)
       end).

Definition generate_response (prompt : string) (model : option string) : M dict :=
  let model_name := str_or model (default_model self) in
  available <- is_available ;;
  if negb available then
    _get_fallback_response prompt model_name "Ollama service unavailable"
  else
    available_models <- get_available_models ;;
    if nonempty available_models && negb (str_in model_name available_models)
    then
      match available_models with
      | first :: _ => generate_attempt prompt first
      | [] => _get_fallback_response prompt model_name "No models available"
      end
    else generate_attempt prompt model_name.

(** The body of [for line in response.iter_lines()], from the line at hand
    to the end of the generator.  Inside the inner [try] only [json.loads]
    raises [json.JSONDecodeError], so a [Malformed] line is the one case
    that reaches [continue]. *)
Fixpoint stream_lines (model_name : string) (start_time : Z)
    (full_response : string) (ls : list stream_line) (ending : option exn)
    : generator dict :=
  match ls with
  | [] =>
      match ending with
      | Some e => raise e
      | None => stop
      end
  | line :: rest =>
      match line with
      | Blank => stream_lines model_name start_time full_response rest ending
      | Undecodable msg => raise (PyError msg)
      | Malformed _ => stream_lines model_name start_time full_response rest ending
      | Parsed chunk_data =>
          token <- lift (py_get chunk_data "response" (VStr "")) ;;
          done <- lift (py_get chunk_data "done" (VBool false)) ;;
          let after_token (full_response : string) : generator dict :=
            if truthy done then
              end_time <- datetime_now ;;
              duration_ms <- lift (elapsed_ms start_time end_time) ;;
              yield [ ("token", VStr "");
                      ("model", VStr model_name);
                      ("timestamp", VStr (isoformat end_time));
                      ("done", VBool true);
                      ("success", VBool true);
                      ("duration_ms", VInt duration_ms);
                      ("full_response", VStr (strip full_response)) ]
                    stop
            else stream_lines model_name start_time full_response rest ending
          in
          if truthy token then
            full_response' <- lift (str_iadd full_response token) ;;
            now <- datetime_now ;;
            yield [ ("token", token);
                    ("model", VStr model_name);
                    ("timestamp", VStr (isoformat now));
                    ("done", done);
                    ("success", VBool true) ]
                  (after_token full_response')
          else after_token full_response
      end
  end.

Definition yield_fallback (prompt model_name error_reason : string) : generator dict :=
  chunk <- _get_fallback_stream_response prompt model_name error_reason ;;
  yield chunk stop.

(** The [try] statement of [generate_response_stream]. *)
Definition stream_attempt (prompt model_name : string) : generator dict :=
  try_gen
    (start_time <- datetime_now ;;
     response <- requests_post generate_url (generate_payload model_name prompt true) ;;
     if status_code response =? 200 then
       stream_lines model_name start_time "" (lines response) (lines_end response)
     else
       yield_fallback prompt model_name
         ("API error: " ++ str_of_int (status_code response)))
    (fun e =>
       match e with
       | Timeout _ => yield_fallback prompt model_name "Request timeout"
       | _ => yield_fallback prompt model_name (str_exn e)
       end).

Definition generate_response_stream (prompt : string) (model : option string)
    : generator dict :=
  let model_name := str_or model (default_model self) in
  available <- is_available ;;
  if negb available then
    yield_fallback prompt model_name "Ollama service unavailable"
  else
    available_models <- get_available_models ;;
    if nonempty available_models && negb (str_in model_name available_models)
    then
      match available_models with
      | first :: _ => stream_attempt prompt first
      | [] => yield_fallback prompt model_name "No models available"
      end
    else stream_attempt prompt model_name.

End Service.

(* ================================================================== *)
(** * services/logging_service.py *)
(* ================================================================== *)

(** The [json] module: [json_loads s] is [None] when [json.loads(s)] raises
    [json.JSONDecodeError]; [json_dumps ensure_ascii v] is
    [json.dumps(v, ensure_ascii=...)] for a value made of JSON types. *)
Variable json_loads : string -> option pyval.
Variable json_dumps : bool -> pyval -> string.

(** [v.isoformat()]. *)
Definition py_isoformat (v : pyval) : result string :=
  match v with
  | VDatetime t => Ok (isoformat t)
  | _ => Raise (no_attribute v "isoformat")
  end.

Definition newline : string := String (ascii_of_nat 10) EmptyString.

(** [with open(self.log_file, "a") as f: f.write(text)]. *)
Definition append_text (text : string) : M unit :=
  fun w =>
    match write_error env (ticks w) with
    | Some e => (Raise e, w)
    | None =>
        let old := match log_file w with Some ls => ls | None => [] end in
        (Ok tt, {| ticks := ticks w; sent := sent w; log_file := Some (old ++ [text]) |})
    end.

Definition log_entry_of (timestamp prompt : string) (response_data : dict) : dict :=
  let log_entry :=
    [ ("timestamp", VStr timestamp);
      ("prompt", VStr prompt);
      ("response", dict_get response_data "response" (VStr ""));
      ("model", dict_get response_data "model" (VStr "unknown"));
      ("duration_ms", dict_get response_data "duration_ms" (VInt 0));
      ("success", dict_get response_data "success" (VBool true)) ] in
  if dict_has response_data "error_reason"
  then dict_set log_entry "error_reason" (dict_get response_data "error_reason" VNone)
  else log_entry.

(** The default of [response_data.get("timestamp", datetime.now())] is
    evaluated whether or not the key is present. *)
Definition log_interaction (prompt : string) (response_data : dict) : M unit :=
  now <- datetime_now ;;
  timestamp <- lift (py_isoformat (dict_get response_data "timestamp" (VDatetime now))) ;;
  let log_entry := log_entry_of timestamp prompt response_data in
  try_except
    (append_text (json_dumps false (VDict log_entry) ++ newline))
    (fun _ => ret tt).

(** [with open(self.log_file, "r") as f: f.readlines()], for a file that
    exists. *)
Definition read_lines : M (list string) :=
  fun w =>
    match read_error env (ticks w) with
    | Some e => (Raise e, w)
    | None => (Ok (match log_file w with Some ls => ls | None => [] end), w)
    end.

(** [os.path.exists(self.log_file)]. *)
Definition log_exists : M bool :=
  fun w => (Ok (match log_file w with Some _ => true | None => false end), w).

(** [l[start:]]. *)
Definition slice_from {A} (start : Z) (l : list A) : list A :=
  let n := Z.of_nat (List.length l) in
  let first := if start <? 0 then Z.max (n + start) 0 else start in
  skipn (Z.to_nat first) l.

Definition parse_into (logs : list pyval) (line : string) : list pyval :=
  match json_loads (strip line) with
  | Some v => logs ++ [v]
  | None => logs
  end.

Definition get_recent_logs (limit : Z) : M (list pyval) :=
  exists_ <- log_exists ;;
  if negb exists_ then ret []
  else
    try_except
      (lines <- read_lines ;;
       let recent_lines :=
         if Z.of_nat (List.length lines) >? limit
         then slice_from (- limit) lines
         else lines in
       ret (fold_left parse_into recent_lines []))
      (fun _ => ret []).

(** The four accumulators of [get_log_stats]. *)
Record counters : Type := {
  total : Z;
  successful : Z;
  failed : Z;
  total_duration : pyval
}.

Definition unsupported_operand (a b : pyval) : exn :=
  PyError ("unsupported operand type(s) for +=: '" ++ type_name a ++ "' and '"
           ++ type_name b ++ "'")%string.

Definition float_of_bool (b : bool) : float :=
  if b then binary_normalize prec emax 1 0 false else S754_zero false.

Definition rbind {A B} (r : result A) (k : A -> result B) : result B :=
  match r with
  | Ok a => k a
  | Raise e => Raise e
  end.

(** [acc += v] for the running sum of the durations, which starts as the
    [int] 0 and is an [int] or a [float] from then on. *)
Definition num_iadd (acc v : pyval) : result pyval :=
  match acc, v with
  | VInt a, VInt b => Ok (VInt (a + b))
  | VInt a, VBool b => Ok (VInt (a + Z.b2z b))
  | VInt a, VFloat y => rbind (float_of_int a) (fun x => Ok (VFloat (SFadd prec emax x y)))
  | VFloat x, VInt b => rbind (float_of_int b) (fun y => Ok (VFloat (SFadd prec emax x y)))
  | VFloat x, VBool b => Ok (VFloat (SFadd prec emax x (float_of_bool b)))
  | VFloat x, VFloat y => Ok (VFloat (SFadd prec emax x y))
  | _, _ => Raise (unsupported_operand acc v)
  end.

(** [total_duration / total], for [total > 0]. *)
Definition average (total_duration : pyval) (total : Z) : result pyval :=
  match total_duration with
  | VInt s => rbind (int_true_div s total) (fun f => Ok (VFloat f))
  | VFloat x => rbind (float_of_int total) (fun y => Ok (VFloat (SFdiv prec emax x y)))
  | _ => Raise (PyError "unsupported operand type(s) for /")
  end.

(** [round(v, 2)]. *)
Definition py_round2 (v : pyval) : pyval :=
  match v with
  | VFloat f => VFloat (round2 f)
  | _ => v
  end.

(** One iteration of [for line in f] in [get_log_stats]. *)
Definition count_line (acc : counters) (line : string) : result counters :=
  match json_loads (strip line) with
  | None => Ok acc
  | Some entry =>
      let total := total acc + 1 in
      rbind (py_get entry "success" (VBool true)) (fun success =>
      let successful := if truthy success then successful acc + 1 else successful acc in
      let failed := if truthy success then failed acc else failed acc + 1 in
      rbind (py_get entry "duration_ms" (VInt 0)) (fun duration =>
      rbind (num_iadd (total_duration acc) duration) (fun total_duration =>
      Ok {| total := total; successful := successful; failed := failed;
            total_duration := total_duration |})))
  end.

Fixpoint count_lines (acc : counters) (ls : list string) : result counters :=
  match ls with
  | [] => Ok acc
  | line :: rest => rbind (count_line acc line) (fun acc' => count_lines acc' rest)
  end.

Definition stats_dict (total successful failed : Z) (avg : pyval) : dict :=
  [ ("total_interactions", VInt total);
    ("successful_interactions", VInt successful);
    ("failed_interactions", VInt failed);
    ("average_duration_ms", avg) ].

Definition zero_stats : dict := stats_dict 0 0 0 (VInt 0).

Definition get_log_stats : M dict :=
  exists_ <- log_exists ;;
  if negb exists_ then ret zero_stats
  else
    try_except
      (lines <- read_lines ;;
       acc <- lift (count_lines {| total := 0; successful := 0; failed := 0;
                                   total_duration := VInt 0 |} lines) ;;
       avg_duration <- (if total acc >? 0
                        then lift (average (total_duration acc) (total acc))
                        else ret (VInt 0)) ;;
       ret (stats_dict (total acc) (successful acc) (failed acc) (py_round2 avg_duration)))
      (fun _ => ret zero_stats).

(* ================================================================== *)
(** * app.py *)
(* ================================================================== *)

Variable ollama_service : OllamaService.

(** [models/request_models.py]. *)
Record GenerateRequest : Type := {
  prompt : string;
  model : option string;
  stream : option bool
}.

(** The constraints of the request model: a request that violates them is
    rejected before the handler runs. *)
Definition accepted (request : GenerateRequest) : bool :=
  let n := Z.of_nat (String.length (prompt request)) in
  (1 <=? n) && (n <=? 10000).

(** [d[k]]. *)
Definition dict_item (d : dict) (k : string) : result pyval :=
  match lookup k d with
  | Some v => Ok v
  | None => Raise (PyError ("'" ++ k ++ "'")%string)
  end.

(** [x or y]. *)
Definition py_or (x y : pyval) : pyval := if truthy x then x else y.

(** A step inside a [try] block whose handler reads the locals: when the
    step raises, control passes to the handler [h], which has been given
    the values the locals have at that point. *)
Definition attempt {A B} (h : exn -> M B) (c : M A) (k : A -> M B) : M B :=
  fun w =>
    match c w with
    | (Ok a, w') => k a w'
    | (Raise e, w') => h e w'
    end.

Definition sse (chunk : dict) : string :=
  ("data: " ++ json_dumps true (VDict chunk) ++ newline ++ newline)%string.

Definition sse_done : string := ("data: [DONE]" ++ newline ++ newline)%string.

(** The [except] clause of [generate_stream]. *)
Definition stream_error (model_name : pyval) (e : exn) : generator string :=
  now <- datetime_now ;;
  let error_chunk :=
    [ ("token", VStr "");
      ("model", py_or model_name (VStr "error"));
      ("timestamp", VStr (isoformat now));
      ("done", VBool true);
      ("success", VBool false);
      ("error", VStr (str_exn e)) ] in
  yield (sse error_chunk) (yield sse_done stop).

(** [for chunk in ollama_service.generate_response_stream(...)], from the
    chunk at hand to the end of [generate_stream]. *)
Fixpoint relay (request : GenerateRequest) (start_time : Z) (g : gen dict)
    (full_response : string) : generator string :=
  match g with
  | Done => yield sse_done stop
  | Yield chunk resume =>
      let model_name := dict_get chunk "model" (VStr "") in
      let h := stream_error model_name in
      let when_done (full_response : string) : generator string :=
        if truthy (dict_get chunk "done" VNone) then
          yield (sse chunk)
            (end_time <- datetime_now ;;
             attempt h (lift (elapsed_ms start_time end_time)) (fun duration_ms =>
             let log_data :=
               [ ("response", VStr full_response);
                 ("model", model_name);
                 ("timestamp", VDatetime end_time);
                 ("duration_ms", VInt duration_ms);
                 ("success", dict_get chunk "success" (VBool true));
                 ("streaming", VBool true) ] in
             let log_data :=
               if negb (truthy (dict_get chunk "success" VNone))
               then dict_set log_data "error_reason"
                      (dict_get chunk "error_reason" (VStr "Unknown error"))
               else log_data in
             attempt h (log_interaction (prompt request) log_data) (fun _ =>
             yield sse_done stop)))
        else
          fun w =>
            match resume w with
            | (Ok g', w') => relay request start_time g' full_response w'
            | (Raise e, w') => h e w'
            end
      in
      if truthy (dict_get chunk "token" VNone) then
        yield (sse chunk)
          (attempt h (lift (dict_item chunk "token")) (fun token =>
           attempt h (lift (str_iadd full_response token)) (fun full_response' =>
           when_done full_response')))
      else when_done full_response
  end.

Definition generate_stream (request : GenerateRequest) : generator string :=
  start_time <- datetime_now ;;
  attempt (stream_error (VStr ""))
    (generate_response_stream ollama_service (prompt request) (model request))
    (fun g => relay request start_time g "").

(** [models/response_models.py]: [GenerateResponse(response=..., model=...,
    timestamp=...)] validates the types of its three fields. *)
Definition GenerateResponse (response model timestamp : pyval) : result dict :=
  match response, model, timestamp with
  | VStr _, VStr _, VDatetime _ =>
      Ok [ ("response", response); ("model", model); ("timestamp", timestamp) ]
  | _, _, _ => Raise (PyError "validation error for GenerateResponse")
  end.

(** What the handler of [POST /generate] hands back to the framework. *)
Inductive reply : Type :=
| Complete (body : dict)
| Streaming (body : generator string)
| ServerError (status : Z) (detail : string).

Definition generate_endpoint (request : GenerateRequest) : M reply :=
  try_except
    (if truthy (match stream request with Some b => VBool b | None => VNone end) then
       ret (Streaming (generate_stream request))
     else
       response_data <- generate_response ollama_service (prompt request) (model request) ;;
       log_interaction (prompt request) response_data ;;
       response <- lift (dict_item response_data "response") ;;
       model <- lift (dict_item response_data "model") ;;
       timestamp <- lift (dict_item response_data "timestamp") ;;
       body <- lift (GenerateResponse response model timestamp) ;;
       ret (Complete body))
    (fun e =>
       now <- datetime_now ;;
       let error_data :=
         [ ("response", VStr ("Internal server error: " ++ str_exn e));
           ("model", VStr "error");
           ("timestamp", VDatetime now);
           ("duration_ms", VInt 0);
           ("success", VBool false);
           ("error_reason", VStr (str_exn e)) ] in
       log_interaction (prompt request) error_data ;;
       ret (ServerError 500 ("Failed to generate response: " ++ str_exn e))).

(** What the caller of [POST /generate] receives once the framework has run
    the handler and, for a streamed reply, exhausted its body. *)
Inductive served : Type :=
| ServedComplete (body : dict)
| ServedStream (events : list string) (failure : option exn)
| ServedError (status : Z) (detail : string)
| Unhandled (e : exn).

Definition serve_generate (request : GenerateRequest) (w : world) : served * world :=
  match generate_endpoint request w with
  | (Ok (Complete body), w') => (ServedComplete body, w')
  | (Ok (Streaming body), w') =>
      let '(events, failure, w'') := run_gen body w' in
      (ServedStream events failure, w'')
  | (Ok (ServerError status detail), w') => (ServedError status detail, w')
  | (Raise e, w') => (Unhandled e, w')
  end.

End Pipeline.

(** The number of lines that a run has added to the log file. *)
Definition log_lines (w : world) : list string :=
  match log_file w with Some ls => ls | None => [] end.

Definition entries_appended (before after : world) : Z :=
  Z.of_nat (List.length (log_lines after)) - Z.of_nat (List.length (log_lines before)).

(* ================================================================== *)
(** * app.py: the other handlers *)
(* ================================================================== *)

Section Handlers.

Variable env : environment.
Variable json_loads : string -> option pyval.
Variable ollama_service : OllamaService.


(** [GET /logs/recent]. *)
Definition logs_recent (limit : Z) : M reply :=
  try_except
    (logs <- get_recent_logs env json_loads limit ;;
     ret (Complete [ ("logs", VList logs);
                     ("count", VInt (Z.of_nat (List.length logs))) ]))
    (fun e => ret (ServerError 500 ("Failed to retrieve logs: " ++ str_exn e))).

(** [GET /logs/stats]. *)
Definition logs_stats : M reply :=
  try_except
    (stats <- get_log_stats env json_loads ;;
     ret (Complete stats))
    (fun e => ret (ServerError 500 ("Failed to retrieve log stats: " ++ str_exn e))).

End Handlers.

(* ================================================================== *)
(** * Vocabulary of the properties *)
(* ================================================================== *)

(** ** Strings and floats *)

(** [kw] occurs in [s]. *)
Definition occurs (kw s : string) : Prop :=
  exists pre post : string, s = (pre ++ kw ++ post)%string.

Fixpoint all_space (s : string) : bool :=
  match s with
  | EmptyString => true
  | String c s' => isspace c && all_space s'
  end.


(** ** The service *)

Definition tick (w : world) : world :=
  {| ticks := S (ticks w); sent := sent w; log_file := log_file w |}.

(** The number of [GET]s sent so far. *)
Definition gets (w : world) : nat := List.length (filter is_get (sent w)).

(** Whether the n-th [GET /api/tags] finds the server available, and the
    models that it lists. *)
Definition probe_ok (env : environment) (n : nat) : bool :=
  match tags_reply env n with
  | Ok r => tags_status r =? 200
  | Raise _ => false
  end.

Definition listed (env : environment) (n : nat) : list string :=
  match tags_reply env n with
  | Ok r =>
      if tags_status r =? 200
      then match tags_names r with Ok names => names | Raise _ => [] end
      else []
  | Raise _ => []
  end.

(** The model that a generation call is made for: the requested model,
    else the default; the first listed model when the list is not empty
    and does not contain it. *)
Definition resolved_model (self : OllamaService) (model : option string)
    (names : list string) : string :=
  let requested := str_or model (default_model self) in
  match names with
  | first :: _ => if str_in requested names then requested else first
  | [] => requested
  end.

(** The reason that the handlers of the two [try] statements attach to an
    exception. *)
Definition failure_reason (e : exn) : string :=
  match e with
  | Timeout _ => "Request timeout"
  | _ => str_exn e
  end.

Definition fallback_result (p m reason : string) (t : Z) : dict :=
  [ ("response", VStr (select_fallback_text p));
    ("model", VStr (m ++ " (fallback)"));
    ("timestamp", VDatetime t);
    ("duration_ms", VInt 0);
    ("success", VBool false);
    ("error_reason", VStr reason) ].

Definition fallback_chunk (p m reason : string) (t : Z) : dict :=
  [ ("token", VStr (select_fallback_text p));
    ("model", VStr (m ++ " (fallback)"));
    ("timestamp", VStr (isoformat t));
    ("done", VBool true);
    ("success", VBool false);
    ("error_reason", VStr reason);
    ("duration_ms", VInt 0);
    ("full_response", VStr (select_fallback_text p)) ].

Definition success_result (text m : string) (t ms : Z) : dict :=
  [ ("response", VStr text);
    ("model", VStr m);
    ("timestamp", VDatetime t);
    ("duration_ms", VInt ms);
    ("success", VBool true) ].

Section ServiceTerms.

Variable env : environment.
Variable self : OllamaService.

(** The world in which [generate_response] makes its generation call. *)
Definition probed (w : world) : world :=
  record_call (GET (tags_url self)) (record_call (GET (tags_url self)) w).

(** Why a generation call made at [w] for model [m] falls back. *)
Inductive attempt_failure (p m : string) (w : world) : string -> Prop :=
| PostRaised e :
    post_reply env (generate_payload m p false) = Raise e ->
    attempt_failure p m w (failure_reason e)
| ElapsedUnmeasurable resp e :
    post_reply env (generate_payload m p false) = Ok resp ->
    elapsed_ms (now_at env (ticks w)) (now_at env (S (ticks w))) = Raise e ->
    attempt_failure p m w (failure_reason e)
| BadStatus resp ms :
    post_reply env (generate_payload m p false) = Ok resp ->
    elapsed_ms (now_at env (ticks w)) (now_at env (S (ticks w))) = Ok ms ->
    status_code resp <> 200 ->
    attempt_failure p m w ("API error: " ++ str_of_int (status_code resp))
| BadBody resp ms e :
    post_reply env (generate_payload m p false) = Ok resp ->
    elapsed_ms (now_at env (ticks w)) (now_at env (S (ticks w))) = Ok ms ->
    status_code resp = 200 ->
    json_body resp = Raise e ->
    attempt_failure p m w (failure_reason e)
| BodyNotObject resp ms data e :
    post_reply env (generate_payload m p false) = Ok resp ->
    elapsed_ms (now_at env (ticks w)) (now_at env (S (ticks w))) = Ok ms ->
    status_code resp = 200 ->
    json_body resp = Ok data ->
    py_get data "response" (VStr "") = Raise e ->
    attempt_failure p m w (failure_reason e)
| ResponseNotText resp ms data text e :
    post_reply env (generate_payload m p false) = Ok resp ->
    elapsed_ms (now_at env (ticks w)) (now_at env (S (ticks w))) = Ok ms ->
    status_code resp = 200 ->
    json_body resp = Ok data ->
    py_get data "response" (VStr "") = Ok text ->
    py_strip text = Raise e ->
    attempt_failure p m w (failure_reason e).

(** When a generation call succeeds, and with what. *)
Definition attempt_success (p m : string) (w : world) (text : string) (ms : Z) : Prop :=
  exists resp data v,
    post_reply env (generate_payload m p false) = Ok resp
    /\ elapsed_ms (now_at env (ticks w)) (now_at env (S (ticks w))) = Ok ms
    /\ status_code resp = 200
    /\ json_body resp = Ok data
    /\ py_get data "response" (VStr "") = Ok v
    /\ py_strip v = Ok text.

End ServiceTerms.

(** Why [generate_response], started at [w], falls back. *)
Inductive generate_failure (env : environment) (self : OllamaService) (p : string)
    (model : option string) (w : world) : string -> Prop :=
| GenerateUnavailable :
    probe_ok env (gets w) = false ->
    generate_failure env self p model w "Ollama service unavailable"
| GenerateAttemptFailed reason :
    probe_ok env (gets w) = true ->
    attempt_failure env p (resolved_model self model (listed env (S (gets w))))
      (probed self w) reason ->
    generate_failure env self p model w reason.



(** ** The streaming service *)

(** What a guarded generator yields: what the body yields and, when the
    body raises, what the handler yields after that. *)
Definition then_handle {A} (h : exn -> generator A)
    (r : list A * option exn * world) : list A * option exn * world :=
  match r with
  | (l, None, w') => (l, None, w')
  | (l, Some e, w') =>
      let '(l2, e2, w'') := run_gen (h e) w' in (l ++ l2, e2, w'')
  end.

Section StreamTerms.

Variable env : environment.
Variable self : OllamaService.

(** The handler of the [try] statement of [generate_response_stream]. *)
Definition stream_handler (p m : string) (e : exn) : generator dict :=
  match e with
  | Timeout _ => yield_fallback env p m "Request timeout"
  | _ => yield_fallback env p m (str_exn e)
  end.

(** The world in which the lines of the reply are read. *)
Definition posted (p m : string) (w : world) : world :=
  record_call (POST (generate_url self) (generate_payload m p true)) (tick w).

(** What a guarded body yields in the end: a raised exception becomes one
    more chunk, the fallback chunk. *)
Definition with_fallback (p m : string) (r : list dict * option exn * world)
    : list dict * option exn * world :=
  match r with
  | (l, None, w') => (l, None, w')
  | (l, Some e, w') =>
      (l ++ [fallback_chunk p m (failure_reason e) (now_at env (ticks w'))], None, tick w')
  end.

End StreamTerms.

Section LineTerms.

Variable env : environment.

(** A line that the loop passes over without ending the stream: an empty
    line, a line that is not JSON, or an object whose [response] is a
    string (absent counts as empty) and whose [done] is falsy. *)
Definition quiet_line (line : stream_line) : Prop :=
  match line with
  | Blank | Malformed _ => True
  | Parsed (VDict d) =>
      truthy (dict_get d "done" (VBool false)) = false
      /\ exists s, dict_get d "response" (VStr "") = VStr s
  | _ => False
  end.

Definition token_text (line : stream_line) : string :=
  match line with
  | Parsed (VDict d) =>
      match dict_get d "response" (VStr "") with VStr s => s | _ => "" end
  | _ => ""
  end.

(** The text accumulated over some lines. *)
Fixpoint tokens_text (ls : list stream_line) : string :=
  match ls with
  | [] => ""
  | line :: rest => (token_text line ++ tokens_text rest)%string
  end.

Definition token_chunk (m : string) (line : stream_line) (t : Z) : dict :=
  [ ("token", VStr (token_text line));
    ("model", VStr m);
    ("timestamp", VStr (isoformat t));
    ("done", match line with
             | Parsed (VDict d) => dict_get d "done" (VBool false)
             | _ => VBool false
             end);
    ("success", VBool true) ].

(** The chunks yielded for some quiet lines, the clock having been read
    [n] times before: one for each line whose token is not empty. *)
Fixpoint token_chunks (m : string) (ls : list stream_line) (n : nat) : list dict :=
  match ls with
  | [] => []
  | line :: rest =>
      if String.eqb (token_text line) ""
      then token_chunks m rest n
      else token_chunk m line (now_at env n) :: token_chunks m rest (S n)
  end.

Fixpoint token_count (ls : list stream_line) : nat :=
  match ls with
  | [] => O
  | line :: rest =>
      if String.eqb (token_text line) "" then token_count rest else S (token_count rest)
  end.

Definition advance (k : nat) (w : world) : world :=
  {| ticks := k + ticks w; sent := sent w; log_file := log_file w |}.

Definition terminal_chunk (m full : string) (t ms : Z) : dict :=
  [ ("token", VStr "");
    ("model", VStr m);
    ("timestamp", VStr (isoformat t));
    ("done", VBool true);
    ("success", VBool true);
    ("duration_ms", VInt ms);
    ("full_response", VStr (strip full)) ].

(** The token of a chunk, and whether a chunk is marked as the last. *)
Definition chunk_token (c : dict) : string :=
  match dict_get c "token" VNone with VStr s => s | _ => "" end.

Definition chunk_done (c : dict) : bool := truthy (dict_get c "done" VNone).

Fixpoint join (l : list string) : string :=
  match l with
  | [] => ""
  | s :: rest => (s ++ join rest)%string
  end.

End LineTerms.

(** Why [generate_response_stream], started at [w], answers with the
    fallback chunk before it reads any line. *)
Inductive stream_refusal (env : environment) (self : OllamaService) (p : string)
    (model : option string) (w : world) : string -> Prop :=
| StreamUnavailable :
    probe_ok env (gets w) = false ->
    stream_refusal env self p model w "Ollama service unavailable"
| StreamPostRaised e :
    probe_ok env (gets w) = true ->
    post_reply env
      (generate_payload (resolved_model self model (listed env (S (gets w)))) p true)
    = Raise e ->
    stream_refusal env self p model w (failure_reason e)
| StreamBadStatus resp :
    probe_ok env (gets w) = true ->
    post_reply env
      (generate_payload (resolved_model self model (listed env (S (gets w)))) p true)
    = Ok resp ->
    status_code resp <> 200 ->
    stream_refusal env self p model w ("API error: " ++ str_of_int (status_code resp)).

(** A line that yields nothing: empty, or not JSON. *)
Definition skipped_line (line : stream_line) : Prop :=
  match line with
  | Blank | Malformed _ => True
  | _ => False
  end.

(** ** The interaction log *)

Section LogTerms.

Variable env : environment.
Variable json_loads : string -> option pyval.
Variable json_dumps : bool -> pyval -> string.

(** The entries that a list of lines holds: the lines that [json.loads]
    accepts, in order. *)
Fixpoint parsed (ls : list string) : list pyval :=
  match ls with
  | [] => []
  | line :: rest =>
      match json_loads (strip line) with
      | Some v => v :: parsed rest
      | None => parsed rest
      end
  end.

(** The last [k] elements of a list. *)
Definition lastn {A} (k : nat) (l : list A) : list A :=
  skipn (List.length l - k) l.

Definition writable : Prop := forall n, write_error env n = None.

(** The lines that [get_recent_logs] parses. *)
Definition recent_lines (limit : Z) (ls : list string) : list string :=
  if Z.of_nat (List.length ls) >? limit then slice_from (- limit) ls else ls.

(** The entry that [log_interaction] writes for a prompt and a result that
    carries a [datetime] as its timestamp. *)
Definition entry_for (call : string * dict) (entry : dict) : Prop :=
  exists t,
    lookup "timestamp" (snd call) = Some (VDatetime t)
    /\ entry = log_entry_of (isoformat t) (fst call) (snd call).

(** The line that holds an entry. *)
Definition entry_line (entry : dict) : string :=
  (json_dumps false (VDict entry) ++ newline)%string.



Definition with_lines (ls : list string) (k : nat) (w : world) : world :=
  {| ticks := k + ticks w; sent := sent w;
     log_file := match ls with
                 | [] => log_file w
                 | _ :: _ => Some (log_lines w ++ ls)
                 end |}.

End LogTerms.










(* ================================================================== *)
(** * A reference JSON codec *)
(* ================================================================== *)

(** The properties below hold for every [json_loads] and [json_dumps].
    To run them on concrete log files, this section gives one codec that
    writes and reads JSON text the way the [json] module does, for strings
    of code points below 256.  A finite float is written with all its
    decimal digits, where CPython writes the shortest numeral that reads
    back as the same float. *)

Definition hex_digit (d : Z) : ascii :=
  if d <? 10 then ascii_of_nat (48 + Z.to_nat d) else ascii_of_nat (87 + Z.to_nat d).

Definition unicode_escape (n : Z) : string :=
  String "\" (String "u" (String "0" (String "0"
    (String (hex_digit (n / 16)) (String (hex_digit (n mod 16)) EmptyString))))).

Definition escape_char (ensure_ascii : bool) (c : ascii) : string :=
  let n := Z.of_nat (nat_of_ascii c) in
  if n =? 34 then String "\" quote
  else if n =? 92 then "\\"
  else if n =? 8 then "\b"
  else if n =? 12 then "\f"
  else if n =? 10 then "\n"
  else if n =? 13 then "\r"
  else if n =? 9 then "\t"
  else if n <? 32 then unicode_escape n
  else if ensure_ascii && (126 <? n) then unicode_escape n
  else String c EmptyString.

Fixpoint escape (ensure_ascii : bool) (s : string) : string :=
  match s with
  | EmptyString => EmptyString
  | String c s' => (escape_char ensure_ascii c ++ escape ensure_ascii s')%string
  end.

Definition dump_str (ensure_ascii : bool) (s : string) : string :=
  (quote ++ escape ensure_ascii s ++ quote)%string.

Fixpoint drop_trailing_zeros (s : string) : string :=
  match s with
  | EmptyString => EmptyString
  | String c s' =>
      match drop_trailing_zeros s' with
      | EmptyString => if Ascii.eqb c "0" then EmptyString else String c EmptyString
      | r => String c r
      end
  end.

Definition dump_float (f : float) : string :=
  match f with
  | S754_nan => "NaN"
  | S754_infinity s => if s then "-Infinity" else "Infinity"
  | S754_zero s => if s then "-0.0" else "0.0"
  | S754_finite s m e =>
      let sign := if s then "-" else "" in
      if 0 <=? e then (sign ++ str_of_int (Z.shiftl (Zpos m) e) ++ ".0")%string
      else
        let k := - e in
        let n := Zpos m * 5 ^ k in
        let fraction := drop_trailing_zeros (padded (Z.to_nat k) (n mod 10 ^ k)) in
        (sign ++ str_of_int (n / 10 ^ k) ++ "."
         ++ (if String.eqb fraction "" then "0" else fraction))%string
  end.

Fixpoint ref_dumps (ensure_ascii : bool) (v : pyval) : string :=
  match v with
  | VNone => "null"
  | VBool b => if b then "true" else "false"
  | VInt n => str_of_int n
  | VFloat f => dump_float f
  | VStr s => dump_str ensure_ascii s
  | VList l =>
      let fix items (l : list pyval) : string :=
        match l with
        | [] => ""
        | [x] => ref_dumps ensure_ascii x
        | x :: rest => (ref_dumps ensure_ascii x ++ ", " ++ items rest)%string
        end in
      ("[" ++ items l ++ "]")%string
  | VDict d =>
      let fix members (d : list (string * pyval)) : string :=
        match d with
        | [] => ""
        | [(k, x)] => (dump_str ensure_ascii k ++ ": " ++ ref_dumps ensure_ascii x)%string
        | (k, x) :: rest =>
            (dump_str ensure_ascii k ++ ": " ++ ref_dumps ensure_ascii x ++ ", "
             ++ members rest)%string
        end in
      ("{" ++ members d ++ "}")%string
  | VDatetime _ => "null"
  end.

(** Reading. *)

Definition is_json_space (c : ascii) : bool :=
  let n := Z.of_nat (nat_of_ascii c) in
  (n =? 32) || (n =? 9) || (n =? 10) || (n =? 13).

Fixpoint skip_space (s : string) : string :=
  match s with
  | String c s' => if is_json_space c then skip_space s' else s
  | EmptyString => EmptyString
  end.

Definition is_digit (c : ascii) : bool :=
  let n := Z.of_nat (nat_of_ascii c) in (48 <=? n) && (n <=? 57).

Definition digit_value (c : ascii) : Z := Z.of_nat (nat_of_ascii c) - 48.

Definition hex_value (c : ascii) : option Z :=
  let n := Z.of_nat (nat_of_ascii c) in
  if (48 <=? n) && (n <=? 57) then Some (n - 48)
  else if (97 <=? n) && (n <=? 102) then Some (n - 87)
  else if (65 <=? n) && (n <=? 70) then Some (n - 55)
  else None.

(** The digits at the head of [s]: their value, their number, the rest. *)
Fixpoint read_digits (s : string) (acc : Z) (count : Z) : Z * Z * string :=
  match s with
  | String c s' =>
      if is_digit c then read_digits s' (10 * acc + digit_value c) (count + 1)
      else (acc, count, s)
  | EmptyString => (acc, count, s)
  end.

(** [m * 10 ^ e10] as the nearest float. *)
Definition float_of_decimal (negative : bool) (m e10 : Z) : float :=
  match m with
  | Zpos p =>
      if 0 <=? e10
      then binary_normalize prec emax (if negative then - (m * 10 ^ e10) else m * 10 ^ e10)
             0 false
      else SFdiv prec emax (S754_finite negative p 0)
             (int_as_finite (10 ^ (- e10)))
  | _ => S754_zero negative
  end.

Definition read_number (s : string) : option (pyval * string) :=
  let '(negative, s1) :=
    match s with
    | String "-" r => (true, r)
    | _ => (false, s)
    end in
  let '(int_part, int_count, s2) := read_digits s1 0 0 in
  let leading_zero :=
    match s1 with String "0" _ => 1 <? int_count | _ => false end in
  if (int_count =? 0) || leading_zero then None
  else
    let '(mantissa, frac_count, s3, has_frac, frac_ok) :=
      match s2 with
      | String "." r =>
          let '(m, c, r') := read_digits r int_part 0 in (m, c, r', true, 0 <? c)
      | _ => (int_part, 0, s2, false, true)
      end in
    let '(exponent, s4, has_exp, exp_ok) :=
      match s3 with
      | String c r =>
          if Ascii.eqb c "e" || Ascii.eqb c "E" then
            let '(exp_negative, r1) :=
              match r with
              | String "-" r' => (true, r')
              | String "+" r' => (false, r')
              | _ => (false, r)
              end in
            let '(x, c', r2) := read_digits r1 0 0 in
            ((if exp_negative then - x else x), r2, true, 0 <? c')
          else (0, s3, false, true)
      | EmptyString => (0, s3, false, true)
      end in
    if negb frac_ok || negb exp_ok then None
    else if has_frac || has_exp
    then Some (VFloat (float_of_decimal negative mantissa (exponent - frac_count)), s4)
    else Some (VInt (if negative then - int_part else int_part), s4).

(** The body of a string, the opening quote having been read. *)
Fixpoint read_string (s : string) : option (string * string) :=
  match s with
  | EmptyString => None
  | String c s' =>
      let n := Z.of_nat (nat_of_ascii c) in
      if n =? 34 then Some (EmptyString, s')
      else if n <? 32 then None
      else if n =? 92 then
        match s' with
        | String e r =>
            let simple (x : nat) :=
              match read_string r with
              | Some (body, rest) => Some (String (ascii_of_nat x) body, rest)
              | None => None
              end in
            let k := Z.of_nat (nat_of_ascii e) in
            if k =? 34 then simple 34%nat
            else if k =? 92 then simple 92%nat
            else if k =? 47 then simple 47%nat
            else if k =? 98 then simple 8%nat
            else if k =? 102 then simple 12%nat
            else if k =? 110 then simple 10%nat
            else if k =? 114 then simple 13%nat
            else if k =? 116 then simple 9%nat
            else if k =? 117 then
              match r with
              | String h1 (String h2 (String h3 (String h4 r')))  =>
                  match hex_value h1, hex_value h2, hex_value h3, hex_value h4 with
                  | Some 0, Some 0, Some a, Some b =>
                      match read_string r' with
                      | Some (body, rest) =>
                          Some (String (ascii_of_nat (Z.to_nat (16 * a + b))) body, rest)
                      | None => None
                      end
                  | _, _, _, _ => None
                  end
              | _ => None
              end
            else None
        | EmptyString => None
        end
      else
        match read_string s' with
        | Some (body, rest) => Some (String c body, rest)
        | None => None
        end
  end.

(** Adding the member [(key, v)] in front of the members [d] that follow it
    in the text: a later member with the same key gives the value. *)
Definition dict_set_first (key : string) (v : pyval) (d : dict) : dict :=
  match lookup key d with
  | Some v' => (key, v') :: filter (fun kv => negb (String.eqb key (fst kv))) d
  | None => (key, v) :: d
  end.

Definition read_literal (word : string) (v : pyval) (s : string) : option (pyval * string) :=
  if String.prefix word s
  then Some (v, String.substring (String.length word) (String.length s) s)
  else None.

Fixpoint read_value (fuel : nat) (s : string) : option (pyval * string) :=
  match fuel with
  | O => None
  | S fuel' =>
      match skip_space s with
      | EmptyString => None
      | String c r as s0 =>
          let n := Z.of_nat (nat_of_ascii c) in
          if n =? 34 then
            match read_string r with
            | Some (body, rest) => Some (VStr body, rest)
            | None => None
            end
          else if n =? 91 then
            match skip_space r with
            | String "]" rest => Some (VList [], rest)
            | _ =>
                match read_elements fuel' r with
                | Some (l, rest) => Some (VList l, rest)
                | None => None
                end
            end
          else if n =? 123 then
            match skip_space r with
            | String "}" rest => Some (VDict [], rest)
            | _ =>
                match read_members fuel' r with
                | Some (d, rest) => Some (VDict d, rest)
                | None => None
                end
            end
          else if n =? 110 then read_literal "null" VNone s0
          else if n =? 116 then read_literal "true" (VBool true) s0
          else if n =? 102 then read_literal "false" (VBool false) s0
          else if n =? 78 then read_literal "NaN" (VFloat S754_nan) s0
          else if n =? 73 then read_literal "Infinity" (VFloat (S754_infinity false)) s0
          else if String.prefix "-Infinity" s0
          then read_literal "-Infinity" (VFloat (S754_infinity true)) s0
          else read_number s0
      end
  end
with read_elements (fuel : nat) (s : string) : option (list pyval * string) :=
  match fuel with
  | O => None
  | S fuel' =>
      match read_value fuel' s with
      | Some (v, rest) =>
          match skip_space rest with
          | String "," rest' =>
              match read_elements fuel' rest' with
              | Some (l, rest'') => Some (v :: l, rest'')
              | None => None
              end
          | String "]" rest' => Some ([v], rest')
          | _ => None
          end
      | None => None
      end
  end
with read_members (fuel : nat) (s : string) : option (dict * string) :=
  match fuel with
  | O => None
  | S fuel' =>
      match skip_space s with
      | String c r =>
          if Z.of_nat (nat_of_ascii c) =? 34 then
            match read_string r with
            | Some (key, rest) =>
                match skip_space rest with
                | String ":" rest1 =>
                    match read_value fuel' rest1 with
                    | Some (v, rest2) =>
                        match skip_space rest2 with
                        | String "," rest3 =>
                            match read_members fuel' rest3 with
                            | Some (d, rest4) => Some (dict_set_first key v d, rest4)
                            | None => None
                            end
                        | String "}" rest3 => Some ([(key, v)], rest3)
                        | _ => None
                        end
                    | None => None
                    end
                | _ => None
                end
            | None => None
            end
          else None
      | EmptyString => None
      end
  end.

Definition ref_loads (s : string) : option pyval :=
  match read_value (2 * String.length s + 2) s with
  | Some (v, rest) =>
      match skip_space rest with
      | EmptyString => Some v
      | _ => None
      end
  | None => None
  end.

(* ================================================================== *)
(** * Scenarios *)
(* ================================================================== *)

Definition local_service : OllamaService :=
  {| base_url := "http://localhost:11434"; default_model := "llama2"; timeout := 30 |}.

Definition fresh_world : world := {| ticks := 0; sent := []; log_file := None |}.

(** 2024-01-15T10:30:00, and a clock that advances 1.5 ms per reading. *)
Definition morning : Z := 63840911400000000.

Definition steady_clock (n : nat) : Z := morning + 1500 * Z.of_nat n.

Definition tags_ok (names : list string) : result tags_response :=
  Ok {| tags_status := 200; tags_names := Ok names |}.

Definition json_reply (status : Z) (data : pyval) : result response :=
  Ok {| status_code := status; json_body := Ok data; lines := []; lines_end := None |}.

Definition stream_reply (status : Z) (ls : list stream_line) (ending : option exn)
    : result response :=
  Ok {| status_code := status;
        json_body := Raise (JSONDecodeError "Extra data: line 2 column 1");
        lines := ls; lines_end := ending |}.

(** A server that answers every [GET /api/tags] with [tags] and every
    [POST /api/generate] with [post], and a disk that does not fail. *)
Definition backend (tags : result tags_response) (post : result response) : environment :=
  {| now_at := steady_clock;
     tags_reply := fun _ => tags;
     post_reply := fun _ => post;
     write_error := fun _ => None;
     read_error := fun _ => None |}.

(** A model server that is never asked, and a disk that does not fail. *)
Definition idle : environment := backend (tags_ok ["llama2"]) (json_reply 200 VNone).

(** The generation call times out. *)
Definition timing_out : environment :=
  backend (tags_ok ["llama2"])
    (Raise (Timeout "HTTPConnectionPool(host='localhost', port=11434): Read timed out. (read timeout=30)")).

(** A server that streams "Hel", a malformed line, "lo ", and the closing
    object. *)
Definition hello_lines : list stream_line :=
  [ Parsed (VDict [("response", VStr "Hel"); ("done", VBool false)]);
    Malformed "Expecting value: line 1 column 1 (char 0)";
    Parsed (VDict [("response", VStr "lo "); ("done", VBool false)]) ].

Definition hello_stream : environment :=
  backend (tags_ok ["llama2"])
    (stream_reply 200
       (hello_lines ++ [Parsed (VDict [("response", VStr ""); ("done", VBool true)])])
       None).

(** A server that streams one token and closes the stream without a line
    marked [done]. *)
Definition truncated_stream : environment :=
  backend (tags_ok ["llama2"])
    (stream_reply 200
       [Parsed (VDict [("response", VStr "Hi"); ("done", VBool false)])] None).

Definition streaming_request : GenerateRequest :=
  {| prompt := "Hi"; model := None; stream := Some true |}.

(** Three interactions: two answered by the model, one that timed out. *)
Definition first_result : dict := success_result "Hi there!" "llama2" morning 100.
Definition second_result : dict := success_result "4" "llama2" (morning + 60000000) 200.
Definition third_result : dict :=
  fallback_result "Why is the sky blue?" "llama2" "Request timeout" (morning + 120000000).


Definition three_entries : list dict :=
  [ log_entry_of (isoformat morning) "Hello" first_result;
    log_entry_of (isoformat (morning + 60000000)) "What is 2+2?" second_result;
    log_entry_of (isoformat (morning + 120000000)) "Why is the sky blue?" third_result ].

(** A log file of three entries, as the reference codec writes them. *)
Definition three_lines : list string := map (entry_line ref_dumps) three_entries.

Definition logged_world : world :=
  {| ticks := 3; sent := []; log_file := Some three_lines |}.

(* ================================================================== *)
(** * Vocabulary of the further properties *)
(* ================================================================== *)

(** ** Side effects *)

(** Two worlds that differ at most in the clock. *)
Definition same_outside (w w' : world) : Prop :=
  sent w' = sent w /\ log_file w' = log_file w.

(** A suspended generator that, however often it is resumed, sends no
    request and leaves the log file alone. *)
Fixpoint calm {A} (g : gen A) : Prop :=
  match g with
  | Done => True
  | Yield _ resume =>
      forall w,
        match resume w with
        | (Ok g', w') => same_outside w w' /\ calm g'
        | (Raise _, w') => same_outside w w'
        end
  end.

(** The same, for a generator that has not been started. *)
Definition calm_start {A} (c : generator A) : Prop :=
  forall w,
    match c w with
    | (Ok g, w') => same_outside w w' /\ calm g
    | (Raise _, w') => same_outside w w'
    end.

(** ** Lines that end a stream *)

(** A line at which the loop of [generate_response_stream] raises, and the
    description of the exception: a line that is not UTF-8, a JSON value
    that is not an object, or an object whose token is truthy and is not a
    string. *)
Inductive aborting_line : stream_line -> string -> Prop :=
| AbortUndecodable msg :
    aborting_line (Undecodable msg) msg
| AbortNotObject v :
    (forall d, v <> VDict d) ->
    aborting_line (Parsed v) (str_exn (no_attribute v "get"))
| AbortTokenNotText d token :
    dict_get d "response" (VStr "") = token ->
    truthy token = true ->
    (forall s, token <> VStr s) ->
    aborting_line (Parsed (VDict d))
      ("can only concatenate str (not " ++ quote ++ type_name token ++ quote ++ ") to str").

(** ** Further scenarios *)

(** The server lists one model, which is not the default one. *)
Definition other_model : environment :=
  backend (tags_ok ["mistral"]) (json_reply 200 (VDict [("response", VStr " Hi! ")])).

(** A server that streams one token and then a line that holds a JSON
    list. *)
Definition broken_stream : environment :=
  backend (tags_ok ["llama2"])
    (stream_reply 200
       [ Parsed (VDict [("response", VStr "Hi"); ("done", VBool false)]);
         Parsed (VList []) ] None).

(** ** Further vocabulary of the interaction log *)


(** Counters that add up. *)
Definition balanced (acc : counters) : Prop :=
  successful acc + failed acc = total acc
  /\ 0 <= successful acc /\ 0 <= failed acc.

(** A running sum of durations is an [int] or a [float]. *)
Definition numeric_sum (acc : counters) : Prop :=
  match total_duration acc with
  | VInt _ | VFloat _ => True
  | _ => False
  end.

(** A parsed line at which the loop of [get_log_stats] raises: a value
    that is not an object, or an object whose [duration_ms] is not a
    number. *)
Definition uncountable (v : pyval) : bool :=
  match v with
  | VDict d =>
      match dict_get d "duration_ms" (VInt 0) with
      | VInt _ | VBool _ | VFloat _ => false
      | _ => true
      end
  | _ => true
  end.


(** The log of three entries, followed by a line that holds [null]. *)
Definition spoiled_log : world :=
  {| ticks := 3; sent := [];
     log_file := Some (three_lines ++ [("null" ++ newline)%string]) |}.

(** ** The streaming handler *)

Section RelayTerms.

Variable env : environment.
Variable json_dumps : bool -> pyval -> string.

(** The dictionary that [generate_stream] hands to [log_interaction]. *)
Definition stream_log_data (chunk : dict) (full_response : string)
    (end_time duration_ms : Z) : dict :=
  let log_data :=
    [ ("response", VStr full_response);
      ("model", dict_get chunk "model" (VStr ""));
      ("timestamp", VDatetime end_time);
      ("duration_ms", VInt duration_ms);
      ("success", dict_get chunk "success" (VBool true));
      ("streaming", VBool true) ] in
  if negb (truthy (dict_get chunk "success" VNone))
  then dict_set log_data "error_reason"
         (dict_get chunk "error_reason" (VStr "Unknown error"))
  else log_data.

(** What [generate_stream] does with a chunk marked [done]: it relays the
    chunk, logs the interaction and sends the end sentinel. *)
Definition log_and_finish (request : GenerateRequest) (start_time : Z) (chunk : dict)
    (full_response : string) (end_time : Z) : generator string :=
  let h := stream_error env json_dumps (dict_get chunk "model" (VStr "")) in
  attempt h (lift (elapsed_ms start_time end_time)) (fun duration_ms =>
  attempt h
    (log_interaction env json_dumps (prompt request)
       (stream_log_data chunk full_response end_time duration_ms))
    (fun _ => yield sse_done stop)).

Definition close_stream (request : GenerateRequest) (start_time : Z) (chunk : dict)
    (full_response : string) : generator string :=
  yield (sse json_dumps chunk)
    (end_time <- datetime_now env ;;
     log_and_finish request start_time chunk full_response end_time).

(** The second half of the loop body of [generate_stream], after the
    token has been relayed. *)
Definition close_or_continue (request : GenerateRequest) (start_time : Z) (chunk : dict)
    (continue : string -> generator string) (full_response : string)
    : generator string :=
  if truthy (dict_get chunk "done" VNone)
  then close_stream request start_time chunk full_response
  else continue full_response.

(** The loop of [generate_stream], resumed after a chunk that is not
    marked [done]. *)
Definition next_chunk (request : GenerateRequest) (start_time : Z) (chunk : dict)
    (resume : world -> result (gen dict) * world) (full_response : string)
    : generator string :=
  fun w =>
    match resume w with
    | (Ok g', w') => relay env json_dumps request start_time g' full_response w'
    | (Raise e, w') =>
        stream_error env json_dumps (dict_get chunk "model" (VStr "")) e w'
    end.

End RelayTerms.

(** How a run of [generate_stream] that starts at [w] ends: without an
    exception and with the end sentinel as its last event; and, when the
    chunks come from a source that touches neither the network nor the
    log, with no request sent and at most one line added to the log. *)
Definition ends_stream (calm_source : Prop) (w : world)
    (r : list string * option exn * world) : Prop :=
  let '(events, failure, w') := r in
  failure = None
  /\ last events "" = sse_done
  /\ (calm_source ->
      sent w' = sent w
      /\ exists extra,
           log_lines w' = log_lines w ++ extra /\ (List.length extra <= 1)%nat).

(** The elapsed time between two readings of the clock can be computed. *)
Definition measurable (env : environment) : Prop :=
  forall i j, exists ms, elapsed_ms (now_at env i) (now_at env j) = Ok ms.

(** A stopped clock, a server that refuses the connection, and a disk
    that does not fail. *)
Definition refusing : environment :=
  {| now_at := fun _ => morning;
     tags_reply := fun _ => Raise (PyError "Connection refused");
     post_reply := fun _ => Raise (PyError "Connection refused");
     write_error := fun _ => None;
     read_error := fun _ => None |}.


(** A request in streaming mode for the prompt "Hello". *)
Definition hello_request : GenerateRequest :=
  {| prompt := "Hello"; model := None; stream := Some true |}.

(** A stopped clock, and a server that streams "Hel", a malformed line,
    "lo " and the closing object. *)
Definition hello_stream_still : environment :=
  {| now_at := fun _ => morning;
     tags_reply := fun _ => tags_ok ["llama2"];
     post_reply :=
       fun _ =>
         stream_reply 200
           (hello_lines ++ [Parsed (VDict [("response", VStr ""); ("done", VBool true)])])
           None;
     write_error := fun _ => None;
     read_error := fun _ => None |}.

(** How the lines of a streamed reply, from some line on, make the loop of
    [generate_response_stream] raise: the iteration ends with an
    exception, or the first of the lines is one at which the loop body
    raises. *)
Inductive stream_break : list stream_line -> option exn -> exn -> Prop :=
| BreakAtEnd e :
    stream_break [] (Some e) e
| BreakAtLine line rest ending reason :
    aborting_line line reason ->
    stream_break (line :: rest) ending (PyError reason).

(** A stopped clock, and a server that streams the token "Hi" and then a
    line that holds a JSON list. *)
Definition broken_stream_still : environment :=
  {| now_at := fun _ => morning;
     tags_reply := fun _ => tags_ok ["llama2"];
     post_reply :=
       fun _ =>
         stream_reply 200
           [ Parsed (VDict [("response", VStr "Hi"); ("done", VBool false)]);
             Parsed (VList []) ] None;
     write_error := fun _ => None;
     read_error := fun _ => None |}.

(* ================================================================== *)
(** * Properties *)
(* ================================================================== *)

(** ** Substrings *)

Lemma prefix_true_iff (kw s : string) :
  String.prefix kw s = true <-> exists post, s = (kw ++ post)%string.
Proof.
  revert s; induction kw as [|c kw IH]; intros s; simpl.
  - split; [intros _; now exists s | intros _; now destruct s].
  - destruct s as [|c' s']; simpl.
    + split; [discriminate | intros [post H]; discriminate].
    + destruct (Ascii.ascii_dec c c') as [->|Hne].
      * rewrite IH. split; intros [post H]; exists post; [now rewrite H | now inversion H].
      * split; [discriminate | intros [post H]; inversion H; congruence].
Qed.

Lemma contains_true_iff (kw s : string) :
  contains kw s = true <-> occurs kw s.
Proof.
  induction s as [|c s IH].
  - unfold contains. rewrite orb_false_r, prefix_true_iff. split.
    + intros [post H]. now exists EmptyString, post.
    + intros [pre [post H]]. destruct pre; simpl in H.
      * now exists post.
      * discriminate.
  - change (contains kw (String c s))
      with (String.prefix kw (String c s) || contains kw s).
    rewrite orb_true_iff, IH, prefix_true_iff. split.
    + intros [[post H] | [pre [post H]]].
      * now exists EmptyString, post.
      * exists (String c pre), post. simpl. now rewrite H.
    + intros [pre [post H]]. destruct pre as [|c' pre]; simpl in H.
      * left. now exists post.
      * right. inversion H. now exists pre, post.
Qed.

Lemma contains_false_iff (kw s : string) :
  contains kw s = false <-> ~ occurs kw s.
Proof.
  rewrite <- contains_true_iff. destruct (contains kw s); split; congruence.
Qed.

(** ** The fallback text *)

Lemma scan_keywords_first (items : list (string * string)) (text generic : string) :
  forall (i : nat) (kw sentence : string),
    nth_error items i = Some (kw, sentence) ->
    contains kw text = true ->
    (forall (j : nat) kw' s', (j < i)%nat -> nth_error items j = Some (kw', s') ->
                              contains kw' text = false) ->
    scan_keywords items text generic = sentence.
Proof.
  induction items as [|[k r] items IH]; intros i kw sentence Hi Hkw Hbefore.
  - destruct i; discriminate.
  - destruct i as [|i]; simpl in *.
    + inversion Hi; subst. now rewrite Hkw.
    + rewrite (Hbefore 0%nat k r); [|lia|reflexivity].
      apply (IH i kw sentence Hi Hkw).
      intros j kw' s' Hj Hnth. apply (Hbefore (S j) kw' s'); [lia | exact Hnth].
Qed.

Lemma scan_keywords_none (items : list (string * string)) (text generic : string) :
  (forall kw s, In (kw, s) items -> contains kw text = false) ->
  scan_keywords items text generic = generic.
Proof.
  induction items as [|[k r] items IH]; intros H; simpl.
  - reflexivity.
  - rewrite (H k r) by (left; reflexivity).
    apply IH. intros kw s Hin. apply (H kw s). now right.
Qed.

(** C8. The fallback text is chosen by scanning the lowercased prompt
    against the keywords "hello", "what", "how", "why", "explain" in that
    order: it is the canned sentence of the first keyword that occurs in
    the lowercased prompt as a substring, and the generic apology when none
    occurs.  Both fallback functions return that text whatever the model
    name, the reason, the clock and the state of the world are, and they
    send nothing to the model server. *)
Theorem fallback_text_first_keyword (p : string) :
  map fst fallback_responses = ["hello"; "what"; "how"; "why"; "explain"]
  /\ (forall (i : nat) (kw sentence : string),
         nth_error fallback_responses i = Some (kw, sentence) ->
         occurs kw (lower p) ->
         (forall (j : nat) kw' s', (j < i)%nat ->
                                   nth_error fallback_responses j = Some (kw', s') ->
                                   ~ occurs kw' (lower p)) ->
         select_fallback_text p = sentence)
  /\ ((forall kw s, In (kw, s) fallback_responses -> ~ occurs kw (lower p)) ->
      select_fallback_text p = generic_fallback_text)
  /\ (forall env (m reason : string) (w : world),
         exists r w',
           _get_fallback_response env p m reason w = (Ok r, w')
           /\ lookup "response" r = Some (VStr (select_fallback_text p))
           /\ sent w' = sent w)
  /\ (forall env (m reason : string) (w : world),
         exists c w',
           _get_fallback_stream_response env p m reason w = (Ok c, w')
           /\ lookup "token" c = Some (VStr (select_fallback_text p))
           /\ lookup "full_response" c = Some (VStr (select_fallback_text p))
           /\ sent w' = sent w).
Proof.
  split; [reflexivity|]. split; [|split; [|split]].
  - intros i kw sentence Hi Hocc Hbefore. unfold select_fallback_text.
    apply (scan_keywords_first _ _ _ i kw sentence Hi).
    + now apply contains_true_iff.
    + intros j kw' s' Hj Hnth. apply contains_false_iff. eapply Hbefore; eauto.
  - intros Hnone. apply scan_keywords_none.
    intros kw s Hin. apply contains_false_iff. eapply Hnone; eauto.
  - intros env m reason w. eexists; eexists. split; [reflexivity|]. now split.
  - intros env m reason w. eexists; eexists. split; [reflexivity|]. now repeat split.
Qed.

(** The prompt "Say HELLO, what now?" contains both "hello" and "what" once
    lowercased; the sentence of "hello", the earlier keyword, is chosen. *)
Lemma fallback_text_first_keyword_witness :
  select_fallback_text "Say HELLO, what now?"
  = "Hello! I'm a fallback response since the LLM service is currently unavailable.".
Proof.
  refine (proj1 (proj2 (fallback_text_first_keyword "Say HELLO, what now?"))
            0%nat "hello" _ eq_refl _ _).
  - exists "say ", ", what now?". reflexivity.
  - intros j kw' s' Hj. exfalso. lia.
Defined.

(** ** Running the service *)

Lemma gets_record_get (url : string) (w : world) :
  gets (record_call (GET url) w) = S (gets w).
Proof.
  unfold gets, record_call; simpl.
  rewrite filter_app, length_app; simpl. lia.
Qed.

Lemma gets_tick (w : world) : gets (tick w) = gets w.
Proof. reflexivity. Qed.

Section ServiceFacts.

Variable env : environment.
Variable self : OllamaService.

Lemma is_available_run (w : world) :
  is_available env self w
  = (Ok (probe_ok env (gets w)), record_call (GET (tags_url self)) w).
Proof.
  unfold is_available, try_except, bind, requests_get, ret, probe_ok, gets.
  destruct (tags_reply env _); reflexivity.
Qed.

Lemma get_available_models_run (w : world) :
  get_available_models env self w
  = (Ok (listed env (gets w)), record_call (GET (tags_url self)) w).
Proof.
  unfold get_available_models, try_except, bind, requests_get, ret, lift, listed, gets.
  destruct (tags_reply env _) as [r|e]; [|reflexivity].
  destruct (tags_status r =? 200); [|reflexivity].
  destruct (tags_names r); reflexivity.
Qed.

Lemma fallback_response_run (p m reason : string) (w : world) :
  _get_fallback_response env p m reason w
  = (Ok (fallback_result p m reason (now_at env (ticks w))), tick w).
Proof. reflexivity. Qed.

Lemma fallback_stream_response_run (p m reason : string) (w : world) :
  _get_fallback_stream_response env p m reason w
  = (Ok (fallback_chunk p m reason (now_at env (ticks w))), tick w).
Proof. reflexivity. Qed.

Lemma generate_response_unfold (p : string) (model : option string) (w : world) :
  generate_response env self p model w
  = if probe_ok env (gets w)
    then generate_attempt env self p
           (resolved_model self model (listed env (S (gets w)))) (probed self w)
    else _get_fallback_response env p (str_or model (default_model self))
           "Ollama service unavailable" (record_call (GET (tags_url self)) w).
Proof.
  unfold generate_response, bind at 1. rewrite is_available_run.
  destruct (probe_ok env (gets w)); simpl; [|reflexivity].
  unfold bind at 1. rewrite get_available_models_run, gets_record_get.
  unfold resolved_model, probed.
  destruct (listed env (S (gets w))) as [|first names]; [reflexivity|].
  cbn [nonempty andb].
  destruct (str_in (str_or model (default_model self)) (first :: names)); reflexivity.
Qed.

Ltac run_attempt :=
  unfold generate_attempt, try_except, bind, lift, ret, datetime_now, requests_post;
  simpl.

Lemma failure_reason_handler (p m : string) (e : exn) (w : world) :
  match e with
  | Timeout _ => _get_fallback_response env p m "Request timeout"
  | _ => _get_fallback_response env p m (str_exn e)
  end w
  = (Ok (fallback_result p m (failure_reason e) (now_at env (ticks w))), tick w).
Proof. destruct e; reflexivity. Qed.

Lemma generate_attempt_success (p m : string) (w : world) (text : string) (ms : Z) :
  attempt_success env p m w text ms ->
  generate_attempt env self p m w
  = (Ok (success_result text m (now_at env (S (ticks w))) ms),
     tick (record_call (POST (generate_url self) (generate_payload m p false)) (tick w))).
Proof.
  intros (resp & data & v & Hpost & Hms & Hst & Hbody & Hget & Hstrip).
  run_attempt. rewrite Hpost; simpl. rewrite Hms; simpl.
  rewrite Hst; simpl. rewrite Hbody; simpl. rewrite Hget; simpl.
  rewrite Hstrip; simpl. reflexivity.
Qed.

Lemma generate_attempt_failure (p m : string) (w : world) (reason : string) :
  attempt_failure env p m w reason ->
  exists w',
    generate_attempt env self p m w
    = (Ok (fallback_result p m reason (now_at env (ticks w'))), tick w')
    /\ sent w' = sent w ++ [POST (generate_url self) (generate_payload m p false)]
    /\ log_file w' = log_file w.
Proof.
  intros H.
  destruct H as [e Hpost | resp e Hpost Hms | resp ms Hpost Hms Hst
                | resp ms e Hpost Hms Hst Hbody
                | resp ms data e Hpost Hms Hst Hbody Hget
                | resp ms data text e Hpost Hms Hst Hbody Hget Hstrip];
    eexists; (split; [run_attempt; rewrite Hpost; simpl|]).
  - apply failure_reason_handler.
  - now split.
  - rewrite Hms; simpl. apply failure_reason_handler.
  - now split.
  - rewrite Hms; simpl. apply Z.eqb_neq in Hst. rewrite Hst. reflexivity.
  - now split.
  - rewrite Hms; simpl. rewrite Hst; simpl. rewrite Hbody; simpl.
    apply failure_reason_handler.
  - now split.
  - rewrite Hms; simpl. rewrite Hst; simpl. rewrite Hbody; simpl. rewrite Hget; simpl.
    apply failure_reason_handler.
  - now split.
  - rewrite Hms; simpl. rewrite Hst; simpl. rewrite Hbody; simpl. rewrite Hget; simpl.
    rewrite Hstrip; simpl. apply failure_reason_handler.
  - now split.
Qed.

Lemma attempt_outcomes (p m : string) (w : world) :
  (exists text ms, attempt_success env p m w text ms)
  \/ (exists reason, attempt_failure env p m w reason).
Proof.
  destruct (post_reply env (generate_payload m p false)) as [resp|e] eqn:Hpost;
    [|right; eexists; eapply PostRaised; eauto].
  destruct (elapsed_ms (now_at env (ticks w)) (now_at env (S (ticks w)))) as [ms|e] eqn:Hms;
    [|right; eexists; eapply ElapsedUnmeasurable; eauto].
  destruct (Z.eq_dec (status_code resp) 200) as [Hst|Hst];
    [|right; eexists; eapply BadStatus; eauto].
  destruct (json_body resp) as [data|e] eqn:Hbody;
    [|right; eexists; eapply BadBody; eauto].
  destruct (py_get data "response" (VStr "")) as [v|e] eqn:Hget;
    [|right; eexists; eapply BodyNotObject; eauto].
  destruct (py_strip v) as [text|e] eqn:Hstrip;
    [|right; eexists; eapply ResponseNotText; eauto].
  left. exists text, ms, resp, data, v. auto 10.
Qed.

End ServiceFacts.

(** ** Elapsed time *)











(** ** The result of [generate_response] *)




(** ** What [strip] removes *)

Lemma length_append (s t : string) :
  String.length (s ++ t) = (String.length s + String.length t)%nat.
Proof. induction s as [|c s IH]; simpl; [reflexivity | now rewrite IH]. Qed.

Lemma lstrip_split (s : string) :
  exists pre, s = (pre ++ lstrip s)%string /\ all_space pre = true.
Proof.
  induction s as [|c s [pre [Hs Hpre]]]; simpl.
  - now exists EmptyString.
  - destruct (isspace c) eqn:Hc.
    + exists (String c pre). simpl. rewrite Hc, Hpre. now rewrite <- Hs.
    + now exists EmptyString.
Qed.

Lemma rstrip_split (s : string) :
  exists post, s = (rstrip s ++ post)%string /\ all_space post = true.
Proof.
  induction s as [|c s [post [Hs Hpost]]]; simpl.
  - now exists EmptyString.
  - destruct (rstrip s) as [|a r] eqn:Hr.
    + simpl in Hs. subst post. destruct (isspace c) eqn:Hc.
      * exists (String c s). simpl. now rewrite Hc, Hpost.
      * exists s. now split.
    + exists post. split; [|exact Hpost]. simpl. now rewrite Hs at 1.
Qed.

Lemma rstrip_idempotent (s : string) : rstrip (rstrip s) = rstrip s.
Proof.
  induction s as [|c s IH]; simpl; [reflexivity|].
  destruct (rstrip s) as [|a r] eqn:Hr.
  - destruct (isspace c) eqn:Hc; simpl; [reflexivity|]. now rewrite Hc.
  - change (rstrip (String c (String a r)))
      with (match rstrip (String a r) with
            | EmptyString => if isspace c then EmptyString else String c EmptyString
            | String a' r' => String c (String a' r')
            end).
    now rewrite IH.
Qed.

Lemma lstrip_idempotent (s : string) : lstrip (lstrip s) = lstrip s.
Proof.
  induction s as [|c s IH]; simpl; [reflexivity|].
  destruct (isspace c) eqn:Hc; [exact IH|]. simpl. now rewrite Hc.
Qed.

Lemma lstrip_rstrip (s : string) : lstrip s = s -> lstrip (rstrip s) = rstrip s.
Proof.
  destruct s as [|c s]; simpl; [reflexivity|].
  destruct (isspace c) eqn:Hc.
  - intros H. exfalso.
    destruct (lstrip_split s) as [pre [Hs _]].
    apply (f_equal String.length) in Hs. rewrite H in Hs.
    rewrite length_append in Hs. simpl in Hs. lia.
  - intros _. destruct (rstrip s); simpl; now rewrite Hc.
Qed.

(** [strip] removes a run of whitespace at each end and nothing else, and
    leaves no whitespace at either end. *)
Lemma strip_spec (s : string) :
  (exists pre post,
      s = (pre ++ strip s ++ post)%string
      /\ all_space pre = true /\ all_space post = true)
  /\ lstrip (strip s) = strip s
  /\ rstrip (strip s) = strip s.
Proof.
  unfold strip. split; [|split].
  - destruct (lstrip_split s) as [pre [Hs Hpre]].
    destruct (rstrip_split (lstrip s)) as [post [Hl Hpost]].
    exists pre, post. split; [|now split].
    now rewrite <- Hl.
  - apply lstrip_rstrip, lstrip_idempotent.
  - apply rstrip_idempotent.
Qed.

(** ** A successful generation call *)

(** C9, as the code has it. When the server is available and answers the
    generation call with status 200 and a JSON object whose [response] is
    a string (or is absent, which counts as the empty string), and the
    elapsed time can be measured, [generate_response] returns a result with
    [success] true, the resolved model name, and the server's text with the
    whitespace removed at both ends, the leading whitespace as well as the
    trailing: the text between is kept as it is, and the result neither
    starts nor ends with whitespace. *)
Theorem generate_success_strips_both_ends (env : environment) (self : OllamaService)
    (p : string) (model : option string) (w : world)
    (resp : response) (d : dict) (text : string) (ms : Z) :
  probe_ok env (gets w) = true ->
  post_reply env
    (generate_payload (resolved_model self model (listed env (S (gets w)))) p false)
  = Ok resp ->
  status_code resp = 200 ->
  json_body resp = Ok (VDict d) ->
  dict_get d "response" (VStr "") = VStr text ->
  elapsed_ms (now_at env (ticks w)) (now_at env (S (ticks w))) = Ok ms ->
  exists r w',
    generate_response env self p model w = (Ok r, w')
    /\ lookup "success" r = Some (VBool true)
    /\ lookup "model" r
       = Some (VStr (resolved_model self model (listed env (S (gets w)))))
    /\ lookup "response" r = Some (VStr (strip text))
    /\ (exists pre post,
           text = (pre ++ strip text ++ post)%string
           /\ all_space pre = true /\ all_space post = true)
    /\ lstrip (strip text) = strip text
    /\ rstrip (strip text) = strip text.
Proof.
  intros Hprobe Hpost Hst Hbody Hget Hms.
  rewrite generate_response_unfold, Hprobe.
  rewrite (generate_attempt_success env self p _ (probed self w) (strip text) ms).
  - eexists; eexists. split; [reflexivity|].
    repeat (split; [reflexivity|]). apply strip_spec.
  - exists resp, (VDict d), (VStr text). simpl. rewrite Hget. auto 10.
Qed.

(** The server answers with the text "  Paris.  ". *)
Lemma generate_success_strips_both_ends_witness :
  exists r w',
    generate_response
      (backend (tags_ok ["llama2"]) (json_reply 200 (VDict [("response", VStr "  Paris.  ")])))
      local_service "What is the capital of France?" None fresh_world = (Ok r, w')
    /\ lookup "success" r = Some (VBool true)
    /\ lookup "model" r = Some (VStr "llama2")
    /\ lookup "response" r = Some (VStr "Paris.")
    /\ (exists pre post,
           "  Paris.  " = (pre ++ "Paris." ++ post)%string
           /\ all_space pre = true /\ all_space post = true)
    /\ lstrip "Paris." = "Paris."
    /\ rstrip "Paris." = "Paris.".
Proof.
  exact (generate_success_strips_both_ends
           (backend (tags_ok ["llama2"]) (json_reply 200 (VDict [("response", VStr "  Paris.  ")])))
           local_service "What is the capital of France?" None fresh_world
           _ [("response", VStr "  Paris.  ")] "  Paris.  " 1
           eq_refl eq_refl eq_refl eq_refl eq_refl eq_refl).
Defined.

(** C9 as stated fails: the server answers the generation call with status
    200 and the text "  hi"; trimming the trailing whitespace leaves
    "  hi", but the result carries "hi". *)
Lemma generate_trailing_trim_counterexample :
  match generate_response
          (backend (tags_ok ["llama2"]) (json_reply 200 (VDict [("response", VStr "  hi")])))
          local_service "Hello" None fresh_world
  with
  | (Ok r, _) =>
      lookup "success" r = Some (VBool true)
      /\ lookup "response" r = Some (VStr "hi")
      /\ lookup "response" r <> Some (VStr (rstrip "  hi"))
  | (Raise _, _) => False
  end.
Proof. vm_compute. repeat split. discriminate. Qed.

(** ** An empty model list *)

Lemma empty_model_list_attempts (env : environment) (self : OllamaService)
    (p : string) (model : option string) (w : world) :
  probe_ok env (gets w) = true ->
  listed env (S (gets w)) = [] ->
  generate_response env self p model w
  = generate_attempt env self p (str_or model (default_model self)) (probed self w).
Proof.
  intros Hprobe Hnone. now rewrite generate_response_unfold, Hprobe, Hnone.
Qed.

(** C4 fails on the code. The server is available, lists no model, and
    would answer a generation call with status 200 and the text "hi":
    [generate_response] sends the call, for the requested or default
    model, and returns the server's text with [success] true; no result
    tagged "No models available" is returned. *)
Theorem empty_model_list_reaches_backend :
  match generate_response
          (backend (tags_ok []) (json_reply 200 (VDict [("response", VStr "hi")])))
          local_service "Hello" None fresh_world
  with
  | (Ok r, w') =>
      lookup "success" r = Some (VBool true)
      /\ lookup "response" r = Some (VStr "hi")
      /\ lookup "model" r = Some (VStr "llama2")
      /\ lookup "error_reason" r = None
      /\ sent w'
         = [ GET "http://localhost:11434/api/tags";
             GET "http://localhost:11434/api/tags";
             POST "http://localhost:11434/api/generate"
               [ ("model", VStr "llama2"); ("prompt", VStr "Hello");
                 ("stream", VBool false) ] ]
  | (Raise _, _) => False
  end.
Proof. vm_compute. repeat split. Qed.

(** ** Generators *)

(** Induction on a suspended generator: what it resumes to is smaller. *)
Lemma gen_induction {A} (P : gen A -> Prop) :
  P Done ->
  (forall a resume,
      (forall w g' w', resume w = (Ok g', w') -> P g') -> P (Yield a resume)) ->
  forall g, P g.
Proof.
  intros HDone HYield.
  refine (fix IH (g : gen A) : P g :=
            match g with
            | Done => HDone
            | Yield a resume =>
                HYield a resume
                  (fun w g' w' =>
                     match resume w as r return r = (Ok g', w') -> P g' with
                     | (Ok g0, w0) => fun H => _
                     | (Raise e, w0) => fun H => _
                     end)
            end).
  - assert (Heq : g0 = g') by (inversion H; reflexivity).
    rewrite <- Heq. exact (IH g0).
  - discriminate H.
Qed.

Lemma collect_guard_gen {A} (h : exn -> generator A) (g : gen A) :
  forall w, collect (guard_gen h g) w = then_handle h (collect g w).
Proof.
  induction g as [|a resume IH] using gen_induction; intros w; [reflexivity|].
  simpl. destruct (resume w) as [[g'|e] w'] eqn:Hres.
  - rewrite (IH w g' w' Hres). unfold then_handle.
    destruct (collect g' w') as [[l [e|]] w'']; [|reflexivity].
    destruct (run_gen (h e) w'') as [[l2 e2] w3]. reflexivity.
  - unfold then_handle, run_gen. destruct (h e w') as [[g2|e2] w2]; [|reflexivity].
    destruct (collect g2 w2) as [[l2 e3] w3]. reflexivity.
Qed.

Lemma run_gen_try_gen {A} (c : generator A) (h : exn -> generator A) (w : world) :
  run_gen (try_gen c h) w = then_handle h (run_gen c w).
Proof.
  unfold run_gen, try_gen. destruct (c w) as [[g|e] w'].
  - apply collect_guard_gen.
  - unfold then_handle, run_gen. destruct (h e w') as [[g2|e2] w2]; [|reflexivity].
    destruct (collect g2 w2) as [[l2 e3] w3]. reflexivity.
Qed.

Lemma run_gen_yield {A} (a : A) (rest : generator A) (w : world) :
  run_gen (yield a rest) w
  = let '(l, e, w') := run_gen rest w in (a :: l, e, w').
Proof.
  unfold run_gen, yield, ret; simpl.
  destruct (rest w) as [[g|e] w']; [|reflexivity].
  destruct (collect g w') as [[l e] w'']. reflexivity.
Qed.

(** ** Running the streaming service *)

Section StreamFacts.

Variable env : environment.
Variable self : OllamaService.

Lemma yield_fallback_run (p m reason : string) (w : world) :
  run_gen (yield_fallback env p m reason) w
  = ([fallback_chunk p m reason (now_at env (ticks w))], None, tick w).
Proof. reflexivity. Qed.

Lemma generate_response_stream_unfold (p : string) (model : option string) (w : world) :
  generate_response_stream env self p model w
  = if probe_ok env (gets w)
    then stream_attempt env self p
           (resolved_model self model (listed env (S (gets w)))) (probed self w)
    else yield_fallback env p (str_or model (default_model self))
           "Ollama service unavailable" (record_call (GET (tags_url self)) w).
Proof.
  unfold generate_response_stream, bind at 1. rewrite is_available_run.
  destruct (probe_ok env (gets w)); simpl; [|reflexivity].
  unfold bind at 1. rewrite get_available_models_run, gets_record_get.
  unfold resolved_model, probed.
  destruct (listed env (S (gets w))) as [|first names]; [reflexivity|].
  cbn [nonempty andb].
  destruct (str_in (str_or model (default_model self)) (first :: names)); reflexivity.
Qed.

Lemma run_gen_ext {A} (c1 c2 : generator A) (w1 w2 : world) :
  c1 w1 = c2 w2 -> run_gen c1 w1 = run_gen c2 w2.
Proof. unfold run_gen. now intros ->. Qed.

Lemma stream_handler_run (p m : string) (e : exn) (w : world) :
  run_gen (stream_handler env p m e) w
  = ([fallback_chunk p m (failure_reason e) (now_at env (ticks w))], None, tick w).
Proof. destruct e; reflexivity. Qed.

Lemma then_handle_stream_handler (p m : string) r :
  then_handle (stream_handler env p m) r = with_fallback env p m r.
Proof.
  destruct r as [[l [e|]] w']; [|reflexivity].
  unfold then_handle. now rewrite stream_handler_run.
Qed.

Lemma stream_attempt_run (p m : string) (w : world) :
  run_gen (stream_attempt env self p m) w
  = match post_reply env (generate_payload m p true) with
    | Raise e =>
        ([fallback_chunk p m (failure_reason e) (now_at env (S (ticks w)))], None,
         tick (posted self p m w))
    | Ok resp =>
        if status_code resp =? 200
        then with_fallback env p m
               (run_gen (stream_lines env m (now_at env (ticks w)) ""
                           (lines resp) (lines_end resp)) (posted self p m w))
        else ([fallback_chunk p m ("API error: " ++ str_of_int (status_code resp))
                 (now_at env (S (ticks w)))], None, tick (posted self p m w))
    end.
Proof.
  unfold stream_attempt. fold (stream_handler env p m).
  rewrite run_gen_try_gen, then_handle_stream_handler.
  destruct (post_reply env (generate_payload m p true)) as [resp|e] eqn:Hpost.
  - destruct (status_code resp =? 200) eqn:Hst.
    + f_equal. apply run_gen_ext.
      unfold bind, datetime_now, requests_post; simpl. now rewrite Hpost, Hst.
    + unfold run_gen, bind, datetime_now, requests_post; simpl. now rewrite Hpost, Hst.
  - unfold run_gen, bind, datetime_now, requests_post; simpl. now rewrite Hpost.
Qed.

Lemma generate_response_stream_run (p : string) (model : option string) (w : world) :
  run_gen (generate_response_stream env self p model) w
  = if probe_ok env (gets w)
    then run_gen (stream_attempt env self p
                    (resolved_model self model (listed env (S (gets w))))) (probed self w)
    else ([fallback_chunk p (str_or model (default_model self))
             "Ollama service unavailable" (now_at env (ticks w))], None,
          tick (record_call (GET (tags_url self)) w)).
Proof.
  unfold run_gen at 1. rewrite generate_response_stream_unfold.
  destruct (probe_ok env (gets w)); reflexivity.
Qed.

(** [generate_response_stream] ends without raising. *)
Lemma generate_response_stream_returns (p : string) (model : option string) (w : world) :
  exists chunks w',
    run_gen (generate_response_stream env self p model) w = (chunks, None, w').
Proof.
  rewrite generate_response_stream_run.
  destruct (probe_ok env (gets w)); [|eauto].
  rewrite stream_attempt_run.
  destruct (post_reply env _) as [resp|e]; [|eauto].
  destruct (status_code resp =? 200); [|eauto].
  destruct (run_gen _ _) as [[l [e|]] w']; simpl; eauto.
Qed.

End StreamFacts.

(** ** The lines of a streamed reply *)

Section StreamLines.

Variable env : environment.

Lemma advance_tick (k : nat) (w : world) : advance k (tick w) = advance (S k) w.
Proof. unfold advance, tick; simpl. f_equal. lia. Qed.

Lemma advance_zero (w : world) : advance 0 w = w.
Proof. destruct w; reflexivity. Qed.

Lemma append_assoc (a b c : string) : ((a ++ b) ++ c = a ++ (b ++ c))%string.
Proof. induction a as [|x a IH]; simpl; [reflexivity | now rewrite IH]. Qed.

Lemma append_empty (a : string) : (a ++ "" = a)%string.
Proof. induction a as [|x a IH]; simpl; [reflexivity | now rewrite IH]. Qed.

Lemma collect_yield {A} (a : A) (rest : generator A) (w : world) :
  collect (Yield a rest) w = let '(l, e, w1) := run_gen rest w in (a :: l, e, w1).
Proof.
  unfold run_gen; simpl. destruct (rest w) as [[g|e] w1]; [|reflexivity].
  destruct (collect g w1) as [[l e] w2]. reflexivity.
Qed.

Lemma stream_lines_quiet (m : string) (t0 : Z) (qs tail : list stream_line)
    (ending : option exn) :
  Forall quiet_line qs ->
  forall (full : string) (w : world),
    run_gen (stream_lines env m t0 full (qs ++ tail) ending) w
    = let '(l, e, w1) :=
        run_gen (stream_lines env m t0 (full ++ tokens_text qs) tail ending)
          (advance (token_count qs) w) in
      (token_chunks env m qs (ticks w) ++ l, e, w1).
Proof.
  induction 1 as [|line qs Hline Hqs IH]; intros full w.
  - simpl. rewrite append_empty, advance_zero.
    destruct (run_gen _ w) as [[l e] w1]. reflexivity.
  - destruct line as [| msg | msg | v]; try contradiction.
    + apply IH.
    + apply IH.
    + destruct v; try contradiction. destruct Hline as [Hdone [s Htok]].
      simpl app. unfold run_gen at 1. cbn [stream_lines]. unfold bind, lift. cbn [py_get].
      cbn [tokens_text token_count token_chunks token_text]. unfold token_chunk.
      cbn [token_text].
      rewrite Htok, Hdone. cbn [truthy].
      destruct (String.eqb s "") eqn:Hs; cbn [negb].
      * apply String.eqb_eq in Hs. subst s. apply IH.
      * cbn [str_iadd]. unfold datetime_now. fold (tick w). unfold yield, ret.
        rewrite collect_yield, IH, append_assoc, advance_tick.
        destruct (run_gen _ (advance (S (token_count qs)) w)) as [[l e] w1].
        reflexivity.
Qed.


Lemma stream_lines_end (m : string) (t0 : Z) (full : string) (ending : option exn)
    (w : world) :
  run_gen (stream_lines env m t0 full [] ending) w = ([], ending, w).
Proof. destruct ending; reflexivity. Qed.

Lemma token_chunks_not_done (m : string) (qs : list stream_line) :
  Forall quiet_line qs ->
  forall n, Forall (fun c => chunk_done c = false) (token_chunks env m qs n).
Proof.
  induction 1 as [|line qs Hline Hqs IH]; intros n; simpl; [constructor|].
  destruct (String.eqb (token_text line) ""); [apply IH|].
  constructor; [|apply IH].
  destruct line as [| msg | msg | v]; try reflexivity.
  destruct v; try contradiction. destruct Hline as [Hdone _]. exact Hdone.
Qed.

Lemma token_chunks_join (m : string) (qs : list stream_line) :
  forall n, join (map chunk_token (token_chunks env m qs n)) = tokens_text qs.
Proof.
  induction qs as [|line qs IH]; intros n; simpl; [reflexivity|].
  destruct (String.eqb (token_text line) "") eqn:Hs.
  - apply String.eqb_eq in Hs. rewrite Hs. simpl. apply IH.
  - simpl. now rewrite IH.
Qed.

End StreamLines.

(** ** The chunks of [generate_response_stream] *)

Lemma stream_refusal_run (env : environment) (self : OllamaService) (p : string)
    (model : option string) (w : world) (reason : string) :
  stream_refusal env self p model w reason ->
  exists m t w',
    run_gen (generate_response_stream env self p model) w
    = ([fallback_chunk p m reason t], None, w').
Proof.
  intros H. rewrite generate_response_stream_run.
  destruct H as [Hprobe | e Hprobe Hpost | resp Hprobe Hpost Hst]; rewrite Hprobe.
  - eauto.
  - rewrite stream_attempt_run, Hpost. eauto.
  - rewrite stream_attempt_run, Hpost.
    apply Z.eqb_neq in Hst. rewrite Hst. eauto.
Qed.





(** ** Failures of the model server *)

Lemma generate_response_returns (env : environment) (self : OllamaService)
    (p : string) (model : option string) (w : world) :
  exists r w', generate_response env self p model w = (Ok r, w').
Proof.
  rewrite generate_response_unfold. destruct (probe_ok env (gets w)).
  - destruct (attempt_outcomes env p (resolved_model self model (listed env (S (gets w))))
                (probed self w)) as [(text & ms & Hok) | (reason & Hfail)].
    + rewrite (generate_attempt_success env self p _ _ text ms Hok). eauto.
    + destruct (generate_attempt_failure env self p _ _ reason Hfail) as (w' & Hrun & _).
      rewrite Hrun. eauto.
  - rewrite fallback_response_run. eauto.
Qed.

Lemma generate_failure_run (env : environment) (self : OllamaService)
    (p : string) (model : option string) (w : world) (reason : string) :
  generate_failure env self p model w reason ->
  exists m t w',
    generate_response env self p model w = (Ok (fallback_result p m reason t), w').
Proof.
  intros H. rewrite generate_response_unfold.
  destruct H as [Hprobe | reason Hprobe Hfail]; rewrite Hprobe.
  - rewrite fallback_response_run. eauto.
  - destruct (generate_attempt_failure env self p _ _ reason Hfail) as (w' & Hrun & _).
    rewrite Hrun. eauto.
Qed.

Lemma skipped_lines_quiet (ls : list stream_line) :
  Forall skipped_line ls -> Forall quiet_line ls /\ token_count ls = O.
Proof.
  induction 1 as [|line ls Hline Hls [IHq IHc]]; [split; [constructor|reflexivity]|].
  destruct line; try contradiction; (split; [constructor; [exact I|exact IHq]|exact IHc]).
Qed.

Lemma skipped_lines_chunks (env : environment) (m : string) (ls : list stream_line) :
  Forall skipped_line ls -> forall n, token_chunks env m ls n = [].
Proof.
  induction 1 as [|line ls Hline Hls IH]; intros n; [reflexivity|].
  destruct line; try contradiction; apply IH.
Qed.

(** A reply with status 200 whose lines are all quiet. *)
Lemma stream_quiet_run (env : environment) (self : OllamaService) (p : string)
    (model : option string) (w : world) (resp : response) :
  let m := resolved_model self model (listed env (S (gets w))) in
  probe_ok env (gets w) = true ->
  post_reply env (generate_payload m p true) = Ok resp ->
  status_code resp = 200 ->
  Forall quiet_line (lines resp) ->
  run_gen (generate_response_stream env self p model) w
  = with_fallback env p m
      (token_chunks env m (lines resp) (S (ticks w)), lines_end resp,
       advance (token_count (lines resp)) (posted self p m (probed self w))).
Proof.
  intros m Hprobe Hpost Hst Hqs.
  rewrite generate_response_stream_run, Hprobe.
  fold m. rewrite stream_attempt_run, Hpost, Hst. cbn [Z.eqb Pos.eqb].
  rewrite <- (app_nil_r (lines resp)) at 1.
  rewrite (stream_lines_quiet env m _ _ _ _ Hqs), stream_lines_end, app_nil_r.
  reflexivity.
Qed.

(** C2, as the code has it. [generate_response] and
    [generate_response_stream] return without raising, whatever the
    prompt, the model argument and the model server do.  When the server
    is unavailable, when the generation call raises (a timeout, a
    connection error) or is answered with a status other than 200, and, in
    complete mode, when the body is malformed, the result or the one chunk
    has [success] false and carries the reason.  When a streamed reply
    breaks off with an exception after quiet lines, the last chunk has
    [success] false and carries the reason.  In streaming mode malformed
    lines are passed over: a reply made of such lines yields no chunk. *)
Theorem generation_never_raises (env : environment) (self : OllamaService)
    (p : string) (model : option string) (w : world) :
  (exists r w', generate_response env self p model w = (Ok r, w'))
  /\ (exists chunks w',
         run_gen (generate_response_stream env self p model) w = (chunks, None, w'))
  /\ (forall reason,
         generate_failure env self p model w reason ->
         exists r w',
           generate_response env self p model w = (Ok r, w')
           /\ lookup "success" r = Some (VBool false)
           /\ lookup "error_reason" r = Some (VStr reason))
  /\ (forall reason,
         stream_refusal env self p model w reason ->
         exists c w',
           run_gen (generate_response_stream env self p model) w = ([c], None, w')
           /\ lookup "success" c = Some (VBool false)
           /\ lookup "error_reason" c = Some (VStr reason))
  /\ (forall (resp : response) (e : exn),
         probe_ok env (gets w) = true ->
         post_reply env
           (generate_payload (resolved_model self model (listed env (S (gets w)))) p true)
         = Ok resp ->
         status_code resp = 200 ->
         Forall quiet_line (lines resp) ->
         lines_end resp = Some e ->
         exists tokens c w',
           run_gen (generate_response_stream env self p model) w
           = (tokens ++ [c], None, w')
           /\ lookup "success" c = Some (VBool false)
           /\ lookup "error_reason" c = Some (VStr (failure_reason e)))
  /\ (forall (resp : response),
         probe_ok env (gets w) = true ->
         post_reply env
           (generate_payload (resolved_model self model (listed env (S (gets w)))) p true)
         = Ok resp ->
         status_code resp = 200 ->
         Forall skipped_line (lines resp) ->
         lines_end resp = None ->
         exists w',
           run_gen (generate_response_stream env self p model) w = ([], None, w')).
Proof.
  split; [apply generate_response_returns|].
  split; [apply generate_response_stream_returns|].
  split; [|split; [|split]].
  - intros reason H.
    destruct (generate_failure_run env self p model w reason H) as (m & t & w' & Hrun).
    rewrite Hrun. eexists; eexists. now repeat split.
  - intros reason H.
    destruct (stream_refusal_run env self p model w reason H) as (m & t & w' & Hrun).
    rewrite Hrun. eexists; eexists. now repeat split.
  - intros resp e Hprobe Hpost Hst Hqs Hend.
    rewrite (stream_quiet_run env self p model w resp Hprobe Hpost Hst Hqs), Hend.
    eexists; eexists; eexists. split; [reflexivity|]. now split.
  - intros resp Hprobe Hpost Hst Hskip Hend.
    destruct (skipped_lines_quiet _ Hskip) as [Hqs Hcount].
    rewrite (stream_quiet_run env self p model w resp Hprobe Hpost Hst Hqs), Hend.
    rewrite (skipped_lines_chunks env _ _ Hskip). eexists. reflexivity.
Qed.

Lemma generation_never_raises_witness :
  exists r w',
    generate_response timing_out local_service "Hello" None fresh_world = (Ok r, w')
    /\ lookup "success" r = Some (VBool false)
    /\ lookup "error_reason" r = Some (VStr "Request timeout").
Proof.
  refine (proj1 (proj2 (proj2 (generation_never_raises timing_out local_service
                                 "Hello" None fresh_world)))
            "Request timeout" _).
  apply GenerateAttemptFailed; [reflexivity|].
  exact (PostRaised timing_out "Hello" "llama2" _ (Timeout _) eq_refl).
Defined.

(** C2 as stated fails: the server answers the streaming call with status
    200 and a body whose only line is not JSON; no chunk is produced, so
    none with [success] false and a reason. *)
Lemma malformed_stream_counterexample :
  run_gen
    (generate_response_stream
       (backend (tags_ok ["llama2"])
          (stream_reply 200 [Malformed "Expecting value: line 1 column 1 (char 0)"] None))
       local_service "Hello" None) fresh_world
  = ([], None,
     {| ticks := 1;
        sent := [ GET "http://localhost:11434/api/tags";
                  GET "http://localhost:11434/api/tags";
                  POST "http://localhost:11434/api/generate"
                    [ ("model", VStr "llama2"); ("prompt", VStr "Hello");
                      ("stream", VBool true) ] ];
        log_file := None |}).
Proof. reflexivity. Qed.

(* ================================================================== *)
(** * Properties of the interaction log *)
(* ================================================================== *)

Section LogFacts.

Variable env : environment.
Variable json_loads : string -> option pyval.
Variable json_dumps : bool -> pyval -> string.

Lemma fold_parse_into (ls : list string) :
  forall acc, fold_left (parse_into json_loads) ls acc = acc ++ parsed json_loads ls.
Proof.
  induction ls as [|line ls IH]; intros acc; simpl.
  - now rewrite app_nil_r.
  - unfold parse_into at 2. destruct (json_loads (strip line)).
    + now rewrite IH, <- app_assoc.
    + apply IH.
Qed.


Lemma parsed_length (ls : list string) : (List.length (parsed json_loads ls) <= List.length ls)%nat.
Proof.
  induction ls as [|line ls IH]; simpl; [lia|].
  destruct (json_loads (strip line)); simpl; lia.
Qed.


Lemma get_recent_logs_run (limit : Z) (w : world) (ls : list string) :
  log_file w = Some ls ->
  read_error env (ticks w) = None ->
  get_recent_logs env json_loads limit w = (Ok (parsed json_loads (recent_lines limit ls)), w).
Proof.
  intros Hfile Hread.
  unfold get_recent_logs, bind, log_exists, try_except, read_lines, ret.
  rewrite Hfile; simpl. rewrite Hread, Hfile.
  fold (recent_lines limit ls). now rewrite fold_parse_into.
Qed.

Lemma get_recent_logs_absent (limit : Z) (w : world) :
  log_file w = None -> get_recent_logs env json_loads limit w = (Ok [], w).
Proof.
  intros Hfile. unfold get_recent_logs, bind, log_exists. now rewrite Hfile.
Qed.

Lemma recent_lines_positive (limit : Z) (ls : list string) :
  0 < limit ->
  recent_lines limit ls
  = lastn (Z.to_nat (Z.min limit (Z.of_nat (List.length ls)))) ls.
Proof.
  intros Hpos. unfold recent_lines, lastn, slice_from.
  destruct (Z.of_nat (List.length ls) >? limit) eqn:Hcmp.
  - apply Z.gtb_lt in Hcmp.
    destruct (- limit <? 0) eqn:Hneg; [|apply Z.ltb_ge in Hneg; lia].
    f_equal. lia.
  - assert (Hle : Z.of_nat (List.length ls) <= limit).
    { destruct (Z.gtb_spec (Z.of_nat (List.length ls)) limit); [discriminate|lia]. }
    replace (List.length ls - Z.to_nat (Z.min limit (Z.of_nat (List.length ls))))%nat
      with 0%nat by lia.
    reflexivity.
Qed.


Lemma lastn_length {A} (k : nat) (l : list A) : (List.length (lastn k l) <= k)%nat.
Proof. unfold lastn. rewrite length_skipn. lia. Qed.

(** ** Appending *)

Lemma log_interaction_run (p : string) (d : dict) (entry : dict) (w : world) :
  writable env ->
  entry_for (p, d) entry ->
  log_interaction env json_dumps p d w = (Ok tt, with_lines [entry_line json_dumps entry] 1 w).
Proof.
  intros Hwrite (t & Hts & ->). simpl in Hts.
  unfold log_interaction, bind, datetime_now, lift, try_except, append_text, dict_get.
  rewrite Hts. simpl. rewrite Hwrite. reflexivity.
Qed.




End LogFacts.









(** ** Statistics *)

Section StatsFacts.

Variable env : environment.
Variable json_loads : string -> option pyval.



Lemma get_log_stats_absent (w : world) :
  log_file w = None -> get_log_stats env json_loads w = (Ok zero_stats, w).
Proof.
  intros Hfile. unfold get_log_stats, bind, log_exists. now rewrite Hfile.
Qed.

End StatsFacts.







(* ================================================================== *)
(** * Properties of the [/generate] handler *)
(* ================================================================== *)

(** The result of [generate_response] is one of the two dictionaries that
    the function builds, and the log file is as it was. *)
Lemma generate_response_shape (env : environment) (self : OllamaService)
    (p : string) (model : option string) (w : world) :
  exists r w',
    generate_response env self p model w = (Ok r, w')
    /\ log_file w' = log_file w
    /\ ((exists text m t ms, r = success_result text m t ms)
        \/ (exists m reason t, r = fallback_result p m reason t)).
Proof.
  rewrite generate_response_unfold. destruct (probe_ok env (gets w)).
  - destruct (attempt_outcomes env p (resolved_model self model (listed env (S (gets w))))
                (probed self w)) as [(text & ms & Hok) | (reason & Hfail)].
    + rewrite (generate_attempt_success env self p _ _ text ms Hok).
      eexists; eexists. split; [reflexivity|]. split; [reflexivity|]. left. eauto.
    + destruct (generate_attempt_failure env self p _ _ reason Hfail)
        as (w' & Hrun & _ & Hlog).
      rewrite Hrun. eexists; eexists. split; [reflexivity|].
      split; [exact Hlog|]. right. eauto.
  - rewrite fallback_response_run.
    eexists; eexists. split; [reflexivity|]. split; [reflexivity|]. right. eauto.
Qed.

(** In complete mode the handler appends one entry, whatever the model
    server does, when the disk does not fail. *)
Lemma complete_mode_logs_once (env : environment) (json_dumps : bool -> pyval -> string)
    (self : OllamaService) (request : GenerateRequest) (w : world) :
  stream request <> Some true ->
  writable env ->
  exists body w',
    generate_endpoint env json_dumps self request w = (Ok (Complete body), w')
    /\ entries_appended w w' = 1.
Proof.
  intros Hmode Hwrite.
  destruct (generate_response_shape env self (prompt request) (model request) w)
    as (r & w1 & Hrun & Hlog & Hshape).
  assert (Hentry : exists t, lookup "timestamp" r = Some (VDatetime t)
                             /\ exists a b, lookup "response" r = Some (VStr a)
                                            /\ lookup "model" r = Some (VStr b)).
  { destruct Hshape as [(text & m & t & ms & ->) | (m & reason & t & ->)];
      exists t; (split; [reflexivity|]); eexists; eexists; split; reflexivity. }
  destruct Hentry as (t & Hts & a & b & Ha & Hb).
  unfold generate_endpoint, try_except.
  assert (Hflag : truthy match stream request with
                         | Some b0 => VBool b0
                         | None => VNone
                         end = false).
  { destruct (stream request) as [[|]|]; [congruence|reflexivity|reflexivity]. }
  rewrite Hflag. unfold bind at 1. rewrite Hrun.
  unfold bind at 1.
  rewrite (log_interaction_run env json_dumps (prompt request) r
             (log_entry_of (isoformat t) (prompt request) r) w1 Hwrite)
    by (exists t; split; [exact Hts|reflexivity]).
  unfold bind, lift, dict_item. rewrite Ha, Hb, Hts. simpl.
  eexists; eexists. split; [reflexivity|].
  unfold entries_appended, log_lines at 1. simpl.
  fold (log_lines w1). unfold log_lines. rewrite Hlog.
  rewrite length_app. simpl. lia.
Qed.

(** C1 fails on the code. For an accepted request in streaming mode, when
    the server answers 200, streams a token and closes the stream without
    a line marked [done], the handler relays the token and the end
    sentinel and appends no entry to the log, whatever [json.dumps]
    writes and although the disk does not fail. *)
Theorem truncated_stream_is_not_logged (json_dumps : bool -> pyval -> string) :
  accepted streaming_request = true
  /\ match serve_generate truncated_stream json_dumps local_service streaming_request
             fresh_world
     with
     | (ServedStream events failure, w') =>
         failure = None
         /\ List.length events = 2%nat
         /\ last events "" = sse_done
         /\ log_file w' = None
         /\ entries_appended fresh_world w' = 0
     | _ => False
     end.
Proof. split; [reflexivity|]. cbv. repeat split. Qed.

(** For comparison: when the server closes the stream with a line marked
    [done], the handler appends one entry. *)
Example closed_stream_is_logged_once (json_dumps : bool -> pyval -> string) :
  match serve_generate
          (backend (tags_ok ["llama2"])
             (stream_reply 200
                [ Parsed (VDict [("response", VStr "Hi"); ("done", VBool false)]);
                  Parsed (VDict [("response", VStr ""); ("done", VBool true)]) ] None))
          json_dumps local_service streaming_request fresh_world
  with
  | (ServedStream events failure, w') =>
      failure = None
      /\ List.length events = 3%nat
      /\ entries_appended fresh_world w' = 1
  | _ => False
  end.
Proof. cbv. repeat split. Qed.

(* ================================================================== *)
(** * Further properties of the model service *)
(* ================================================================== *)

(** X1. [is_available] sends one [GET /api/tags] and returns without
    raising, whatever the server does: [True] when the reply has status
    200, [False] when it has another status or the request raises. *)
Theorem is_available_never_raises (env : environment) (self : OllamaService) (w : world) :
  exists b,
    is_available env self w = (Ok b, record_call (GET (tags_url self)) w)
    /\ (b = true <-> exists r, tags_reply env (gets w) = Ok r /\ tags_status r = 200).
Proof.
  exists (probe_ok env (gets w)). split; [apply is_available_run|].
  unfold probe_ok. destruct (tags_reply env (gets w)) as [r|e].
  - split.
    + intros H. exists r. split; [reflexivity|]. now apply Z.eqb_eq.
    + intros (r' & Hr & Hst). inversion Hr; subst. now apply Z.eqb_eq.
  - split; [discriminate|]. intros (r & Hr & _). discriminate.
Qed.

(** X2. [get_available_models] sends one [GET /api/tags] and returns
    without raising: the names of the reply when it has status 200 and its
    body can be read, and the empty list in every other case. *)
Theorem available_models_never_raises (env : environment) (self : OllamaService)
    (w : world) :
  exists names,
    get_available_models env self w = (Ok names, record_call (GET (tags_url self)) w)
    /\ (forall r l,
           tags_reply env (gets w) = Ok r -> tags_status r = 200 ->
           tags_names r = Ok l -> names = l)
    /\ (names <> [] ->
        exists r,
          tags_reply env (gets w) = Ok r /\ tags_status r = 200
          /\ tags_names r = Ok names).
Proof.
  exists (listed env (gets w)). split; [apply get_available_models_run|].
  unfold listed. destruct (tags_reply env (gets w)) as [r|e].
  - destruct (tags_status r =? 200) eqn:Hst.
    + apply Z.eqb_eq in Hst. destruct (tags_names r) as [l|e] eqn:Hn.
      * split.
        -- intros r' l' Hr _ Hl. inversion Hr; subst. congruence.
        -- intros _. exists r. now repeat split.
      * split.
        -- intros r' l' Hr _ Hl. inversion Hr; subst. congruence.
        -- congruence.
    + apply Z.eqb_neq in Hst. split.
      * intros r' l' Hr Hs _. inversion Hr; subst. contradiction.
      * congruence.
  - split; [discriminate|congruence].
Qed.

Lemma str_in_true_iff (x : string) (l : list string) : str_in x l = true <-> In x l.
Proof.
  unfold str_in. rewrite existsb_exists. split.
  - intros (y & Hin & Heq). apply String.eqb_eq in Heq. now subst.
  - intros Hin. exists x. split; [exact Hin | apply String.eqb_refl].
Qed.

Lemma resolved_model_listed (self : OllamaService) (model : option string)
    (names : list string) :
  In (str_or model (default_model self)) names ->
  resolved_model self model names = str_or model (default_model self).
Proof.
  intros Hin. unfold resolved_model. destruct names as [|first names]; [reflexivity|].
  apply str_in_true_iff in Hin. now rewrite Hin.
Qed.

Lemma resolved_model_unlisted (self : OllamaService) (model : option string)
    (first : string) (others : list string) :
  ~ In (str_or model (default_model self)) (first :: others) ->
  resolved_model self model (first :: others) = first.
Proof.
  intros Hin. unfold resolved_model.
  destruct (str_in (str_or model (default_model self)) (first :: others)) eqn:H;
    [|reflexivity].
  apply str_in_true_iff in H. contradiction.
Qed.

(** What [generate_response] sends and returns. *)
Lemma generate_response_run (env : environment) (self : OllamaService)
    (p : string) (model : option string) (w : world) :
  exists r w',
    generate_response env self p model w = (Ok r, w')
    /\ log_file w' = log_file w
    /\ sent w'
       = sent w
         ++ (if probe_ok env (gets w)
             then [ GET (tags_url self); GET (tags_url self);
                    POST (generate_url self)
                      (generate_payload
                         (resolved_model self model (listed env (S (gets w)))) p false) ]
             else [ GET (tags_url self) ])
    /\ (probe_ok env (gets w) = true ->
        let m := resolved_model self model (listed env (S (gets w))) in
        (lookup "success" r = Some (VBool true) /\ lookup "model" r = Some (VStr m))
        \/ (lookup "success" r = Some (VBool false)
            /\ lookup "model" r = Some (VStr (m ++ " (fallback)")))).
Proof.
  rewrite generate_response_unfold. destruct (probe_ok env (gets w)).
  - destruct (attempt_outcomes env p (resolved_model self model (listed env (S (gets w))))
                (probed self w)) as [(text & ms & Hok) | (reason & Hfail)].
    + rewrite (generate_attempt_success env self p _ _ text ms Hok).
      eexists; eexists. split; [reflexivity|]. split; [reflexivity|]. split.
      * simpl. now rewrite <- !app_assoc.
      * intros _ m. left. now split.
    + destruct (generate_attempt_failure env self p _ _ reason Hfail)
        as (w' & Hrun & Hsent & Hlog).
      rewrite Hrun. eexists; eexists. split; [reflexivity|].
      split; [exact Hlog|]. split.
      * simpl. rewrite Hsent. simpl. now rewrite <- !app_assoc.
      * intros _ m. right. now split.
  - rewrite fallback_response_run.
    eexists; eexists. split; [reflexivity|]. split; [reflexivity|].
    split; [reflexivity|discriminate].
Qed.

(** X3. [generate_response] leaves the log file alone and sends at most
    three requests: one [GET /api/tags] when the server is unavailable, and
    no generation call then; else two [GET /api/tags] followed by one
    [POST /api/generate], whose payload names the resolved model, carries
    the prompt as given and has [stream] false. *)
Theorem generate_response_requests (env : environment) (self : OllamaService)
    (p : string) (model : option string) (w : world) :
  exists r w',
    generate_response env self p model w = (Ok r, w')
    /\ log_file w' = log_file w
    /\ sent w'
       = sent w
         ++ (if probe_ok env (gets w)
             then [ GET (tags_url self); GET (tags_url self);
                    POST (generate_url self)
                      [ ("model",
                         VStr (resolved_model self model (listed env (S (gets w)))));
                        ("prompt", VStr p);
                        ("stream", VBool false) ] ]
             else [ GET (tags_url self) ]).
Proof.
  destruct (generate_response_run env self p model w) as (r & w' & Hrun & Hlog & Hsent & _).
  exists r, w'. now repeat split.
Qed.

(** X4. The model that [generate_response] asks for.  When the server is
    available and lists the requested model (the default one when the
    request names none), the generation call is made for that model.  When
    the server lists models and the requested one is not among them, the
    call is made for the first listed model.  In both cases the [model] of
    the result is the model called, followed by [" (fallback)"] when the
    call fails. *)
Theorem unlisted_model_is_replaced (env : environment) (self : OllamaService)
    (p : string) (model : option string) (w : world) :
  probe_ok env (gets w) = true ->
  let requested := str_or model (default_model self) in
  let names := listed env (S (gets w)) in
  forall called,
    (In requested names /\ called = requested)
    \/ (~ In requested names /\ exists others, names = called :: others) ->
    exists r w',
      generate_response env self p model w = (Ok r, w')
      /\ last (sent w') (GET "")
         = POST (generate_url self) (generate_payload called p false)
      /\ ((lookup "success" r = Some (VBool true)
           /\ lookup "model" r = Some (VStr called))
          \/ (lookup "success" r = Some (VBool false)
              /\ lookup "model" r = Some (VStr (called ++ " (fallback)")))).
Proof.
  intros Hprobe requested names called Hcalled.
  assert (Hm : resolved_model self model names = called).
  { destruct Hcalled as [[Hin ->] | [Hout [others Hnames]]].
    - now apply resolved_model_listed.
    - rewrite Hnames in *. now apply resolved_model_unlisted. }
  destruct (generate_response_run env self p model w)
    as (r & w' & Hrun & _ & Hsent & Hmodel).
  exists r, w'. split; [exact Hrun|]. split.
  - rewrite Hsent, Hprobe. fold names. rewrite Hm.
    match goal with
    | |- last (?l ++ [?a; ?b; ?c]) _ = _ =>
        change (l ++ [a; b; c]) with (l ++ ([a; b] ++ [c])); rewrite app_assoc
    end.
    apply last_last.
  - specialize (Hmodel Hprobe). fold names in Hmodel. now rewrite Hm in Hmodel.
Qed.

(** The server lists only "mistral": a request for the default model
    "llama2" is answered by "mistral". *)
Lemma unlisted_model_is_replaced_witness :
  exists r w',
    generate_response other_model local_service "Hello" None fresh_world = (Ok r, w')
    /\ last (sent w') (GET "")
       = POST (generate_url local_service) (generate_payload "mistral" "Hello" false)
    /\ ((lookup "success" r = Some (VBool true)
         /\ lookup "model" r = Some (VStr "mistral"))
        \/ (lookup "success" r = Some (VBool false)
            /\ lookup "model" r = Some (VStr ("mistral" ++ " (fallback)")))).
Proof.
  refine (unlisted_model_is_replaced other_model local_service "Hello" None fresh_world
            eq_refl "mistral" (or_intror (conj _ (ex_intro _ [] eq_refl)))).
  simpl. intros [H|[]]. discriminate H.
Defined.

(** ** Side effects of the streaming service *)

Lemma same_outside_refl (w : world) : same_outside w w.
Proof. now split. Qed.

Lemma same_outside_trans (w1 w2 w3 : world) :
  same_outside w1 w2 -> same_outside w2 w3 -> same_outside w1 w3.
Proof. intros [H1 H2] [H3 H4]. split; congruence. Qed.

Lemma same_outside_tick (w : world) : same_outside w (tick w).
Proof. now split. Qed.

Lemma collect_calm {A} (g : gen A) :
  calm g -> forall w l e w', collect g w = (l, e, w') -> same_outside w w'.
Proof.
  induction g as [|a resume IH] using gen_induction; intros Hcalm w l e w' Hrun.
  - inversion Hrun; subst. apply same_outside_refl.
  - cbn [calm] in Hcalm. specialize (Hcalm w). cbn [collect] in Hrun.
    destruct (resume w) as [[g'|e0] w1] eqn:Hres.
    + destruct Hcalm as [Hsame Hg'].
      destruct (collect g' w1) as [[l1 e1] w2] eqn:Hc. inversion Hrun; subst.
      eapply same_outside_trans; [exact Hsame|].
      exact (IH w g' w1 Hres Hg' w1 l1 e w' Hc).
    + inversion Hrun; subst. exact Hcalm.
Qed.

Lemma guard_gen_calm {A} (h : exn -> generator A) :
  (forall e, calm_start (h e)) -> forall g, calm g -> calm (guard_gen h g).
Proof.
  intros Hh. induction g as [|a resume IH] using gen_induction; intros Hcalm; [exact I|].
  cbn [guard_gen calm]. intros w. cbn [calm] in Hcalm. specialize (Hcalm w).
  destruct (resume w) as [[g'|e] w1] eqn:Hres.
  - destruct Hcalm as [Hsame Hg']. split; [exact Hsame | exact (IH w g' w1 Hres Hg')].
  - specialize (Hh e w1). destruct (h e w1) as [[g2|e2] w2].
    + destruct Hh as [Hs2 Hg2]. split; [eapply same_outside_trans; eauto | exact Hg2].
    + eapply same_outside_trans; eauto.
Qed.

Lemma stop_calm {A} : calm_start (@stop A).
Proof. intros w. simpl. split; [apply same_outside_refl | exact I]. Qed.

Lemma stream_lines_calm (env : environment) (m : string) (t0 : Z)
    (ls : list stream_line) (ending : option exn) :
  forall full, calm_start (stream_lines env m t0 full ls ending).
Proof.
  induction ls as [|line rest IH]; intros full w.
  - destruct ending; simpl; [apply same_outside_refl | split; [apply same_outside_refl|exact I]].
  - destruct line as [|msg|msg|v]; cbn [stream_lines].
    + apply IH.
    + apply same_outside_refl.
    + apply IH.
    + unfold bind, lift.
      destruct (py_get v "response" (VStr "")) as [token|e]; [|apply same_outside_refl].
      destruct (py_get v "done" (VBool false)) as [done|e]; [|apply same_outside_refl].
      assert (Hafter : forall full',
                 calm_start
                   (if truthy done
                    then
                      fun w0 =>
                        match datetime_now env w0 with
                        | (Ok end_time, w1) =>
                            match elapsed_ms t0 end_time with
                            | Ok duration_ms =>
                                yield [ ("token", VStr "");
                                        ("model", VStr m);
                                        ("timestamp", VStr (isoformat end_time));
                                        ("done", VBool true);
                                        ("success", VBool true);
                                        ("duration_ms", VInt duration_ms);
                                        ("full_response", VStr (strip full')) ]
                                  stop w1
                            | Raise e => (Raise e, w1)
                            end
                        | (Raise e, w1) => (Raise e, w1)
                        end
                    else stream_lines env m t0 full' rest ending)).
      { intros full'. destruct (truthy done); [|apply IH].
        intros w0. unfold datetime_now. fold (tick w0).
        destruct (elapsed_ms t0 (now_at env (ticks w0))); [|apply same_outside_tick].
        unfold yield, ret. split; [apply same_outside_tick|]. exact (@stop_calm dict). }
      destruct (truthy token).
      * destruct (str_iadd full token) as [full'|e]; [|apply same_outside_refl].
        unfold datetime_now. fold (tick w). unfold yield at 1, ret.
        split; [apply same_outside_tick|]. cbn [calm]. exact (Hafter full').
      * exact (Hafter full w).
Qed.

Lemma stream_handler_calm (env : environment) (p m : string) (e : exn) :
  calm_start (stream_handler env p m e).
Proof.
  intros w. destruct e; (split; [apply same_outside_tick | exact (@stop_calm dict)]).
Qed.

Section StreamEffects.

Variable env : environment.
Variable self : OllamaService.

(** The first step of the [try] statement of [generate_response_stream]
    sends the generation call; what it suspends at sends nothing more. *)
Lemma stream_attempt_first (p m : string) (w : world) :
  exists g w',
    stream_attempt env self p m w = (Ok g, w')
    /\ calm g
    /\ sent w' = sent w ++ [POST (generate_url self) (generate_payload m p true)]
    /\ log_file w' = log_file w.
Proof.
  unfold stream_attempt. fold (stream_handler env p m).
  unfold try_gen, bind, datetime_now, requests_post. cbn [fst snd].
  set (w1 := record_call (POST (generate_url self) (generate_payload m p true))
               {| ticks := S (ticks w); sent := sent w; log_file := log_file w |}).
  assert (Hh : forall e w2,
             same_outside w1 w2 ->
             exists g w',
               stream_handler env p m e w2 = (Ok g, w')
               /\ calm g
               /\ sent w' = sent w ++ [POST (generate_url self) (generate_payload m p true)]
               /\ log_file w' = log_file w).
  { intros e w2 [Hs Hl]. pose proof (stream_handler_calm env p m e w2) as Hc.
    destruct (stream_handler env p m e w2) as [[g|e2] w3] eqn:Hrun.
    - destruct Hc as [[Hs3 Hl3] Hg]. exists g, w3. split; [reflexivity|].
      split; [exact Hg|]. split; [rewrite Hs3, Hs | rewrite Hl3, Hl]; reflexivity.
    - destruct e; discriminate Hrun. }
  destruct (post_reply env (generate_payload m p true)) as [resp|e].
  - destruct (status_code resp =? 200).
    + pose proof (stream_lines_calm env m (now_at env (ticks w)) (lines resp)
                    (lines_end resp) "" w1) as Hc.
      destruct (stream_lines env m (now_at env (ticks w)) "" (lines resp)
                  (lines_end resp) w1) as [[g|e] w2].
      * destruct Hc as [[Hs Hl] Hg]. eexists; eexists. split; [reflexivity|].
        split; [apply guard_gen_calm; [apply stream_handler_calm | exact Hg]|].
        split; [rewrite Hs | rewrite Hl]; reflexivity.
      * apply Hh. exact Hc.
    + eexists; eexists. split; [reflexivity|].
      split; [apply guard_gen_calm; [apply stream_handler_calm | exact (@stop_calm dict)]|].
      now split.
  - apply Hh. apply same_outside_refl.
Qed.

Lemma generate_response_stream_first (p : string) (model : option string) (w : world) :
  exists g w',
    generate_response_stream env self p model w = (Ok g, w')
    /\ calm g
    /\ log_file w' = log_file w
    /\ sent w'
       = sent w
         ++ (if probe_ok env (gets w)
             then [ GET (tags_url self); GET (tags_url self);
                    POST (generate_url self)
                      (generate_payload
                         (resolved_model self model (listed env (S (gets w)))) p true) ]
             else [ GET (tags_url self) ]).
Proof.
  rewrite generate_response_stream_unfold. destruct (probe_ok env (gets w)).
  - destruct (stream_attempt_first p (resolved_model self model (listed env (S (gets w))))
                (probed self w)) as (g & w' & Hrun & Hg & Hsent & Hlog).
    exists g, w'. split; [exact Hrun|]. split; [exact Hg|]. split; [exact Hlog|].
    rewrite Hsent. simpl. now rewrite <- !app_assoc.
  - eexists; eexists. split; [reflexivity|]. split; [exact (@stop_calm dict)|]. now split.
Qed.

End StreamEffects.

(** X5. [generate_response_stream], run to its end, leaves the log file
    alone and sends the same requests as [generate_response]: one
    [GET /api/tags] and no generation call when the server is unavailable;
    else two [GET /api/tags] followed by one [POST /api/generate], whose
    payload names the resolved model and has [stream] true.  Reading the
    lines of the reply sends nothing more. *)
Theorem stream_requests (env : environment) (self : OllamaService)
    (p : string) (model : option string) (w : world) :
  exists chunks w',
    run_gen (generate_response_stream env self p model) w = (chunks, None, w')
    /\ log_file w' = log_file w
    /\ sent w'
       = sent w
         ++ (if probe_ok env (gets w)
             then [ GET (tags_url self); GET (tags_url self);
                    POST (generate_url self)
                      [ ("model",
                         VStr (resolved_model self model (listed env (S (gets w)))));
                        ("prompt", VStr p);
                        ("stream", VBool true) ] ]
             else [ GET (tags_url self) ]).
Proof.
  destruct (generate_response_stream_returns env self p model w) as (chunks & w' & Hrun).
  exists chunks, w'. split; [exact Hrun|].
  destruct (generate_response_stream_first env self p model w)
    as (g & w1 & Hfirst & Hg & Hlog & Hsent).
  unfold run_gen in Hrun. rewrite Hfirst in Hrun.
  destruct (collect_calm g Hg w1 chunks None w' Hrun) as [Hs Hl].
  split; [now rewrite Hl | now rewrite Hs].
Qed.

(** ** Streams that do not end with a closing line *)

Lemma token_chunks_length (env : environment) (m : string) (qs : list stream_line) :
  forall n, List.length (token_chunks env m qs n) = token_count qs.
Proof.
  induction qs as [|line qs IH]; intros n; simpl; [reflexivity|].
  destruct (String.eqb (token_text line) ""); simpl; now rewrite IH.
Qed.

Lemma token_chunks_success (env : environment) (m : string) (qs : list stream_line) :
  forall n,
    Forall (fun c => lookup "success" c = Some (VBool true)
                     /\ lookup "model" c = Some (VStr m))
      (token_chunks env m qs n).
Proof.
  induction qs as [|line qs IH]; intros n; simpl; [constructor|].
  destruct (String.eqb (token_text line) ""); [apply IH|].
  constructor; [now split | apply IH].
Qed.

(** X6. When the server answers the streaming call with status 200 and
    the stream ends, without an exception, after lines that are all quiet
    (empty, not JSON, or a string token with a falsy [done]), the generator
    yields one chunk for each token that is not empty, each with [success]
    true and the resolved model, and none of them is marked [done]: no
    closing chunk and no fallback chunk is produced. *)
Theorem open_ended_stream_has_no_done_chunk (env : environment) (self : OllamaService)
    (p : string) (model : option string) (w : world) (resp : response) :
  let m := resolved_model self model (listed env (S (gets w))) in
  probe_ok env (gets w) = true ->
  post_reply env (generate_payload m p true) = Ok resp ->
  status_code resp = 200 ->
  Forall quiet_line (lines resp) ->
  lines_end resp = None ->
  exists chunks w',
    run_gen (generate_response_stream env self p model) w = (chunks, None, w')
    /\ List.length chunks = token_count (lines resp)
    /\ Forall (fun c => chunk_done c = false) chunks
    /\ Forall (fun c => lookup "success" c = Some (VBool true)
                        /\ lookup "model" c = Some (VStr m)) chunks
    /\ join (map chunk_token chunks) = tokens_text (lines resp).
Proof.
  intros m Hprobe Hpost Hst Hqs Hend.
  rewrite (stream_quiet_run env self p model w resp Hprobe Hpost Hst Hqs), Hend.
  eexists; eexists. split; [reflexivity|].
  split; [apply token_chunks_length|].
  split; [now apply token_chunks_not_done|].
  split; [apply token_chunks_success | apply token_chunks_join].
Qed.

(** One token, "Hi", and the end of the stream: one chunk, not marked
    [done]. *)
Lemma open_ended_stream_has_no_done_chunk_witness :
  exists chunks w',
    run_gen (generate_response_stream truncated_stream local_service "Hi" None) fresh_world
    = (chunks, None, w')
    /\ List.length chunks = 1%nat
    /\ Forall (fun c => chunk_done c = false) chunks
    /\ Forall (fun c => lookup "success" c = Some (VBool true)
                        /\ lookup "model" c = Some (VStr "llama2")) chunks
    /\ join (map chunk_token chunks) = "Hi".
Proof.
  refine (open_ended_stream_has_no_done_chunk truncated_stream local_service "Hi" None
            fresh_world _ eq_refl eq_refl eq_refl _ eq_refl).
  repeat (apply Forall_cons || apply Forall_nil); simpl.
  split; [reflexivity | eexists; reflexivity].
Defined.

Lemma stream_lines_abort (env : environment) (m : string) (t0 : Z) (full : string)
    (line : stream_line) (rest : list stream_line) (ending : option exn)
    (reason : string) (w : world) :
  aborting_line line reason ->
  run_gen (stream_lines env m t0 full (line :: rest) ending) w
  = ([], Some (PyError reason), w).
Proof.
  intros H. destruct H as [msg | v Hv | d token Htok Htruthy Hstr].
  - reflexivity.
  - unfold run_gen. cbn [stream_lines]. unfold bind, lift.
    destruct v; try reflexivity. exfalso. now apply (Hv d).
  - unfold run_gen. cbn [stream_lines]. unfold bind, lift. cbn [py_get].
    rewrite Htok, Htruthy.
    destruct token; try reflexivity. exfalso. now apply (Hstr s).
Qed.

(** X7. When the server answers the streaming call with status 200 and,
    after quiet lines, sends a line at which the loop raises (bytes that
    are not UTF-8, a JSON value that is not an object, or an object whose
    token is truthy and not a string), the generator yields the token
    chunks of the quiet lines and then the fallback chunk, with [done]
    true, [success] false and the description of the exception as the
    reason; the lines that follow are not read. *)
Theorem bad_line_ends_stream_with_fallback (env : environment) (self : OllamaService)
    (p : string) (model : option string) (w : world) (resp : response)
    (qs : list stream_line) (line : stream_line) (rest : list stream_line)
    (reason : string) :
  probe_ok env (gets w) = true ->
  post_reply env
    (generate_payload (resolved_model self model (listed env (S (gets w)))) p true)
  = Ok resp ->
  status_code resp = 200 ->
  lines resp = qs ++ line :: rest ->
  Forall quiet_line qs ->
  aborting_line line reason ->
  exists tokens c w',
    run_gen (generate_response_stream env self p model) w = (tokens ++ [c], None, w')
    /\ List.length tokens = token_count qs
    /\ Forall (fun c => chunk_done c = false) tokens
    /\ join (map chunk_token tokens) = tokens_text qs
    /\ chunk_done c = true
    /\ lookup "success" c = Some (VBool false)
    /\ lookup "error_reason" c = Some (VStr reason)
    /\ chunk_token c = select_fallback_text p.
Proof.
  intros Hprobe Hpost Hst Hlines Hqs Hbad.
  rewrite generate_response_stream_run, Hprobe.
  rewrite stream_attempt_run, Hpost, Hst. cbn [Z.eqb Pos.eqb].
  rewrite Hlines, (stream_lines_quiet env _ _ qs _ _ Hqs).
  rewrite (stream_lines_abort env _ _ _ line rest _ reason _ Hbad).
  cbn [with_fallback failure_reason str_exn]. rewrite app_nil_r.
  eexists; eexists; eexists. split; [reflexivity|].
  split; [apply token_chunks_length|].
  split; [now apply token_chunks_not_done|].
  split; [apply token_chunks_join|].
  now repeat split.
Qed.

(** The token "Hi", then a line that holds [[]]: the token chunk, then the
    fallback chunk with the reason
    ['list' object has no attribute 'get']. *)
Lemma bad_line_ends_stream_with_fallback_witness :
  exists tokens c w',
    run_gen (generate_response_stream broken_stream local_service "Hi" None) fresh_world
    = (tokens ++ [c], None, w')
    /\ List.length tokens = 1%nat
    /\ Forall (fun c => chunk_done c = false) tokens
    /\ join (map chunk_token tokens) = "Hi"
    /\ chunk_done c = true
    /\ lookup "success" c = Some (VBool false)
    /\ lookup "error_reason" c = Some (VStr "'list' object has no attribute 'get'")
    /\ chunk_token c = select_fallback_text "Hi".
Proof.
  refine (bad_line_ends_stream_with_fallback broken_stream local_service "Hi" None
            fresh_world _
            [Parsed (VDict [("response", VStr "Hi"); ("done", VBool false)])]
            (Parsed (VList [])) [] _
            eq_refl eq_refl eq_refl eq_refl _ (AbortNotObject (VList []) _)).
  - repeat (apply Forall_cons || apply Forall_nil); simpl.
    split; [reflexivity | eexists; reflexivity].
  - intros d H. discriminate H.
Defined.

(* ================================================================== *)
(** * Further properties of the interaction log *)
(* ================================================================== *)

Section LogEffects.

Variable env : environment.
Variable json_loads : string -> option pyval.
Variable json_dumps : bool -> pyval -> string.

(** The three outcomes of [log_interaction]. *)
Lemma log_interaction_outcome (p : string) (d : dict) (w : world) :
  log_interaction env json_dumps p d w
  = match py_isoformat (dict_get d "timestamp" (VDatetime (now_at env (ticks w)))) with
    | Raise e => (Raise e, tick w)
    | Ok ts =>
        match write_error env (S (ticks w)) with
        | Some _ => (Ok tt, tick w)
        | None =>
            (Ok tt,
             {| ticks := S (ticks w); sent := sent w;
                log_file :=
                  Some (log_lines w ++ [entry_line json_dumps (log_entry_of ts p d)]) |})
        end
    end.
Proof.
  unfold log_interaction, bind, datetime_now, lift, try_except, append_text, ret.
  cbn [ticks sent log_file].
  destruct (py_isoformat _); [|reflexivity].
  destruct (write_error env (S (ticks w))); reflexivity.
Qed.



Lemma get_recent_logs_total (limit : Z) (w : world) :
  get_recent_logs env json_loads limit w
  = (Ok match log_file w with
        | None => []
        | Some ls =>
            match read_error env (ticks w) with
            | Some _ => []
            | None => parsed json_loads (recent_lines limit ls)
            end
        end, w).
Proof.
  destruct (log_file w) as [ls|] eqn:Hfile;
    [|now apply get_recent_logs_absent].
  destruct (read_error env (ticks w)) as [e|] eqn:Hread;
    [|now apply get_recent_logs_run].
  unfold get_recent_logs, bind, log_exists, try_except, read_lines, ret.
  rewrite Hfile; simpl. now rewrite Hread.
Qed.

Lemma parsed_In (ls : list string) (v : pyval) :
  In v (parsed json_loads ls) ->
  exists line, In line ls /\ json_loads (strip line) = Some v.
Proof.
  induction ls as [|line ls IH]; simpl; [contradiction|].
  destruct (json_loads (strip line)) as [v'|] eqn:Hline.
  - intros [->|Hin].
    + exists line. now split; [left|].
    + destruct (IH Hin) as (l & Hl & Hv). exists l. now split; [right|].
  - intros Hin. destruct (IH Hin) as (l & Hl & Hv). exists l. now split; [right|].
Qed.

Lemma In_skipn {A} (n : nat) (l : list A) (x : A) : In x (skipn n l) -> In x l.
Proof.
  intros H. rewrite <- (firstn_skipn n l). apply in_or_app. now right.
Qed.

Lemma recent_lines_In (limit : Z) (ls : list string) (line : string) :
  In line (recent_lines limit ls) -> In line ls.
Proof.
  unfold recent_lines, slice_from.
  destruct (Z.of_nat (List.length ls) >? limit); [apply In_skipn | trivial].
Qed.

Lemma recent_lines_length (limit : Z) (ls : list string) :
  (List.length (recent_lines limit ls) <= List.length ls)%nat.
Proof.
  unfold recent_lines, slice_from.
  destruct (Z.of_nat (List.length ls) >? limit); [rewrite length_skipn|]; lia.
Qed.




End LogEffects.



(** X9. [log_interaction], given a result whose timestamp is present and
    is not a [datetime] (the ISO string of a streamed chunk, say), raises
    [AttributeError] before it opens the file: the lookup of [isoformat]
    lies outside the [try] statement.  Nothing is written. *)
Theorem log_interaction_needs_a_datetime (env : environment)
    (json_dumps : bool -> pyval -> string) (p : string) (d : dict) (w : world)
    (v : pyval) :
  lookup "timestamp" d = Some v ->
  (forall t, v <> VDatetime t) ->
  exists w',
    log_interaction env json_dumps p d w = (Raise (no_attribute v "isoformat"), w')
    /\ log_file w' = log_file w.
Proof.
  intros Hl Hv. rewrite log_interaction_outcome. unfold dict_get. rewrite Hl.
  exists (tick w). split; [|reflexivity].
  destruct v; try reflexivity. exfalso. now apply (Hv t).
Qed.

Lemma log_interaction_needs_a_datetime_witness :
  exists w',
    log_interaction idle ref_dumps "Hello"
      [ ("response", VStr "Hi"); ("timestamp", VStr "2024-01-15T10:30:00") ] fresh_world
    = (Raise (PyError "'str' object has no attribute 'isoformat'"), w')
    /\ log_file w' = None.
Proof.
  refine (log_interaction_needs_a_datetime idle ref_dumps "Hello"
            [ ("response", VStr "Hi"); ("timestamp", VStr "2024-01-15T10:30:00") ]
            fresh_world (VStr "2024-01-15T10:30:00") eq_refl _).
  intros t H. discriminate H.
Defined.



(** X11. [get_recent_logs] returns without raising and changes nothing,
    whatever the limit and the state of the disk.  It returns the empty
    list when the file does not exist or cannot be read; it never returns
    more entries than the file has lines; and each entry it returns is
    what [json.loads] makes of some line of the file. *)
Theorem recent_logs_never_raise (env : environment)
    (json_loads : string -> option pyval) (limit : Z) (w : world) :
  exists logs,
    get_recent_logs env json_loads limit w = (Ok logs, w)
    /\ (log_file w = None \/ read_error env (ticks w) <> None -> logs = [])
    /\ (List.length logs <= List.length (log_lines w))%nat
    /\ (forall v, In v logs ->
          exists line, In line (log_lines w) /\ json_loads (strip line) = Some v).
Proof.
  rewrite get_recent_logs_total. eexists. split; [reflexivity|].
  unfold log_lines. destruct (log_file w) as [ls|].
  - destruct (read_error env (ticks w)) as [e|].
    + split; [reflexivity|]. split; [simpl; lia | contradiction].
    + split; [intros [H|H]; congruence|]. split.
      * pose proof (parsed_length json_loads (recent_lines limit ls)).
        pose proof (recent_lines_length limit ls). lia.
      * intros v Hin. destruct (parsed_In json_loads _ v Hin) as (line & Hl & Hv).
        exists line. split; [now apply (recent_lines_In limit) | exact Hv].
  - split; [reflexivity|]. split; [simpl; lia | contradiction].
Qed.





(** ** Statistics, whatever the file holds *)

Section StatsEffects.

Variable env : environment.
Variable json_loads : string -> option pyval.

Lemma num_iadd_numeric (a v r : pyval) :
  num_iadd a v = Ok r ->
  match r with VInt _ | VFloat _ => True | _ => False end.
Proof.
  destruct a, v; simpl; try discriminate;
    try (intros H; inversion H; exact I);
    destruct (float_of_int _); simpl; try discriminate;
    intros H; inversion H; exact I.
Qed.

Lemma count_line_step (acc acc' : counters) (line : string) :
  count_line json_loads acc line = Ok acc' ->
  (balanced acc -> balanced acc')
  /\ (numeric_sum acc -> numeric_sum acc')
  /\ total acc <= total acc' <= total acc + 1.
Proof.
  unfold count_line. destruct (json_loads (strip line)) as [entry|].
  - destruct (py_get entry "success" (VBool true)) as [success|e]; [|discriminate].
    destruct (py_get entry "duration_ms" (VInt 0)) as [duration|e]; [|discriminate].
    cbn [rbind].
    destruct (num_iadd (total_duration acc) duration) as [sum|e] eqn:Hsum; [|discriminate].
    cbn [rbind]. intros H. inversion H; subst; clear H.
    unfold balanced, numeric_sum. cbn [total successful failed total_duration].
    split; [|split].
    + intros (Hb & Hs & Hf). destruct (truthy success); lia.
    + intros _. exact (num_iadd_numeric _ _ _ Hsum).
    + lia.
  - intros H. inversion H; subst. split; [trivial|split; [trivial|lia]].
Qed.

Lemma count_lines_steps (ls : list string) :
  forall acc acc',
    count_lines json_loads acc ls = Ok acc' ->
    (balanced acc -> balanced acc')
    /\ total acc <= total acc' <= total acc + Z.of_nat (List.length ls).
Proof.
  induction ls as [|line ls IH]; intros acc acc' H.
  - inversion H; subst. split; [trivial|simpl; lia].
  - cbn [count_lines] in H.
    destruct (count_line json_loads acc line) as [acc1|e] eqn:Hline; [|discriminate].
    cbn [rbind] in H.
    destruct (count_line_step _ _ _ Hline) as (Hb1 & _ & Ht1).
    destruct (IH _ _ H) as (Hb2 & Ht2).
    split; [auto|]. cbn [List.length]. lia.
Qed.

Lemma count_line_uncountable (acc : counters) (line : string) (v : pyval) :
  json_loads (strip line) = Some v ->
  uncountable v = true ->
  numeric_sum acc ->
  exists e, count_line json_loads acc line = Raise e.
Proof.
  intros Hline Hv Hacc. unfold count_line. rewrite Hline.
  destruct v; try (eexists; reflexivity).
  cbn [py_get rbind]. unfold uncountable in Hv. unfold numeric_sum in Hacc.
  destruct (total_duration acc); try contradiction;
    destruct (dict_get d "duration_ms" (VInt 0)); try discriminate;
    eexists; reflexivity.
Qed.

Lemma count_lines_uncountable (ls : list string) (v : pyval) :
  In v (parsed json_loads ls) ->
  uncountable v = true ->
  forall acc, numeric_sum acc -> exists e, count_lines json_loads acc ls = Raise e.
Proof.
  intros Hin Hv. induction ls as [|line ls IH]; intros acc Hacc; [contradiction|].
  cbn [count_lines]. cbn [parsed] in Hin.
  destruct (count_line json_loads acc line) as [acc1|e] eqn:Hstep;
    [|eexists; reflexivity].
  cbn [rbind]. destruct (count_line_step _ _ _ Hstep) as (_ & Hnum & _).
  destruct (json_loads (strip line)) as [v'|] eqn:Hline.
  - destruct Hin as [->|Hin].
    + destruct (count_line_uncountable acc line v Hline Hv Hacc) as [e He]. congruence.
    + apply IH; auto.
  - apply IH; auto.
Qed.

Lemma get_log_stats_total (w : world) :
  get_log_stats env json_loads w
  = (Ok match log_file w with
        | None => zero_stats
        | Some ls =>
            match read_error env (ticks w) with
            | Some _ => zero_stats
            | None =>
                match count_lines json_loads
                        {| total := 0; successful := 0; failed := 0;
                           total_duration := VInt 0 |} ls with
                | Raise _ => zero_stats
                | Ok acc =>
                    if total acc >? 0
                    then match average (total_duration acc) (total acc) with
                         | Ok avg =>
                             stats_dict (total acc) (successful acc) (failed acc)
                               (py_round2 avg)
                         | Raise _ => zero_stats
                         end
                    else stats_dict (total acc) (successful acc) (failed acc) (VInt 0)
                end
            end
        end, w).
Proof.
  destruct (log_file w) as [ls|] eqn:Hfile; [|now apply get_log_stats_absent].
  unfold get_log_stats, bind, log_exists, try_except, read_lines, lift, ret.
  rewrite Hfile; simpl.
  destruct (read_error env (ticks w)) eqn:Hread; [reflexivity|]. rewrite Hfile.
  destruct (count_lines json_loads _ ls) as [acc|e]; [|reflexivity].
  destruct (total acc >? 0); [|reflexivity].
  destruct (average (total_duration acc) (total acc)); reflexivity.
Qed.

End StatsEffects.

(** X14. [get_log_stats] returns without raising and changes nothing,
    whatever the file holds and whatever the disk does, and its counts add
    up: successful + failed = total, none of them negative, the total not
    above the number of lines of the file.  When the total is 0 the
    average is the integer 0; the total is 0 when the file does not exist
    or cannot be read. *)
Theorem stats_add_up (env : environment) (json_loads : string -> option pyval)
    (w : world) :
  exists t s f avg,
    get_log_stats env json_loads w = (Ok (stats_dict t s f avg), w)
    /\ s + f = t /\ 0 <= s /\ 0 <= f
    /\ t <= Z.of_nat (List.length (log_lines w))
    /\ (t = 0 -> avg = VInt 0)
    /\ (log_file w = None \/ read_error env (ticks w) <> None -> t = 0).
Proof.
  rewrite get_log_stats_total. unfold log_lines.
  assert (Hzero : forall n : Z, 0 <= n ->
             exists t s f avg,
               (Ok zero_stats, w) = (Ok (stats_dict t s f avg), w)
               /\ s + f = t /\ 0 <= s /\ 0 <= f /\ t <= n
               /\ (t = 0 -> avg = VInt 0)
               /\ (log_file w = None \/ read_error env (ticks w) <> None -> t = 0)).
  { intros n Hn. exists 0, 0, 0, (VInt 0). repeat split; trivial; lia. }
  destruct (log_file w) as [ls|] eqn:Hfile; [|apply Hzero; simpl; lia].
  destruct (read_error env (ticks w)) as [e|] eqn:Hread; [apply Hzero; lia|].
  destruct (count_lines json_loads _ ls) as [acc|e] eqn:Hcount; [|apply Hzero; lia].
  destruct (count_lines_steps json_loads ls _ _ Hcount) as (Hb & Ht).
  cbn [total] in Ht.
  destruct Hb as (Hsum & Hs & Hf); [unfold balanced; simpl; lia|].
  destruct (total acc >? 0) eqn:Hpos.
  - apply Z.gtb_lt in Hpos.
    destruct (average (total_duration acc) (total acc)) as [avg|e]; [|apply Hzero; lia].
    exists (total acc), (successful acc), (failed acc), (py_round2 avg).
    split; [reflexivity|]. repeat split; try lia.
    intros [H|H]; congruence.
  - assert (Hle : total acc <= 0).
    { destruct (Z.gtb_spec (total acc) 0); [discriminate | lia]. }
    exists (total acc), (successful acc), (failed acc), (VInt 0).
    split; [reflexivity|]. repeat split; try lia.
Qed.

(** X15. One line that parses to something [get_log_stats] cannot count
    (a JSON value that is not an object, or an object whose [duration_ms]
    is not a number) makes it return all zeros, whatever entries the other
    lines hold: the exception leaves the loop and reaches the outer
    handler. *)
Theorem uncountable_entry_zeroes_stats (env : environment)
    (json_loads : string -> option pyval) (w : world) (ls : list string) (v : pyval) :
  log_file w = Some ls ->
  In v (parsed json_loads ls) ->
  uncountable v = true ->
  get_log_stats env json_loads w = (Ok zero_stats, w).
Proof.
  intros Hfile Hin Hv. rewrite get_log_stats_total, Hfile.
  destruct (read_error env (ticks w)); [reflexivity|].
  destruct (count_lines_uncountable json_loads ls v Hin Hv
              {| total := 0; successful := 0; failed := 0; total_duration := VInt 0 |} I)
    as [e ->].
  reflexivity.
Qed.

(** Three entries and a line that holds [null]: all zeros. *)
Lemma uncountable_entry_zeroes_stats_witness :
  get_log_stats idle ref_loads spoiled_log = (Ok zero_stats, spoiled_log).
Proof.
  refine (uncountable_entry_zeroes_stats idle ref_loads spoiled_log
            (three_lines ++ [("null" ++ newline)%string]) VNone eq_refl _ eq_refl).
  vm_compute. do 3 right. left. reflexivity.
Defined.

(* ================================================================== *)
(** * Further properties of the handlers *)
(* ================================================================== *)


(** X17. [GET /logs/recent] and [GET /logs/stats] never answer with an
    error and change nothing: the logger absorbs every failure of the
    disk, so the handlers' own [except] clauses are not reached.  The
    [count] of [/logs/recent] is the number of entries in [logs], which is
    at most the limit when the limit is positive. *)
Theorem log_endpoints_never_fail (env : environment)
    (json_loads : string -> option pyval) (limit : Z) (w : world) :
  (exists logs,
      logs_recent env json_loads limit w
      = (Ok (Complete [ ("logs", VList logs);
                        ("count", VInt (Z.of_nat (List.length logs))) ]), w)
      /\ get_recent_logs env json_loads limit w = (Ok logs, w)
      /\ (0 < limit -> Z.of_nat (List.length logs) <= limit))
  /\ (exists stats,
         logs_stats env json_loads w = (Ok (Complete stats), w)
         /\ get_log_stats env json_loads w = (Ok stats, w)).
Proof.
  split.
  - unfold logs_recent, try_except, bind. rewrite get_recent_logs_total.
    eexists. split; [reflexivity|]. split; [reflexivity|].
    intros Hpos. destruct (log_file w) as [ls|]; [|simpl; lia].
    destruct (read_error env (ticks w)); [simpl; lia|].
    rewrite recent_lines_positive by exact Hpos.
    pose proof (parsed_length json_loads
                  (lastn (Z.to_nat (Z.min limit (Z.of_nat (List.length ls)))) ls)).
    pose proof (lastn_length (Z.to_nat (Z.min limit (Z.of_nat (List.length ls)))) ls).
    lia.
  - unfold logs_stats, try_except, bind. rewrite get_log_stats_total.
    eexists. split; reflexivity.
Qed.







(** ** The streaming handler *)

Section RelayFacts.

Variable env : environment.
Variable json_dumps : bool -> pyval -> string.

(** The loop body of [generate_stream], in two halves. *)
Lemma relay_unfold (request : GenerateRequest) (t0 : Z) (chunk : dict)
    (resume : world -> result (gen dict) * world) (full : string) :
  relay env json_dumps request t0 (Yield chunk resume) full
  = let h := stream_error env json_dumps (dict_get chunk "model" (VStr "")) in
    let rest :=
      close_or_continue env json_dumps request t0 chunk
        (next_chunk env json_dumps request t0 chunk resume) in
    if truthy (dict_get chunk "token" VNone)
    then yield (sse json_dumps chunk)
           (attempt h (lift (dict_item chunk "token")) (fun token =>
            attempt h (lift (str_iadd full token)) (fun full' => rest full')))
    else rest full.
Proof. reflexivity. Qed.

Lemma run_gen_now {A} (k : Z -> generator A) (w : world) :
  run_gen (bind (datetime_now env) k) w = run_gen (k (now_at env (ticks w))) (tick w).
Proof. reflexivity. Qed.

Lemma stream_log_data_timestamp (chunk : dict) (full : string) (t ms : Z) :
  lookup "timestamp" (stream_log_data chunk full t ms) = Some (VDatetime t).
Proof.
  unfold stream_log_data. destruct (negb (truthy (dict_get chunk "success" VNone)));
    reflexivity.
Qed.

Lemma last_sentinel (a : string) (l : list string) :
  last l "" = sse_done -> last (a :: l) "" = sse_done.
Proof. destruct l as [|b l]; [intros H; discriminate H | trivial]. Qed.

Lemma ends_stream_yield (C : Prop) (w w0 : world) (a : string) (rest : generator string) :
  ends_stream C w (run_gen rest w0) -> ends_stream C w (run_gen (yield a rest) w0).
Proof.
  rewrite run_gen_yield. destruct (run_gen rest w0) as [[l e] w'].
  unfold ends_stream. intros (He & Hl & Hc).
  split; [exact He|]. split; [now apply last_sentinel | exact Hc].
Qed.

Lemma ends_stream_sentinel (C : Prop) (w w0 : world) :
  (C -> sent w0 = sent w
        /\ exists extra,
             log_lines w0 = log_lines w ++ extra /\ (List.length extra <= 1)%nat) ->
  ends_stream C w (run_gen (yield sse_done stop) w0).
Proof.
  intros H. unfold ends_stream; simpl.
  split; [reflexivity|]. split; [reflexivity | exact H].
Qed.

Lemma same_outside_unchanged (w w0 : world) :
  same_outside w w0 ->
  sent w0 = sent w
  /\ exists extra, log_lines w0 = log_lines w ++ extra /\ (List.length extra <= 1)%nat.
Proof.
  intros [Hs Hl]. split; [exact Hs|]. exists []. unfold log_lines.
  rewrite Hl, app_nil_r. split; [reflexivity | simpl; lia].
Qed.

Lemma ends_stream_error (C : Prop) (w w0 : world) (model_name : pyval) (e : exn) :
  (C -> same_outside w w0) ->
  ends_stream C w (run_gen (stream_error env json_dumps model_name e) w0).
Proof.
  intros H.
  assert (Hrun : exists event,
             run_gen (stream_error env json_dumps model_name e) w0
             = ([event; sse_done], None, tick w0)) by (eexists; reflexivity).
  destruct Hrun as [event ->]. unfold ends_stream.
  split; [reflexivity|]. split; [reflexivity|].
  intros HC. apply (same_outside_unchanged w (tick w0)).
  eapply same_outside_trans; [exact (H HC) | apply same_outside_tick].
Qed.

Lemma ends_stream_attempt {A} (C : Prop) (w w0 : world) (h : exn -> generator string)
    (c : M A) (k : A -> generator string) :
  (forall a w1, c w0 = (Ok a, w1) -> ends_stream C w (run_gen (k a) w1)) ->
  (forall e w1, c w0 = (Raise e, w1) -> ends_stream C w (run_gen (h e) w1)) ->
  ends_stream C w (run_gen (attempt h c k) w0).
Proof.
  intros Hok Hraise. unfold run_gen, attempt.
  destruct (c w0) as [[a|e] w1] eqn:Hc;
    [exact (Hok a w1 eq_refl) | exact (Hraise e w1 eq_refl)].
Qed.

Lemma close_stream_ends (C : Prop) (w w0 : world) (request : GenerateRequest) (t0 : Z)
    (chunk : dict) (full : string) :
  (C -> same_outside w w0) ->
  ends_stream C w (run_gen (close_stream env json_dumps request t0 chunk full) w0).
Proof.
  intros H. unfold close_stream. apply ends_stream_yield. rewrite run_gen_now.
  unfold log_and_finish. apply ends_stream_attempt.
  - intros ms w1 Hc. unfold lift in Hc. inversion Hc; subst; clear Hc.
    apply ends_stream_attempt.
    + intros [] w2 Hlog. rewrite log_interaction_outcome in Hlog.
      unfold dict_get in Hlog. rewrite stream_log_data_timestamp in Hlog.
      cbn [py_isoformat] in Hlog.
      apply ends_stream_sentinel. intros HC. destruct (H HC) as [Hs Hl].
      destruct (write_error env (S (ticks (tick w0)))); inversion Hlog; subst; clear Hlog.
      * apply same_outside_unchanged. now split.
      * cbn [sent]. split; [exact Hs|]. eexists. split.
        { unfold log_lines at 1. cbn [log_file]. unfold log_lines. cbn [tick log_file].
          now rewrite Hl. }
        simpl; lia.
    + intros e w2 Hlog. rewrite log_interaction_outcome in Hlog.
      unfold dict_get in Hlog. rewrite stream_log_data_timestamp in Hlog.
      cbn [py_isoformat] in Hlog.
      destruct (write_error env (S (ticks (tick w0)))); discriminate Hlog.
  - intros e w1 Hc. unfold lift in Hc. inversion Hc; subst; clear Hc.
    apply ends_stream_error. intros HC.
    eapply same_outside_trans; [exact (H HC) | apply same_outside_tick].
Qed.

(** However the chunks come, the loop of [generate_stream] ends without an
    exception and with the end sentinel. *)
Lemma relay_ends (request : GenerateRequest) (t0 : Z) (g : gen dict) :
  forall (C : Prop) (full : string) (w w0 : world),
    (C -> calm g /\ same_outside w w0) ->
    ends_stream C w (run_gen (relay env json_dumps request t0 g full) w0).
Proof.
  induction g as [|chunk resume IH] using gen_induction; intros C full w w0 H.
  - apply ends_stream_sentinel. intros HC. apply same_outside_unchanged. now apply H.
  - rewrite relay_unfold. cbv zeta.
    assert (Hnext : forall full1 w1,
               (C -> same_outside w w1) ->
               ends_stream C w
                 (run_gen (next_chunk env json_dumps request t0 chunk resume full1) w1)).
    { intros full1 w1 H1. unfold run_gen, next_chunk.
      destruct (resume w1) as [[g'|e] w2] eqn:Hres.
      - apply (IH w1 g' w2 Hres C full1 w w2). intros HC.
        destruct (H HC) as [Hcalm _]. cbn [calm] in Hcalm. specialize (Hcalm w1).
        rewrite Hres in Hcalm. destruct Hcalm as [Hsame Hg'].
        split; [exact Hg'|]. eapply same_outside_trans; [exact (H1 HC) | exact Hsame].
      - apply (ends_stream_error C w w2). intros HC.
        destruct (H HC) as [Hcalm _]. cbn [calm] in Hcalm. specialize (Hcalm w1).
        rewrite Hres in Hcalm.
        eapply same_outside_trans; [exact (H1 HC) | exact Hcalm]. }
    assert (Hrest : forall full1 w1,
               (C -> same_outside w w1) ->
               ends_stream C w
                 (run_gen (close_or_continue env json_dumps request t0 chunk
                             (next_chunk env json_dumps request t0 chunk resume) full1)
                    w1)).
    { intros full1 w1 H1. unfold close_or_continue.
      destruct (truthy (dict_get chunk "done" VNone));
        [now apply close_stream_ends | now apply Hnext]. }
    assert (H0 : C -> same_outside w w0) by (intros HC; now apply H).
    destruct (truthy (dict_get chunk "token" VNone)); [|now apply Hrest].
    apply ends_stream_yield. apply ends_stream_attempt.
    + intros token w1 Hc. unfold lift in Hc. inversion Hc; subst; clear Hc.
      apply ends_stream_attempt.
      * intros full1 w2 Hc. unfold lift in Hc. inversion Hc; subst; clear Hc.
        now apply Hrest.
      * intros e w2 Hc. unfold lift in Hc. inversion Hc; subst; clear Hc.
        now apply ends_stream_error.
    + intros e w1 Hc. unfold lift in Hc. inversion Hc; subst; clear Hc.
      now apply ends_stream_error.
Qed.

(** What the caller of [POST /generate] receives in streaming mode. *)
Lemma serve_stream_run (self : OllamaService) (request : GenerateRequest) (w : world) :
  stream request = Some true ->
  exists events w',
    serve_generate env json_dumps self request w = (ServedStream events None, w')
    /\ last events "" = sse_done
    /\ sent w'
       = sent w
         ++ (if probe_ok env (gets w)
             then [ GET (tags_url self); GET (tags_url self);
                    POST (generate_url self)
                      (generate_payload
                         (resolved_model self (model request) (listed env (S (gets w))))
                         (prompt request) true) ]
             else [ GET (tags_url self) ])
    /\ exists extra,
         log_lines w' = log_lines w ++ extra /\ (List.length extra <= 1)%nat.
Proof.
  intros Hmode. unfold serve_generate, generate_endpoint, try_except.
  rewrite Hmode. cbn [truthy ret].
  unfold generate_stream. rewrite run_gen_now.
  destruct (generate_response_stream_first env self (prompt request) (model request)
              (tick w)) as (g & w1 & Hfirst & Hg & Hlog & Hsent).
  rewrite gets_tick in Hsent.
  pose proof (relay_ends request (now_at env (ticks w)) g True "" w1 w1
                (fun _ => conj Hg (same_outside_refl w1))) as Hends.
  unfold run_gen at 1. unfold attempt. rewrite Hfirst.
  change (match relay env json_dumps request (now_at env (ticks w)) g "" w1 with
          | (Ok g0, w') => collect g0 w'
          | (Raise e, w') => ([], Some e, w')
          end)
    with (run_gen (relay env json_dumps request (now_at env (ticks w)) g "") w1).
  destruct (run_gen (relay env json_dumps request (now_at env (ticks w)) g "") w1)
    as [[events failure] w'].
  destruct Hends as (-> & Hlast & Hside). destruct (Hside I) as (Hs & extra & Hl & Hn).
  exists events, w'. split; [reflexivity|]. split; [exact Hlast|].
  split; [now rewrite Hs|]. exists extra. split; [|exact Hn].
  rewrite Hl. unfold log_lines. now rewrite Hlog.
Qed.

End RelayFacts.



(** X20. In streaming mode [POST /generate] appends at most one entry to
    the log, at its end, and leaves the lines before as they were; and it
    sends what [generate_response_stream] sends: one [GET /api/tags] when
    the server is unavailable, else two and then one [POST /api/generate]
    with [stream] true. *)
Theorem streamed_reply_logs_at_most_once (env : environment)
    (json_dumps : bool -> pyval -> string) (self : OllamaService)
    (request : GenerateRequest) (w : world) :
  stream request = Some true ->
  exists events failure w' extra,
    serve_generate env json_dumps self request w = (ServedStream events failure, w')
    /\ log_lines w' = log_lines w ++ extra
    /\ (List.length extra <= 1)%nat
    /\ sent w'
       = sent w
         ++ (if probe_ok env (gets w)
             then [ GET (tags_url self); GET (tags_url self);
                    POST (generate_url self)
                      [ ("model",
                         VStr (resolved_model self (model request)
                                 (listed env (S (gets w)))));
                        ("prompt", VStr (prompt request));
                        ("stream", VBool true) ] ]
             else [ GET (tags_url self) ]).
Proof.
  intros Hmode.
  destruct (serve_stream_run env json_dumps self request w Hmode)
    as (events & w' & Hrun & _ & Hsent & extra & Hl & Hn).
  exists events, None, w', extra. now repeat split.
Qed.

Lemma streamed_reply_logs_at_most_once_witness :
  exists events failure w' extra,
    serve_generate hello_stream ref_dumps local_service streaming_request logged_world
    = (ServedStream events failure, w')
    /\ log_lines w' = three_lines ++ extra
    /\ (List.length extra <= 1)%nat
    /\ sent w'
       = [ GET "http://localhost:11434/api/tags";
           GET "http://localhost:11434/api/tags";
           POST "http://localhost:11434/api/generate"
             [ ("model", VStr "llama2"); ("prompt", VStr "Hi"); ("stream", VBool true) ] ].
Proof.
  exact (streamed_reply_logs_at_most_once hello_stream ref_dumps local_service
           streaming_request logged_world eq_refl).
Defined.

(** ** What the streaming handler relays and logs *)

Lemma select_fallback_text_canned (p : string) :
  In (select_fallback_text p) (generic_fallback_text :: map snd fallback_responses).
Proof.
  unfold select_fallback_text.
  generalize generic_fallback_text as generic, fallback_responses as items.
  intros generic items. induction items as [|[keyword response] items IH]; simpl.
  - now left.
  - destruct (contains keyword (lower p)); [right; now left|].
    destruct IH as [IH|IH]; [now left | right; now right].
Qed.

Lemma select_fallback_text_truthy (p : string) :
  truthy (VStr (select_fallback_text p)) = true.
Proof.
  pose proof (select_fallback_text_canned p) as H. simpl in H.
  destruct H as [H|[H|[H|[H|[H|[H|[]]]]]]]; rewrite <- H; reflexivity.
Qed.

Lemma stream_refusal_tick (env : environment) (self : OllamaService) (p : string)
    (model : option string) (w : world) (reason : string) :
  stream_refusal env self p model w reason ->
  stream_refusal env self p model (tick w) reason.
Proof.
  intros H. destruct H as [Hprobe | e Hprobe Hpost | resp Hprobe Hpost Hst].
  - now apply StreamUnavailable.
  - now apply StreamPostRaised.
  - now apply (StreamBadStatus env self p model (tick w) resp).
Qed.

(** The first chunk of a refused stream. *)
Lemma stream_refusal_first (env : environment) (self : OllamaService) (p : string)
    (model : option string) (w : world) (reason : string) :
  stream_refusal env self p model w reason ->
  exists m t resume w1,
    generate_response_stream env self p model w
    = (Ok (Yield (fallback_chunk p m reason t) resume), w1)
    /\ log_file w1 = log_file w.
Proof.
  intros H. rewrite generate_response_stream_unfold.
  destruct H as [Hprobe | e Hprobe Hpost | resp Hprobe Hpost Hst]; rewrite Hprobe.
  - do 4 eexists. split; reflexivity.
  - unfold stream_attempt, try_gen, bind, datetime_now, requests_post. cbn [fst snd].
    rewrite Hpost. destruct e; do 4 eexists; split; reflexivity.
  - unfold stream_attempt, try_gen, bind, datetime_now, requests_post. cbn [fst snd].
    rewrite Hpost. apply Z.eqb_neq in Hst. rewrite Hst.
    do 4 eexists. split; reflexivity.
Qed.

Lemma run_gen_attempt_ok {A B} (h : exn -> generator B) (c : M A)
    (k : A -> generator B) (w : world) (a : A) (w1 : world) :
  c w = (Ok a, w1) -> run_gen (attempt h c k) w = run_gen (k a) w1.
Proof. unfold run_gen, attempt. now intros ->. Qed.

Lemma stream_lines_break (env : environment) (m : string) (t0 : Z) (full : string)
    (tail : list stream_line) (ending : option exn) (e : exn) (w : world) :
  stream_break tail ending e ->
  stream_lines env m t0 full tail ending w = (Raise e, w).
Proof.
  intros H. destruct H as [e | line rest ending reason Hline]; [reflexivity|].
  destruct Hline as [msg | v Hv | d token Htok Htruthy Hstr].
  - reflexivity.
  - cbn [stream_lines]. unfold bind, lift.
    destruct v; try reflexivity. exfalso. now apply (Hv d).
  - cbn [stream_lines]. unfold bind, lift. cbn [py_get]. rewrite Htok, Htruthy.
    destruct token; try reflexivity. exfalso. now apply (Hstr s).
Qed.

Section RelayRuns.

Variable env : environment.
Variable json_dumps : bool -> pyval -> string.

(** A chunk marked [done], when the elapsed time can be computed and the
    log file can be opened. *)
Lemma close_stream_run (request : GenerateRequest) (t0 : Z) (chunk : dict)
    (full : string) (w : world) (ms : Z) :
  elapsed_ms t0 (now_at env (ticks w)) = Ok ms ->
  write_error env (S (S (ticks w))) = None ->
  run_gen (close_stream env json_dumps request t0 chunk full) w
  = ([sse json_dumps chunk; sse_done], None,
     {| ticks := S (S (ticks w)); sent := sent w;
        log_file :=
          Some (log_lines w
                ++ [entry_line json_dumps
                      (log_entry_of (isoformat (now_at env (ticks w))) (prompt request)
                         (stream_log_data chunk full (now_at env (ticks w)) ms))]) |}).
Proof.
  intros Hms Hwrite. unfold close_stream. rewrite run_gen_yield, run_gen_now.
  unfold log_and_finish, run_gen, attempt, lift. rewrite Hms.
  rewrite log_interaction_outcome. unfold dict_get at 1.
  rewrite stream_log_data_timestamp. cbn [py_isoformat tick ticks].
  rewrite Hwrite. reflexivity.
Qed.

(** The fallback chunk has a token and is marked [done]: it is relayed
    twice. *)
Lemma relay_fallback_chunk (request : GenerateRequest) (T0 : Z) (p m reason : string)
    (t : Z) (resume : world -> result (gen dict) * world) (full : string) (w : world) :
  run_gen (relay env json_dumps request T0 (Yield (fallback_chunk p m reason t) resume)
             full) w
  = let '(l, e, wf) :=
      run_gen (close_stream env json_dumps request T0 (fallback_chunk p m reason t)
                 (full ++ select_fallback_text p)) w in
    (sse json_dumps (fallback_chunk p m reason t) :: l, e, wf).
Proof.
  rewrite relay_unfold. cbv zeta.
  change (dict_get (fallback_chunk p m reason t) "token" VNone)
    with (VStr (select_fallback_text p)).
  rewrite select_fallback_text_truthy, run_gen_yield.
  rewrite (run_gen_attempt_ok _ _ _ _ (VStr (select_fallback_text p)) w) by reflexivity.
  rewrite (run_gen_attempt_ok _ _ _ _ (full ++ select_fallback_text p)%string w)
    by reflexivity.
  reflexivity.
Qed.

(** The closing chunk has no token and is marked [done]. *)
Lemma relay_closing_chunk (request : GenerateRequest) (T0 : Z) (m full_s : string)
    (t ms : Z) (resume : world -> result (gen dict) * world) (full : string) (w : world) :
  run_gen (relay env json_dumps request T0 (Yield (terminal_chunk m full_s t ms) resume)
             full) w
  = run_gen (close_stream env json_dumps request T0 (terminal_chunk m full_s t ms) full) w.
Proof. reflexivity. Qed.

(** The loop of [generate_stream] over the chunks of quiet lines: one
    event for each token chunk, the text accumulated on both sides, and
    then whatever the lines that follow give rise to. *)
Lemma relay_quiet_prefix (request : GenerateRequest) (T0 : Z) (m : string) (t0 : Z)
    (h : exn -> generator dict) (tail : list stream_line) (ending : option exn)
    (qs : list stream_line) :
  Forall quiet_line qs ->
  forall (full_s full_r : string) (w : world) (g2 : gen dict) (w2 : world),
    try_gen (stream_lines env m t0 (full_s ++ tokens_text qs) tail ending) h
      (advance (token_count qs) w) = (Ok g2, w2) ->
    exists g w1,
      try_gen (stream_lines env m t0 full_s (qs ++ tail) ending) h w = (Ok g, w1)
      /\ run_gen (relay env json_dumps request T0 g full_r) w1
         = let '(l, e, wf) :=
             run_gen (relay env json_dumps request T0 g2 (full_r ++ tokens_text qs)) w2 in
           (map (sse json_dumps) (token_chunks env m qs (ticks w)) ++ l, e, wf).
Proof.
  intros Hqs.
  induction Hqs as [|line qs Hline Hqs IH]; intros full_s full_r w g2 w2 Htail.
  - cbn [app token_count tokens_text token_chunks map] in *.
    rewrite append_empty, advance_zero in Htail. rewrite append_empty.
    exists g2, w2. split; [exact Htail|].
    destruct (run_gen _ w2) as [[l e] wf]. reflexivity.
  - destruct line as [| msg | msg | v]; try contradiction.
    + exact (IH full_s full_r w g2 w2 Htail).
    + exact (IH full_s full_r w g2 w2 Htail).
    + destruct v; try contradiction. destruct Hline as [Hdone0 [s Htok0]].
      cbn [tokens_text token_count token_chunks token_text] in Htail |- *.
      unfold token_chunk. cbn [token_text].
      rewrite Htok0 in Htail |- *.
      destruct (String.eqb s "") eqn:Hs.
      * apply String.eqb_eq in Hs. subst s.
        destruct (IH full_s full_r w g2 w2 Htail) as (g & w1 & Hstep & Hrelay).
        exists g, w1. split; [|exact Hrelay].
        unfold try_gen in Hstep |- *. cbn [app stream_lines]. unfold bind, lift.
        cbn [py_get]. rewrite Htok0, Hdone0. exact Hstep.
      * rewrite <- append_assoc, <- advance_tick in Htail.
        destruct (IH (full_s ++ s)%string (full_r ++ s)%string (tick w) g2 w2 Htail)
          as (g' & w1 & Hstep & Hrelay).
        unfold try_gen at 1. cbn [app stream_lines]. unfold bind, lift. cbn [py_get].
        rewrite Htok0, Hdone0. cbn [truthy]. rewrite Hs. cbn [negb str_iadd].
        unfold datetime_now. fold (tick w). unfold yield at 1, ret.
        eexists; eexists. split; [reflexivity|].
        cbn [guard_gen]. rewrite relay_unfold. cbv zeta.
        change (dict_get _ "token" VNone) with (VStr s).
        cbn [truthy]. rewrite Hs. cbn [negb].
        rewrite run_gen_yield.
        rewrite (run_gen_attempt_ok _ _ _ _ (VStr s) (tick w)) by reflexivity.
        rewrite (run_gen_attempt_ok _ _ _ _ (full_r ++ s)%string (tick w)) by reflexivity.
        unfold close_or_continue at 1.
        change (dict_get _ "done" VNone) with (dict_get d "done" (VBool false)).
        rewrite Hdone0. unfold run_gen at 1, next_chunk at 1.
        unfold try_gen in Hstep. rewrite Hstep.
        fold (run_gen (relay env json_dumps request T0 g' (full_r ++ s)) w1).
        rewrite Hrelay, !append_assoc. clear Hrelay.
        destruct (run_gen (relay _ _ _ _ g2 _) w2) as [[l e] wf]. reflexivity.
Qed.

End RelayRuns.

Section StreamRuns.

Variable env : environment.
Variable json_dumps : bool -> pyval -> string.
Variable self : OllamaService.

Lemma stream_attempt_lines (p m : string) (w : world) (resp : response) :
  post_reply env (generate_payload m p true) = Ok resp ->
  status_code resp = 200 ->
  stream_attempt env self p m w
  = try_gen (stream_lines env m (now_at env (ticks w)) "" (lines resp) (lines_end resp))
      (stream_handler env p m) (posted self p m w).
Proof.
  intros Hpost Hst. unfold stream_attempt. fold (stream_handler env p m).
  unfold try_gen, bind, datetime_now, requests_post. cbn [fst snd].
  now rewrite Hpost, Hst.
Qed.

(** In streaming mode the caller receives what the loop of
    [generate_stream] makes of the chunks of the service. *)
Lemma serve_stream_first (request : GenerateRequest) (w : world) (g : gen dict)
    (w1 : world) :
  stream request = Some true ->
  generate_response_stream env self (prompt request) (model request) (tick w)
  = (Ok g, w1) ->
  serve_generate env json_dumps self request w
  = let '(events, failure, w') :=
      run_gen (relay env json_dumps request (now_at env (ticks w)) g "") w1 in
    (ServedStream events failure, w').
Proof.
  intros Hmode Hfirst. unfold serve_generate, generate_endpoint, try_except.
  rewrite Hmode. cbn [truthy ret].
  unfold generate_stream. rewrite run_gen_now.
  now rewrite (run_gen_attempt_ok _ _ _ _ _ _ Hfirst).
Qed.

(** A reply with status 200 whose first lines are quiet: the token events,
    and then what the remaining lines give rise to. *)
Lemma serve_stream_quiet (request : GenerateRequest) (w : world) (resp : response)
    (qs tail : list stream_line) (g2 : gen dict) (w2 : world) :
  let p := prompt request in
  let m := resolved_model self (model request) (listed env (S (gets w))) in
  let w0 := posted self p m (probed self (tick w)) in
  stream request = Some true ->
  probe_ok env (gets w) = true ->
  post_reply env (generate_payload m p true) = Ok resp ->
  status_code resp = 200 ->
  lines resp = qs ++ tail ->
  Forall quiet_line qs ->
  try_gen (stream_lines env m (now_at env (S (ticks w))) (tokens_text qs) tail
             (lines_end resp))
    (stream_handler env p m) (advance (token_count qs) w0) = (Ok g2, w2) ->
  serve_generate env json_dumps self request w
  = let '(l, e, wf) :=
      run_gen (relay env json_dumps request (now_at env (ticks w)) g2 (tokens_text qs))
        w2 in
    (ServedStream (map (sse json_dumps) (token_chunks env m qs (ticks w0)) ++ l) e, wf).
Proof.
  intros p m w0 Hmode Hprobe Hpost Hst Hlines Hqs Htail.
  destruct (relay_quiet_prefix env json_dumps request (now_at env (ticks w)) m
              (now_at env (S (ticks w))) (stream_handler env p m) tail (lines_end resp)
              qs Hqs "" "" w0 g2 w2 Htail)
    as (g & w1 & Hstep & Hrelay).
  rewrite <- Hlines in Hstep.
  assert (Hfirst : generate_response_stream env self p (model request) (tick w)
                   = (Ok g, w1)).
  { rewrite generate_response_stream_unfold.
    change (probe_ok env (gets (tick w))) with (probe_ok env (gets w)). rewrite Hprobe.
    change (stream_attempt env self p m (probed self (tick w)) = (Ok g, w1)).
    rewrite (stream_attempt_lines p m (probed self (tick w)) resp Hpost Hst).
    exact Hstep. }
  rewrite (serve_stream_first request w g w1 Hmode Hfirst), Hrelay.
  cbn [append].
  destruct (run_gen (relay _ _ _ _ g2 _) w2) as [[l e] wf]. reflexivity.
Qed.

End StreamRuns.

(** X21. In streaming mode, when the service refuses before it reads any
    line (the server is unavailable, the generation call raises, or its
    status is not 200), the handler sends the fallback chunk twice, once
    because it has a token and once because it is marked [done], and then
    the end sentinel; and, the elapsed time being computable and the disk
    not failing, it appends one entry with [success] false, the reason,
    and the fallback text as the response. *)
Theorem refused_stream_is_relayed_twice (env : environment)
    (json_dumps : bool -> pyval -> string) (self : OllamaService)
    (request : GenerateRequest) (w : world) (reason : string) :
  stream request = Some true ->
  stream_refusal env self (prompt request) (model request) w reason ->
  measurable env ->
  writable env ->
  exists c entry w',
    serve_generate env json_dumps self request w
    = (ServedStream [sse json_dumps c; sse json_dumps c; sse_done] None, w')
    /\ chunk_done c = true
    /\ chunk_token c = select_fallback_text (prompt request)
    /\ lookup "error_reason" c = Some (VStr reason)
    /\ log_lines w' = log_lines w ++ [(json_dumps false (VDict entry) ++ newline)%string]
    /\ lookup "prompt" entry = Some (VStr (prompt request))
    /\ lookup "response" entry = Some (VStr (select_fallback_text (prompt request)))
    /\ lookup "success" entry = Some (VBool false)
    /\ lookup "error_reason" entry = Some (VStr reason).
Proof.
  intros Hmode Hrefusal Hclock Hdisk.
  destruct (stream_refusal_first env self (prompt request) (model request) (tick w) reason
              (stream_refusal_tick _ _ _ _ _ _ Hrefusal))
    as (m & t & resume & w1 & Hfirst & Hlog).
  destruct (Hclock (ticks w) (ticks w1)) as [ms Hms].
  rewrite (serve_stream_first env json_dumps self request w _ w1 Hmode Hfirst).
  rewrite relay_fallback_chunk.
  rewrite (close_stream_run env json_dumps request _ _ _ w1 ms Hms (Hdisk _)).
  eexists; eexists; eexists. split; [reflexivity|].
  split; [reflexivity|]. split; [reflexivity|]. split; [reflexivity|].
  split; [unfold log_lines at 1; cbn [log_file]; unfold log_lines; now rewrite Hlog|].
  now repeat split.
Qed.

(** The server refuses the connection: the fallback chunk for "Hello",
    twice, and the sentinel; one entry is written. *)
Lemma refused_stream_is_relayed_twice_witness :
  exists c entry w',
    serve_generate refusing ref_dumps local_service hello_request fresh_world
    = (ServedStream [sse ref_dumps c; sse ref_dumps c; sse_done] None, w')
    /\ chunk_done c = true
    /\ chunk_token c = select_fallback_text "Hello"
    /\ lookup "error_reason" c = Some (VStr "Ollama service unavailable")
    /\ log_lines w' = [(ref_dumps false (VDict entry) ++ newline)%string]
    /\ lookup "prompt" entry = Some (VStr "Hello")
    /\ lookup "response" entry = Some (VStr (select_fallback_text "Hello"))
    /\ lookup "success" entry = Some (VBool false)
    /\ lookup "error_reason" entry = Some (VStr "Ollama service unavailable").
Proof.
  refine (refused_stream_is_relayed_twice refusing ref_dumps local_service hello_request
            fresh_world "Ollama service unavailable" eq_refl _ _ (fun _ => eq_refl)).
  - apply StreamUnavailable. reflexivity.
  - intros i j. exists 0. reflexivity.
Defined.

(** X22. In streaming mode, when the server answers 200 and its lines are
    quiet ones followed by an object with a truthy [done] and an empty
    token, the handler sends one event for each token chunk, then the
    closing chunk, then the end sentinel; and, the elapsed time being
    computable and the disk not failing, it appends one entry, with
    [success] true, the resolved model and no [error_reason].  The
    [response] of the entry is the concatenation of the tokens as they
    came, whereas the [full_response] of the closing chunk is that text
    with the whitespace removed at both ends. *)
Theorem closed_stream_is_logged_unstripped (env : environment)
    (json_dumps : bool -> pyval -> string) (self : OllamaService)
    (request : GenerateRequest) (w : world) (resp : response)
    (qs : list stream_line) (d : dict) (rest : list stream_line) :
  let m := resolved_model self (model request) (listed env (S (gets w))) in
  stream request = Some true ->
  probe_ok env (gets w) = true ->
  post_reply env (generate_payload m (prompt request) true) = Ok resp ->
  status_code resp = 200 ->
  lines resp = qs ++ Parsed (VDict d) :: rest ->
  Forall quiet_line qs ->
  truthy (dict_get d "done" (VBool false)) = true ->
  truthy (dict_get d "response" (VStr "")) = false ->
  measurable env ->
  writable env ->
  exists tokens closing entry w',
    serve_generate env json_dumps self request w
    = (ServedStream (map (sse json_dumps) tokens ++ [sse json_dumps closing; sse_done])
         None, w')
    /\ List.length tokens = token_count qs
    /\ join (map chunk_token tokens) = tokens_text qs
    /\ lookup "full_response" closing = Some (VStr (strip (tokens_text qs)))
    /\ log_lines w' = log_lines w ++ [(json_dumps false (VDict entry) ++ newline)%string]
    /\ lookup "prompt" entry = Some (VStr (prompt request))
    /\ lookup "response" entry = Some (VStr (tokens_text qs))
    /\ lookup "model" entry = Some (VStr m)
    /\ lookup "success" entry = Some (VBool true)
    /\ lookup "error_reason" entry = None.
Proof.
  intros m Hmode Hprobe Hpost Hst Hlines Hqs Hdone Htok Hclock Hdisk.
  set (p := prompt request) in *.
  set (w0 := advance (token_count qs) (posted self p m (probed self (tick w)))).
  destruct (Hclock (S (ticks w)) (ticks w0)) as [ms Hms].
  destruct (Hclock (ticks w) (S (ticks w0))) as [ms2 Hms2].
  assert (Htail : exists resume,
             try_gen (stream_lines env m (now_at env (S (ticks w))) (tokens_text qs)
                        (Parsed (VDict d) :: rest) (lines_end resp))
               (stream_handler env p m) w0
             = (Ok (Yield (terminal_chunk m (tokens_text qs) (now_at env (ticks w0)) ms)
                      resume), tick w0)).
  { unfold try_gen. cbn [stream_lines]. unfold bind, lift. cbn [py_get].
    rewrite Htok, Hdone. unfold datetime_now. rewrite Hms.
    eexists. reflexivity. }
  destruct Htail as [resume Htail].
  rewrite (serve_stream_quiet env json_dumps self request w resp qs _ _ _
             Hmode Hprobe Hpost Hst Hlines Hqs Htail).
  rewrite relay_closing_chunk.
  rewrite (close_stream_run env json_dumps request _ _ _ (tick w0) ms2 Hms2 (Hdisk _)).
  eexists; eexists; eexists; eexists. split; [reflexivity|].
  split; [apply token_chunks_length|]. split; [apply token_chunks_join|].
  now repeat split.
Qed.

(** "Hel", a malformed line, "lo " and the closing object: two token
    events, the closing chunk with "Hello", the sentinel; the entry holds
    "Hello " with its trailing space. *)
Lemma closed_stream_is_logged_unstripped_witness :
  exists tokens closing entry w',
    serve_generate hello_stream_still ref_dumps local_service streaming_request fresh_world
    = (ServedStream (map (sse ref_dumps) tokens ++ [sse ref_dumps closing; sse_done])
         None, w')
    /\ List.length tokens = 2%nat
    /\ join (map chunk_token tokens) = "Hello "
    /\ lookup "full_response" closing = Some (VStr "Hello")
    /\ log_lines w' = [(ref_dumps false (VDict entry) ++ newline)%string]
    /\ lookup "prompt" entry = Some (VStr "Hi")
    /\ lookup "response" entry = Some (VStr "Hello ")
    /\ lookup "model" entry = Some (VStr "llama2")
    /\ lookup "success" entry = Some (VBool true)
    /\ lookup "error_reason" entry = None.
Proof.
  refine (closed_stream_is_logged_unstripped hello_stream_still ref_dumps local_service
            streaming_request fresh_world _ hello_lines
            [("response", VStr ""); ("done", VBool true)] []
            eq_refl eq_refl eq_refl eq_refl eq_refl _ eq_refl eq_refl _ (fun _ => eq_refl)).
  - unfold hello_lines.
    repeat (apply Forall_cons || apply Forall_nil); simpl;
      try exact I; (split; [reflexivity | eexists; reflexivity]).
  - intros i j. exists 0. reflexivity.
Defined.

(** X23. In streaming mode, when the server answers 200 and the stream
    ends, without an exception, after lines that are all quiet, the
    handler sends one event for each token chunk and then the end
    sentinel, and it appends nothing to the log: no chunk is marked
    [done], so the statement that logs is not reached, whatever the state
    of the disk. *)
Theorem open_ended_stream_is_not_logged (env : environment)
    (json_dumps : bool -> pyval -> string) (self : OllamaService)
    (request : GenerateRequest) (w : world) (resp : response) :
  let m := resolved_model self (model request) (listed env (S (gets w))) in
  stream request = Some true ->
  probe_ok env (gets w) = true ->
  post_reply env (generate_payload m (prompt request) true) = Ok resp ->
  status_code resp = 200 ->
  Forall quiet_line (lines resp) ->
  lines_end resp = None ->
  exists tokens w',
    serve_generate env json_dumps self request w
    = (ServedStream (map (sse json_dumps) tokens ++ [sse_done]) None, w')
    /\ List.length tokens = token_count (lines resp)
    /\ join (map chunk_token tokens) = tokens_text (lines resp)
    /\ log_file w' = log_file w.
Proof.
  intros m Hmode Hprobe Hpost Hst Hqs Hend.
  assert (Hlines : lines resp = lines resp ++ []) by now rewrite app_nil_r.
  rewrite (serve_stream_quiet env json_dumps self request w resp (lines resp) [] Done _
             Hmode Hprobe Hpost Hst Hlines Hqs)
    by (rewrite Hend; reflexivity).
  eexists; eexists. split; [reflexivity|].
  split; [apply token_chunks_length|]. split; [apply token_chunks_join | reflexivity].
Qed.

(** One token, "Hi", and the end of the stream: the token event and the
    sentinel; no log file comes to exist. *)
Lemma open_ended_stream_is_not_logged_witness :
  exists tokens w',
    serve_generate truncated_stream ref_dumps local_service streaming_request fresh_world
    = (ServedStream (map (sse ref_dumps) tokens ++ [sse_done]) None, w')
    /\ List.length tokens = 1%nat
    /\ join (map chunk_token tokens) = "Hi"
    /\ log_file w' = None.
Proof.
  refine (open_ended_stream_is_not_logged truncated_stream ref_dumps local_service
            streaming_request fresh_world _ eq_refl eq_refl eq_refl eq_refl _ eq_refl).
  repeat (apply Forall_cons || apply Forall_nil); simpl.
  split; [reflexivity | eexists; reflexivity].
Defined.

(** X24. In streaming mode, when the server answers 200 and, after quiet
    lines, the stream breaks (the iteration raises, or a line comes at
    which the loop body raises), the handler sends the token events, then
    the fallback chunk twice, then the end sentinel; and, the elapsed time
    being computable and the disk not failing, it appends one entry with
    [success] false and the reason.  The [response] of the entry is the
    text of the tokens received so far followed by the fallback text. *)
Theorem broken_stream_is_logged_with_partial_text (env : environment)
    (json_dumps : bool -> pyval -> string) (self : OllamaService)
    (request : GenerateRequest) (w : world) (resp : response)
    (qs tail : list stream_line) (e : exn) :
  let m := resolved_model self (model request) (listed env (S (gets w))) in
  stream request = Some true ->
  probe_ok env (gets w) = true ->
  post_reply env (generate_payload m (prompt request) true) = Ok resp ->
  status_code resp = 200 ->
  lines resp = qs ++ tail ->
  Forall quiet_line qs ->
  stream_break tail (lines_end resp) e ->
  measurable env ->
  writable env ->
  exists tokens c entry w',
    serve_generate env json_dumps self request w
    = (ServedStream
         (map (sse json_dumps) tokens ++ [sse json_dumps c; sse json_dumps c; sse_done])
         None, w')
    /\ List.length tokens = token_count qs
    /\ join (map chunk_token tokens) = tokens_text qs
    /\ chunk_done c = true
    /\ lookup "error_reason" c = Some (VStr (failure_reason e))
    /\ log_lines w' = log_lines w ++ [(json_dumps false (VDict entry) ++ newline)%string]
    /\ lookup "response" entry
       = Some (VStr (tokens_text qs ++ select_fallback_text (prompt request)))
    /\ lookup "model" entry = Some (VStr (m ++ " (fallback)"))
    /\ lookup "success" entry = Some (VBool false)
    /\ lookup "error_reason" entry = Some (VStr (failure_reason e)).
Proof.
  intros m Hmode Hprobe Hpost Hst Hlines Hqs Hbreak Hclock Hdisk.
  set (p := prompt request) in *.
  set (w0 := advance (token_count qs) (posted self p m (probed self (tick w)))).
  destruct (Hclock (ticks w) (S (ticks w0))) as [ms Hms].
  assert (Htail :
             try_gen (stream_lines env m (now_at env (S (ticks w))) (tokens_text qs)
                        tail (lines_end resp))
               (stream_handler env p m) w0
             = (Ok (Yield (fallback_chunk p m (failure_reason e) (now_at env (ticks w0)))
                      stop), tick w0)).
  { unfold try_gen. rewrite (stream_lines_break env _ _ _ _ _ e _ Hbreak).
    destruct e; reflexivity. }
  rewrite (serve_stream_quiet env json_dumps self request w resp qs tail _ _
             Hmode Hprobe Hpost Hst Hlines Hqs Htail).
  rewrite relay_fallback_chunk.
  rewrite (close_stream_run env json_dumps request _ _ _ (tick w0) ms Hms (Hdisk _)).
  eexists; eexists; eexists; eexists. split; [reflexivity|].
  split; [apply token_chunks_length|]. split; [apply token_chunks_join|].
  now repeat split.
Qed.

(** The token "Hi", then a line that holds [[]]: the token event, the
    fallback chunk twice, the sentinel; the entry holds "Hi" followed by
    the fallback text. *)
Lemma broken_stream_is_logged_with_partial_text_witness :
  exists tokens c entry w',
    serve_generate broken_stream_still ref_dumps local_service streaming_request
      fresh_world
    = (ServedStream
         (map (sse ref_dumps) tokens ++ [sse ref_dumps c; sse ref_dumps c; sse_done])
         None, w')
    /\ List.length tokens = 1%nat
    /\ join (map chunk_token tokens) = "Hi"
    /\ chunk_done c = true
    /\ lookup "error_reason" c = Some (VStr "'list' object has no attribute 'get'")
    /\ log_lines w' = [(ref_dumps false (VDict entry) ++ newline)%string]
    /\ lookup "response" entry = Some (VStr ("Hi" ++ select_fallback_text "Hi"))
    /\ lookup "model" entry = Some (VStr "llama2 (fallback)")
    /\ lookup "success" entry = Some (VBool false)
    /\ lookup "error_reason" entry
       = Some (VStr "'list' object has no attribute 'get'").
Proof.
  refine (broken_stream_is_logged_with_partial_text broken_stream_still ref_dumps
            local_service streaming_request fresh_world _
            [Parsed (VDict [("response", VStr "Hi"); ("done", VBool false)])]
            [Parsed (VList [])] (PyError "'list' object has no attribute 'get'")
            eq_refl eq_refl eq_refl eq_refl eq_refl _
            (BreakAtLine (Parsed (VList [])) [] None _ (AbortNotObject (VList []) _))
            _ (fun _ => eq_refl)).
  - repeat (apply Forall_cons || apply Forall_nil); simpl.
    split; [reflexivity | eexists; reflexivity].
  - intros d H. discriminate H.
  - intros i j. exists 0. reflexivity.
Defined.
